(** * Investment-strategy simulator and return calculator

    A shallow embedding of the computational core of the three scripts
    [market-analysis.py], [rolling-20year.py] and [stock-analysis.py]:
    the yearly / monthly buy loops over a price history and the
    [calculate_returns] arithmetic.

    Numbers.  A Python / numpy float is modelled as a real number; a column
    entry that pandas may report as missing is a [float], that is an
    [option R] whose [None] is NaN.  Rounding, overflow and the infinities
    that numpy produces when dividing by a zero price are outside the model;
    a division of Python floats by zero raises [ZeroDivisionError], which
    is in the model.

    Index.  A [DataFrame] is the list of its rows in index order.  The
    [DatetimeIndex] delivered by [Ticker.history] is chronological; the
    label slicing of [market-analysis.py] relies on it, and so does the
    model of [resample], which keeps the rows of a bin in the order of the
    frame where pandas takes them in the order of the index. *)

From Stdlib Require Import Reals Lra Lia List Arith Bool.
Import ListNotations.

Open Scope R_scope.

(** ** Floats with NaN, exceptions *)

Definition float := option R.

Definition NaN : float := None.

(** [x * y] for a number [x] and a possibly missing [y] *)
Definition fmul (x : R) (y : float) : float := option_map (Rmult x) y.

Inductive exn := IndexError | ZeroDivisionError.

Inductive result (A : Type) : Type :=
| Ok (a : A)
| Raise (e : exn).

Arguments Ok {A} a.
Arguments Raise {A} e.

Definition bind {A B : Type} (r : result A) (k : A -> result B) : result B :=
  match r with
  | Ok a => k a
  | Raise e => Raise e
  end.

Notation "x <- r ;; k" := (bind r (fun x => k))
  (at level 61, r at next level, right associativity).

(** ** Dates, bars and the pandas operations the scripts call *)

Record date := mkdate { year : nat; month : nat; day : nat }.

Definition date_leb (a b : date) : bool :=
  (year a <? year b)%nat
  || ((year a =? year b)%nat
      && ((month a <? month b)%nat
          || ((month a =? month b)%nat && (day a <=? day b)%nat))).

Definition date_ltb (a b : date) : bool := negb (date_leb b a).

Definition valid_date (d : date) : bool :=
  (1 <=? month d)%nat && (month d <=? 12)%nat
  && (1 <=? day d)%nat && (day d <=? 31)%nat.

(** One row of the frame returned by [Ticker.history]. *)
Record bar := mkbar {
  timestamp : date;
  Open : float;
  High : float;
  Low : float;
  Close : float
}.

Definition DataFrame := list bar.

(** [data.empty] *)
Definition empty (data : DataFrame) : bool :=
  match data with [] => true | _ :: _ => false end.

(** [s.iloc[-1]]: the last entry by position, [IndexError] on an empty
    column. *)
Fixpoint iloc_last {A : Type} (l : list A) : result A :=
  match l with
  | [] => Raise IndexError
  | [x] => Ok x
  | _ :: rest => iloc_last rest
  end.

(** Timestamps strictly increasing, every date a calendar date. *)
Fixpoint increasing (data : DataFrame) : bool :=
  match data with
  | [] => true
  | b :: rest =>
      match rest with
      | [] => true
      | b' :: _ => date_ltb (timestamp b) (timestamp b') && increasing rest
      end
  end.

Definition chronological (data : DataFrame) : bool :=
  forallb (fun b => valid_date (timestamp b)) data && increasing data.

(** *** Bucketing *)

(** The calendar month of a date, counted from year 0. *)
Definition month_index (d : date) : nat := (12 * year d + (month d - 1))%nat.

(** Every key from the smallest to the largest one present: the bins of
    [resample] cover the whole range, also where no row falls. *)
Definition span (keys : list nat) : list nat :=
  match keys with
  | [] => []
  | k :: ks =>
      let lo := fold_right Nat.min k ks in
      let hi := fold_right Nat.max k ks in
      seq lo (hi - lo + 1)
  end.

Definition bucket := (nat * DataFrame)%type.

Definition in_bucket (key : date -> nat) (k : nat) (b : bar) : bool :=
  (key (timestamp b) =? k)%nat.

(** [data.resample(rule)]: one bin per period of the span, each with the
    rows that fall into it, in the order of the frame (on a chronological
    index this is the order pandas gives them). *)
Definition resample (key : date -> nat) (data : DataFrame) : list bucket :=
  map (fun k => (k, filter (in_bucket key k) data))
      (span (map (fun b => key (timestamp b)) data)).

(** [data.groupby(data.index.to_period(...))]: groups in key order, only
    for the periods that have rows. *)
Definition groupby (key : date -> nat) (data : DataFrame) : list bucket :=
  filter (fun g => negb (empty (snd g))) (resample key data).

(** Bin labels: year end ("YE"), year start ("YS"), month start ("MS"),
    and [Period.to_timestamp] of a yearly period. *)
Definition YE (y : nat) : date := mkdate y 12 31.
Definition YS (y : nat) : date := mkdate y 1 1.
Definition MS (m : nat) : date := mkdate (m / 12) (m mod 12 + 1) 1.
Definition to_timestamp (y : nat) : date := mkdate y 1 1.

(** *** Date offsets

    [pd.DateOffset] moves a date by whole calendar months or years and clips
    the day to the length of the month it lands in.  Dates are calendar
    dates without the bounds of [pd.Timestamp]; a subtraction that would
    leave the calendar (before year 0) is not in the model. *)

Definition is_leap_year (y : nat) : bool :=
  ((y mod 4 =? 0)%nat && negb (y mod 100 =? 0)%nat) || (y mod 400 =? 0)%nat.

Definition days_in_month (y m : nat) : nat :=
  match m with
  | 2%nat => if is_leap_year y then 29%nat else 28%nat
  | 4%nat | 6%nat | 9%nat | 11%nat => 30%nat
  | _ => 31%nat
  end.

(** [d + pd.DateOffset(months=n)] *)
Definition add_months (d : date) (n : nat) : date :=
  let m := (month_index d + n)%nat in
  let y := (m / 12)%nat in
  let mo := (m mod 12 + 1)%nat in
  mkdate y mo (Nat.min (day d) (days_in_month y mo)).

(** [d + pd.DateOffset(years=n)] *)
Definition add_years (d : date) (n : nat) : date :=
  let y := (year d + n)%nat in
  mkdate y (month d) (Nat.min (day d) (days_in_month y (month d))).

(** [d - pd.DateOffset(years=n)] *)
Definition sub_years (d : date) (n : nat) : date :=
  let y := (year d - n)%nat in
  mkdate y (month d) (Nat.min (day d) (days_in_month y (month d))).

(** *** Aggregations; all of them skip missing entries *)

Definition dropna (col : list float) : list R :=
  flat_map (fun x => match x with Some r => [r] | None => [] end) col.

Definition agg_min (col : list float) : float :=
  match dropna col with
  | [] => NaN
  | x :: xs => Some (fold_left Rmin xs x)
  end.

Definition agg_max (col : list float) : float :=
  match dropna col with
  | [] => NaN
  | x :: xs => Some (fold_left Rmax xs x)
  end.

Definition agg_first (col : list float) : float :=
  match dropna col with
  | [] => NaN
  | x :: _ => Some x
  end.

(** The label of the first row whose entry is [m]. *)
Fixpoint idx_of (m : R) (rows : list (date * float)) : option date :=
  match rows with
  | [] => None
  | (d, Some x) :: rest => if Req_dec_T x m then Some d else idx_of m rest
  | (_, None) :: rest => idx_of m rest
  end.

Definition labelled (col : bar -> float) (bs : DataFrame) : list (date * float) :=
  map (fun b => (timestamp b, col b)) bs.

(** [idxmin] / [idxmax]: missing when the whole group is missing, as in
    the pandas for which the loops test [pd.isna(buy_date)]; a later pandas
    raises [ValueError] there, which is not in the model. *)
Definition agg_idxmin (col : bar -> float) (bs : DataFrame) : option date :=
  match agg_min (map col bs) with
  | None => None
  | Some m => idx_of m (labelled col bs)
  end.

Definition agg_idxmax (col : bar -> float) (bs : DataFrame) : option date :=
  match agg_max (map col bs) with
  | None => None
  | Some m => idx_of m (labelled col bs)
  end.

(** ** The buy loop

    [rolling-20year.py] and [stock-analysis.py] repeat the same loop body in
    each strategy:
<<
    for label, price in rows:
        if pd.isna(price) [or pd.isna(buy_date)]:
            continue
        shares_bought = amount / price
        shares_owned += shares_bought
        buying_points.append((buy_date, price))
>>
    The loop threads [shares_owned] and [buying_points]; [pd.isna] is the
    test for [None].

    The division depends on what the rows hold.  [immediate_investing] and
    [dollar_cost_averaging] of [stock-analysis.py] iterate over the rows of
    an all-numeric frame, whose entries are numpy floats: dividing by zero
    raises nothing (and gives an infinity, which is no number of the
    model); this is [buy_loop].  The other strategies get Python floats,
    from [Series.items()] or from the rows of a frame that has a date
    column beside the price: there [amount / price] raises
    [ZeroDivisionError] at a zero price; this is [buy_loop_py]. *)

Definition buy_event := (date * R)%type.

Definition row := (option date * float)%type.

Fixpoint buy_loop (amount : R) (rows : list row)
    (shares_owned : R) (buying_points : list buy_event) : R * list buy_event :=
  match rows with
  | [] => (shares_owned, buying_points)
  | (Some buy_date, Some price) :: rest =>
      let shares_bought := amount / price in
      buy_loop amount rest (shares_owned + shares_bought)
               (buying_points ++ [(buy_date, price)])
  | _ :: rest => buy_loop amount rest shares_owned buying_points
  end.

(** [x / y] on Python floats. *)
Definition py_div (x y : R) : result R :=
  if Req_dec_T y 0 then Raise ZeroDivisionError else Ok (x / y).

Fixpoint buy_loop_py (amount : R) (rows : list row)
    (shares_owned : R) (buying_points : list buy_event)
  : result (R * list buy_event) :=
  match rows with
  | [] => Ok (shares_owned, buying_points)
  | (Some buy_date, Some price) :: rest =>
      shares_bought <- py_div amount price ;;
      buy_loop_py amount rest (shares_owned + shares_bought)
                  (buying_points ++ [(buy_date, price)])
  | _ :: rest => buy_loop_py amount rest shares_owned buying_points
  end.

Definition simulation := (float * list buy_event)%type.

(** [data.loc[label:]] on a chronological index: the rows from [label] on. *)
Definition loc_from (label : date) (data : DataFrame) : DataFrame :=
  filter (fun b => date_leb label (timestamp b)) data.

(** ** market-analysis.py *)

Module MarketAnalysis.

(** The loop of both strategies of this file.  It values the position
    inside the loop, and only when [data.loc[year_end:]] has rows:
<<
    for year, price in rows:
        if pd.isna(price):
            continue
        shares_bought = annual_investment / price
        shares_owned += shares_bought
        year_end = year.strftime("%Y-%m-%d")
        future_data = data.loc[year_end:]
        if not future_data.empty:
            last_close = future_data.iloc[-1]["Close"]
            portfolio_value = shares_owned * last_close
    return portfolio_value
>>
    The prices come from [Series.items()], so the division is the one of
    Python floats. *)
Fixpoint value_loop (data : DataFrame) (annual_investment : R)
    (rows : list (date * float)) (shares_owned : R) (portfolio_value : float)
  : result float :=
  match rows with
  | [] => Ok portfolio_value
  | (_, None) :: rest =>
      value_loop data annual_investment rest shares_owned portfolio_value
  | (year, Some price) :: rest =>
      shares_bought <- py_div annual_investment price ;;
      let shares_owned := shares_owned + shares_bought in
      let future_data := loc_from year data in
      if empty future_data
      then value_loop data annual_investment rest shares_owned portfolio_value
      else
        last_close <- iloc_last (map Close future_data) ;;
        value_loop data annual_investment rest shares_owned
                   (fmul shares_owned last_close)
  end.

Definition perfect_market_timing (data : DataFrame) (annual_investment : R)
  : result float :=
  let yearly_lows :=
    map (fun g => (YE (fst g), agg_min (map Low (snd g)))) (resample year data) in
  value_loop data annual_investment yearly_lows 0 (Some 0).

Definition immediate_investing (data : DataFrame) (annual_investment : R)
  : result float :=
  let yearly_first_days :=
    map (fun g => (YS (fst g), agg_first (map Open (snd g)))) (resample year data) in
  value_loop data annual_investment yearly_first_days 0 (Some 0).

End MarketAnalysis.

(** ** rolling-20year.py *)

Module Rolling20Year.

Definition yearly_lows (data : DataFrame) : list row :=
  map (fun g => (Some (YE (fst g)), agg_min (map Low (snd g))))
      (resample year data).

Definition yearly_first_days (data : DataFrame) : list row :=
  map (fun g => (Some (YS (fst g)), agg_first (map Open (snd g))))
      (resample year data).

Definition perfect_market_timing (data : DataFrame) (annual_investment : R)
  : result simulation :=
  st <- buy_loop_py annual_investment (yearly_lows data) 0 [] ;;
  last_close <- iloc_last (map Close data) ;;
  Ok (fmul (fst st) last_close, snd st).

Definition immediate_investing (data : DataFrame) (annual_investment : R)
  : result simulation :=
  st <- buy_loop_py annual_investment (yearly_first_days data) 0 [] ;;
  last_close <- iloc_last (map Close data) ;;
  Ok (fmul (fst st) last_close, snd st).

Definition calculate_strategy_returns (data : DataFrame) (annual_investment : R)
    (strategy_func : DataFrame -> R -> result simulation) : result simulation :=
  if empty data then Ok (Some 0, []) else strategy_func data annual_investment.

Section Returns.

(** [np.power], a function of the numeric library. *)
Variable np_power : R -> R -> R.

Definition calculate_returns (final_value total_invested years : R) : R * R :=
  if Req_dec_T total_invested 0 then (0, 0)
  else if Req_dec_T years 0 then (0, 0)
  else
    let total_return := (final_value - total_invested) / total_invested * 100 in
    let avg_annual_return :=
      if Rle_dec final_value 0 then -100
      else (np_power (final_value / total_invested) (1 / years) - 1) * 100 in
    (total_return, avg_annual_return).

End Returns.

Section Main.

Variable np_power : R -> R -> R.

(** [(data.index[-1] - data.index[0]).days], the whole days from the first
    row to the last one. *)
Variable index_days : DataFrame -> R.

(** [calculate_returns] on the [final_value] a strategy returns, which is
    NaN when the last close is.  The guard does not read it; past the guard
    NaN goes through the arithmetic, [NaN <= 0] being false. *)
Definition calculate_returns_nan (final_value : float)
    (total_invested years : R) : float * float :=
  match final_value with
  | Some v =>
      let returns := calculate_returns np_power v total_invested years in
      (Some (fst returns), Some (snd returns))
  | None =>
      if Req_dec_T total_invested 0 then (Some 0, Some 0)
      else if Req_dec_T years 0 then (Some 0, Some 0)
      else (NaN, NaN)
  end.

(** What [main] prints for one strategy, with the buying points it keeps
    for the chart. *)
Record report := mkreport {
  final_value : float;
  buying_points : list buy_event;
  total_return : float;
  avg_annual_return : float
}.

(** One round of the loop over the strategies in [main]. *)
Definition report_of (data : DataFrame) (annual_investment : R)
    (strategy_func : DataFrame -> R -> result simulation) : result report :=
  sim <- calculate_strategy_returns data annual_investment strategy_func ;;
  let total_invested := annual_investment * INR (length (snd sim)) in
  let years := Rmax (index_days data / 365.25) 1 in
  let returns := calculate_returns_nan (fst sim) total_invested years in
  Ok (mkreport (fst sim) (snd sim) (fst returns) (snd returns)).

(** [main] once the arguments are parsed and the data fetched: nothing is
    reported when the frame is empty, otherwise the figures of perfect
    market timing and of immediate investing, in this order. *)
Definition main (data : DataFrame) (annual_investment : R)
  : result (option (report * report)) :=
  if empty data then Ok None
  else
    timing <- report_of data annual_investment perfect_market_timing ;;
    immediate <- report_of data annual_investment immediate_investing ;;
    Ok (Some (timing, immediate)).

End Main.

End Rolling20Year.

(** ** stock-analysis.py *)

Module StockAnalysis.

Definition yearly_lows (data : DataFrame) : list row :=
  map (fun g => (agg_idxmin Low (snd g), agg_min (map Low (snd g))))
      (groupby year data).

Definition yearly_first_days (data : DataFrame) : list row :=
  map (fun g => (Some (to_timestamp (fst g)), agg_first (map Open (snd g))))
      (groupby year data).

Definition monthly_first_days (data : DataFrame) : list row :=
  map (fun g => (Some (MS (fst g)), agg_first (map Open (snd g))))
      (resample month_index data).

Definition yearly_peaks (data : DataFrame) : list row :=
  map (fun g => (agg_idxmax High (snd g), agg_max (map High (snd g))))
      (groupby year data).

Definition perfect_market_timing (data : DataFrame) (annual_investment : R)
  : result simulation :=
  st <- buy_loop_py annual_investment (yearly_lows data) 0 [] ;;
  last_close <- iloc_last (map Close data) ;;
  Ok (fmul (fst st) last_close, snd st).

Definition immediate_investing (data : DataFrame) (annual_investment : R)
  : result simulation :=
  let st := buy_loop annual_investment (yearly_first_days data) 0 [] in
  last_close <- iloc_last (map Close data) ;;
  Ok (fmul (fst st) last_close, snd st).

Definition dollar_cost_averaging (data : DataFrame) (annual_investment : R)
  : result simulation :=
  let monthly_investment := annual_investment / 12 in
  let st := buy_loop monthly_investment (monthly_first_days data) 0 [] in
  last_close <- iloc_last (map Close data) ;;
  Ok (fmul (fst st) last_close, snd st).

Definition invest_at_peaks (data : DataFrame) (annual_investment : R)
  : result simulation :=
  st <- buy_loop_py annual_investment (yearly_peaks data) 0 [] ;;
  last_close <- iloc_last (map Close data) ;;
  Ok (fmul (fst st) last_close, snd st).

(** The four strategy variants; [strategies] is the module-level dict of the
    script, keyed by these. *)
Inductive strategy_name :=
| PerfectMarketTiming
| ImmediateInvesting
| DollarCostAveraging
| InvestAtPeaks.

Definition strategies (name : strategy_name)
  : DataFrame -> R -> result simulation :=
  match name with
  | PerfectMarketTiming => perfect_market_timing
  | ImmediateInvesting => immediate_investing
  | DollarCostAveraging => dollar_cost_averaging
  | InvestAtPeaks => invest_at_peaks
  end.

Section Returns.

Variable np_power : R -> R -> R.

Definition calculate_returns (final_value total_invested years : R) : R * R :=
  if Req_dec_T total_invested 0 then (0, 0)
  else if Req_dec_T years 0 then (0, 0)
  else
    let total_return := (final_value - total_invested) / total_invested * 100 in
    let avg_annual_return :=
      if Rle_dec final_value 0 then -100
      else (np_power (final_value / total_invested) (1 / years) - 1) * 100 in
    (total_return, avg_annual_return).

End Returns.

Section RollingAnalysis.

Variable np_power : R -> R -> R.

(** [fetch_stock_data(symbol, start, end)] for the symbol under analysis, a
    call to the data provider. *)
Variable fetch_stock_data : date -> date -> DataFrame.

(** The day of [pd.to_datetime("today")]. *)
Variable today : date.

(** [calculate_returns] on the [final_value] a strategy returns, which is
    NaN when the last close is.  The guard does not read it; past the guard
    NaN goes through the arithmetic, [NaN <= 0] being false. *)
Definition calculate_returns_nan (final_value : float)
    (total_invested years : R) : float * float :=
  match final_value with
  | Some v =>
      let returns := calculate_returns np_power v total_invested years in
      (Some (fst returns), Some (snd returns))
  | None =>
      if Req_dec_T total_invested 0 then (Some 0, Some 0)
      else if Req_dec_T years 0 then (Some 0, Some 0)
      else (NaN, NaN)
  end.

(** One entry of [rolling_results]. *)
Record rolling_result := mkrolling {
  Strategy : strategy_name;
  Start_Date : date;
  End_Date : date;
  Total_Return : float;
  Avg_Annual_Return : float
}.

(** The inner loop of [calculate_rolling_analysis], over the selected
    strategies; it appends to [rolling_results]. *)
Fixpoint analyse_window (data : DataFrame) (start_date : date) (years : nat)
    (annual_investment : R) (selected_strategies : list strategy_name)
    (rolling_results : list rolling_result) : result (list rolling_result) :=
  match selected_strategies with
  | [] => Ok rolling_results
  | name :: rest =>
      sim <- strategies name data annual_investment ;;
      let final_value := fst sim in
      let total_invested := annual_investment * INR years in
      let returns := calculate_returns_nan final_value total_invested (INR years) in
      analyse_window data start_date years annual_investment rest
        (rolling_results
         ++ [mkrolling name start_date (add_years start_date years)
                       (fst returns) (snd returns)])
  end.

(** The [while] loop; [None] when [fuel] rounds were not enough to leave
    it. *)
Fixpoint rolling_loop (fuel : nat) (max_date : date) (years : nat)
    (annual_investment : R) (selected_strategies : list strategy_name)
    (start_date : date) (rolling_results : list rolling_result)
  : option (result (list rolling_result)) :=
  match fuel with
  | O => None
  | S fuel =>
      if date_leb start_date max_date then
        let data := fetch_stock_data start_date (add_years start_date years) in
        if empty data then Some (Ok rolling_results)
        else
          match analyse_window data start_date years annual_investment
                               selected_strategies rolling_results with
          | Raise e => Some (Raise e)
          | Ok rolling_results =>
              rolling_loop fuel max_date years annual_investment
                           selected_strategies (add_months start_date 1)
                           rolling_results
          end
      else Some (Ok rolling_results)
  end.

Definition calculate_rolling_analysis (fuel : nat) (start_date : date)
    (years : nat) (annual_investment : R)
    (selected_strategies : list strategy_name)
  : option (result (list rolling_result)) :=
  let max_date := sub_years today years in
  rolling_loop fuel max_date years annual_investment selected_strategies
               start_date [].

(** The body of the table that [format_rolling_analysis_table] builds: one
    table row per result, in order, each with its [row_style], whose top
    border is solid when [index % 4 == 0] ([true]) and absent otherwise.
    The markup and the two-decimal rendering of the numbers are left out. *)
Definition format_rolling_analysis_table
    (rolling_results : list rolling_result) : list (bool * rolling_result) :=
  map (fun entry : nat * rolling_result =>
         let (index, result) := entry in
         ((index mod 4 =? 0)%nat, result))
      (combine (seq 0 (length rolling_results)) rolling_results).

End RollingAnalysis.

End StockAnalysis.

(** ** Vocabulary of the statements *)

(** The purchase a row leads to: none when its price or its date is
    missing. *)
Definition purchase (r : row) : list buy_event :=
  match r with
  | (Some buy_date, Some price) => [(buy_date, price)]
  | _ => []
  end.

Definition bought (rows : list row) : list buy_event := flat_map purchase rows.

(** Shares acquired by a list of purchases of [amount] each, on top of
    [shares]. *)
Definition shares_after (amount : R) (events : list buy_event) (shares : R) : R :=
  fold_left (fun s e => s + amount / snd e) events shares.

Definition total_shares (amount : R) (events : list buy_event) : R :=
  shares_after amount events 0.

(** The number of buckets between the periods of two dates, both included. *)
Definition buckets_between (key : date -> nat) (first last : date) : nat :=
  (key last - key first + 1)%nat.

(** The bucketing rule of each strategy of [stock-analysis.py]. *)
Definition bucket_key (name : StockAnalysis.strategy_name) : date -> nat :=
  match name with
  | StockAnalysis.DollarCostAveraging => month_index
  | _ => year
  end.

(** The rows that a strategy of [stock-analysis.py] hands to its loop. *)
Definition reference_rows (name : StockAnalysis.strategy_name)
    (data : DataFrame) : list row :=
  match name with
  | StockAnalysis.PerfectMarketTiming => StockAnalysis.yearly_lows data
  | StockAnalysis.ImmediateInvesting => StockAnalysis.yearly_first_days data
  | StockAnalysis.DollarCostAveraging => StockAnalysis.monthly_first_days data
  | StockAnalysis.InvestAtPeaks => StockAnalysis.yearly_peaks data
  end.

(** Keys that never decrease along the list. *)
Fixpoint nondecreasing (l : list nat) : Prop :=
  match l with
  | [] => True
  | a :: rest =>
      match rest with
      | [] => True
      | b :: _ => (a <= b)%nat /\ nondecreasing rest
      end
  end.

(** At most one event per bucket: no two events are dated in the same
    period. *)
Definition one_per_bucket (key : date -> nat) (pts : list buy_event) : Prop :=
  NoDup (map (fun e : buy_event => key (fst e)) pts).

(** No purchase at a zero price. *)
Definition nonzero (pts : list buy_event) : Prop :=
  forall e, In e pts -> snd e <> 0.

(** No row of the frame has the price zero in the column [col]. *)
Definition never_zero (col : bar -> float) (data : DataFrame) : Prop :=
  forall b p, In b data -> col b = Some p -> p <> 0.

(** ** Concrete price histories *)

Definition june_2020 : bar :=
  mkbar (mkdate 2020 6 15) (Some 11) (Some 13) (Some 10) (Some 12).

Definition june_2021 : bar :=
  mkbar (mkdate 2021 6 15) (Some 22) (Some 26) (Some 20) (Some 25).

Definition june_2022 : bar :=
  mkbar (mkdate 2022 6 15) (Some 40) (Some 44) (Some 40) (Some 41).

Definition year_end_2021 : bar :=
  mkbar (mkdate 2021 12 31) (Some 22) (Some 26) (Some 20) (Some 25).

Definition two_years : DataFrame := [june_2020; june_2021].

(** A history with no row in 2021. *)
Definition gap_year : DataFrame := [june_2020; june_2022].

(** A bar of 20 April 2020, when the front crude-oil future traded below
    zero. *)
Definition negative_low : bar :=
  mkbar (mkdate 2020 4 20) (Some 18) (Some 18) (Some (-40)) (Some (-37)).

(** A bar whose low is negative and whose close is positive. *)
Definition negative_low_2020 : bar :=
  mkbar (mkdate 2020 6 15) (Some 18) (Some 18) (Some (-40)) (Some 20).

(** A bar whose low is zero. *)
Definition zero_low : bar :=
  mkbar (mkdate 2020 6 15) (Some 11) (Some 13) (Some 0) (Some 12).

Ltac real_eq := repeat f_equal; lra.

(** Settles [never_zero] for a concrete frame. *)
Ltac prices_nonzero :=
  let b := fresh "b" in
  let p := fresh "p" in
  let Hb := fresh "Hb" in
  let E := fresh "E" in
  intros b p Hb E; cbn in Hb;
  repeat (destruct Hb as [Hb | Hb];
          [subst b; cbn in E; injection E as E; lra|]);
  contradiction.

(** Settles the tests [x = y] between concrete numbers that a run goes
    through. *)
Ltac decide_tests :=
  try unfold py_div;
  repeat (match goal with
          | |- context [Req_dec_T ?x ?y] =>
              let E := fresh "E" in
              let N := fresh "N" in
              destruct (Req_dec_T x y) as [E | N];
              [first [exfalso; lra | clear E]
              | first [exfalso; apply N; lra | clear N]]
          end; cbn; try unfold py_div).

(** The rows of [market-analysis.py], whose label is never missing, as rows
    of the buy loop. *)
Definition dated (rows : list (date * float)) : list row :=
  map (fun r => (Some (fst r), snd r)) rows.

(** What a simulation shows besides its value: the buy events, or the
    exception raised. *)
Definition events_of (r : result simulation) : result (list buy_event) :=
  match r with
  | Ok (_, pts) => Ok pts
  | Raise e => Raise e
  end.

(** Dates in strictly increasing order. *)
Fixpoint ascending (dates : list date) : bool :=
  match dates with
  | [] => true
  | d :: rest =>
      match rest with
      | [] => true
      | d' :: _ => date_ltb d d' && ascending rest
      end
  end.

(** The start of the [i]-th window of the rolling analysis: [i] times
    [start_date += pd.DateOffset(months=1)]. *)
Definition window_start (start_date : date) (i : nat) : date :=
  Nat.iter i (fun d => add_months d 1) start_date.

(** What the rolling analysis records in a row: the window of [years]
    years from the row's start date, which is not after [max_date] and has
    data, and the returns of the row's strategy on that data, for
    [annual_investment * years] invested over [years] years. *)
Definition recorded (np_power : R -> R -> R)
    (fetch_stock_data : date -> date -> DataFrame) (max_date : date)
    (years : nat) (annual_investment : R)
    (r : StockAnalysis.rolling_result) : Prop :=
  StockAnalysis.End_Date r = add_years (StockAnalysis.Start_Date r) years
  /\ date_leb (StockAnalysis.Start_Date r) max_date = true
  /\ exists data sim,
       data = fetch_stock_data (StockAnalysis.Start_Date r)
                               (StockAnalysis.End_Date r)
       /\ data <> []
       /\ StockAnalysis.strategies (StockAnalysis.Strategy r) data
            annual_investment = Ok sim
       /\ (StockAnalysis.Total_Return r, StockAnalysis.Avg_Annual_Return r)
          = StockAnalysis.calculate_returns_nan np_power (fst sim)
              (annual_investment * INR years) (INR years).

(** ** The return calculator *)

Section ReturnCalculator.

Variable np_power : R -> R -> R.

Lemma calculate_returns_same (final_value total_invested years : R) :
  StockAnalysis.calculate_returns np_power final_value total_invested years
  = Rolling20Year.calculate_returns np_power final_value total_invested years.
Proof. reflexivity. Qed.

Lemma calculate_returns_same_def :
  StockAnalysis.calculate_returns = Rolling20Year.calculate_returns.
Proof. reflexivity. Qed.

Lemma calculate_returns_guard (final_value total_invested years : R) :
  total_invested = 0 \/ years = 0 ->
  Rolling20Year.calculate_returns np_power final_value total_invested years = (0, 0).
Proof.
  intros H. unfold Rolling20Year.calculate_returns.
  destruct (Req_dec_T total_invested 0) as [|Hti]; [reflexivity|].
  destruct (Req_dec_T years 0) as [|Hy]; [reflexivity|].
  destruct H; contradiction.
Qed.

Lemma calculate_returns_regular (final_value total_invested years : R) :
  total_invested <> 0 -> years <> 0 ->
  Rolling20Year.calculate_returns np_power final_value total_invested years
  = ((final_value - total_invested) / total_invested * 100,
     if Rle_dec final_value 0 then -100
     else (np_power (final_value / total_invested) (1 / years) - 1) * 100).
Proof.
  intros Hti Hy. unfold Rolling20Year.calculate_returns.
  destruct (Req_dec_T total_invested 0); [contradiction|].
  destruct (Req_dec_T years 0); [contradiction|].
  reflexivity.
Qed.

End ReturnCalculator.

(** C6: with nothing invested or no time elapsed the calculator returns
    [(0, 0)], whatever the final value; it is a total function, so nothing
    is raised.  Both copies of [calculate_returns] are covered. *)
Theorem calculate_returns_degenerate :
  forall (np_power : R -> R -> R) (final_value total_invested years : R),
    total_invested = 0 \/ years = 0 ->
    Rolling20Year.calculate_returns np_power final_value total_invested years = (0, 0)
    /\ StockAnalysis.calculate_returns np_power final_value total_invested years = (0, 0).
Proof.
  intros pw fv ti y H.
  split; [|rewrite calculate_returns_same_def];
    apply calculate_returns_guard; exact H.
Qed.

Lemma calculate_returns_degenerate_witness :
  (0 = 0 \/ 5 = 0)
  /\ Rolling20Year.calculate_returns Rpower 0 0 5 = (0, 0)
  /\ StockAnalysis.calculate_returns Rpower 0 0 5 = (0, 0).
Proof.
  split; [left; reflexivity|].
  apply (calculate_returns_degenerate Rpower 0 0 5). left; reflexivity.
Defined.

(** C5: outside the degenerate cases the total return is
    [(final_value - total_invested) / total_invested * 100]; the annualized
    return is [-100] when [final_value <= 0] and the compound growth formula
    when [final_value > 0]. *)
Theorem calculate_returns_policy :
  forall (np_power : R -> R -> R) (final_value total_invested years : R),
    total_invested <> 0 -> years <> 0 ->
    forall f, (f = Rolling20Year.calculate_returns np_power
               \/ f = StockAnalysis.calculate_returns np_power) ->
    fst (f final_value total_invested years)
    = (final_value - total_invested) / total_invested * 100
    /\ (final_value <= 0 -> snd (f final_value total_invested years) = -100)
    /\ (final_value > 0 ->
        snd (f final_value total_invested years)
        = (np_power (final_value / total_invested) (1 / years) - 1) * 100).
Proof.
  intros pw fv ti y Hti Hy f Hf.
  assert (E : f fv ti y = Rolling20Year.calculate_returns pw fv ti y).
  { destruct Hf; subst f; [reflexivity | apply calculate_returns_same]. }
  rewrite E, calculate_returns_regular by assumption. cbn [fst snd].
  split; [reflexivity|].
  split; intros Hfv; destruct (Rle_dec fv 0); try reflexivity; lra.
Qed.

Lemma calculate_returns_policy_witness :
  fst (StockAnalysis.calculate_returns Rpower 2000 1000 1) = (2000 - 1000) / 1000 * 100
  /\ (2000 <= 0 -> snd (StockAnalysis.calculate_returns Rpower 2000 1000 1) = -100)
  /\ (2000 > 0 ->
      snd (StockAnalysis.calculate_returns Rpower 2000 1000 1)
      = (Rpower (2000 / 1000) (1 / 1) - 1) * 100).
Proof.
  apply (calculate_returns_policy Rpower 2000 1000 1); [lra | lra |].
  right; reflexivity.
Defined.

(** Fifth roots, to locate the annualized return of the example of C1. *)
Lemma fifth_root_lower (x y : R) :
  0 < x -> x ^ 5 < y -> x < Rpower y (1 / 5).
Proof.
  intros Hx Hxy.
  assert (Hp : 0 < x ^ 5) by (apply pow_lt; exact Hx).
  replace x with (Rpower (x ^ 5) (1 / 5)) at 1.
  - apply Rlt_Rpower_l; lra.
  - rewrite <- (Rpower_pow 5 x Hx), Rpower_mult.
    replace (INR 5 * (1 / 5)) with 1 by (simpl; lra).
    apply Rpower_1; exact Hx.
Qed.

Lemma fifth_root_upper (x y : R) :
  0 < y -> y < x ^ 5 -> 0 < x -> Rpower y (1 / 5) < x.
Proof.
  intros Hy Hxy Hx.
  replace x with (Rpower (x ^ 5) (1 / 5)) at 1.
  - apply Rlt_Rpower_l; lra.
  - rewrite <- (Rpower_pow 5 x Hx), Rpower_mult.
    replace (INR 5 * (1 / 5)) with 1 by (simpl; lra).
    apply Rpower_1; exact Hx.
Qed.

(** C1, as the spec has it, fails: the annualized return of
    [calculate_returns(100, 1000, 5)] is not [-100]. *)
Lemma calculate_returns_example_not_clamped :
  Rolling20Year.calculate_returns Rpower 100 1000 5 <> (-90, -100).
Proof.
  rewrite calculate_returns_regular by lra.
  destruct (Rle_dec 100 0); [lra|].
  intros E. injection E as _ E.
  pose proof (exp_pos (1 / 5 * ln (100 / 1000))) as Hpos.
  unfold Rpower in E. lra.
Qed.

(** C1, amended: [calculate_returns(100, 1000, 5)] has total return [-90]
    and, [final_value] being positive, the annualized return of the growth
    formula, [((100 / 1000) ** (1 / 5) - 1) * 100], which lies strictly
    between [-37] and [-36]; nothing is clamped. *)
Theorem calculate_returns_example :
  Rolling20Year.calculate_returns Rpower 100 1000 5
  = (-90, (Rpower (100 / 1000) (1 / 5) - 1) * 100)
  /\ StockAnalysis.calculate_returns Rpower 100 1000 5
     = (-90, (Rpower (100 / 1000) (1 / 5) - 1) * 100)
  /\ -37 < (Rpower (100 / 1000) (1 / 5) - 1) * 100 < -36.
Proof.
  rewrite calculate_returns_same_def, calculate_returns_regular by lra.
  destruct (Rle_dec 100 0); [lra|].
  split; [f_equal; lra|]. split; [f_equal; lra|].
  assert (Hlo : 63 / 100 < Rpower (100 / 1000) (1 / 5))
    by (apply fifth_root_lower; lra).
  assert (Hhi : Rpower (100 / 1000) (1 / 5) < 64 / 100)
    by (apply fifth_root_upper; lra).
  lra.
Qed.

(** ** The buy loop and the valuation *)

Lemma buy_loop_spec (amount : R) (rows : list row) :
  forall shares_owned buying_points,
    buy_loop amount rows shares_owned buying_points
    = (shares_after amount (bought rows) shares_owned,
       buying_points ++ bought rows).
Proof.
  induction rows as [|[[d|] [p|]] rest IH]; intros s pts; cbn [buy_loop].
  - cbn. now rewrite app_nil_r.
  - rewrite IH. cbn. now rewrite <- app_assoc.
  - apply IH.
  - apply IH.
  - apply IH.
Qed.

(** The loop on Python floats is the same loop when no price bought at is
    zero, and raises otherwise. *)
Lemma buy_loop_py_ok (amount : R) (rows : list row) :
  nonzero (bought rows) ->
  forall shares_owned buying_points,
    buy_loop_py amount rows shares_owned buying_points
    = Ok (buy_loop amount rows shares_owned buying_points).
Proof.
  induction rows as [|[[d|] [p|]] rest IH]; intros Hnz s pts;
    cbn [buy_loop_py buy_loop]; try (apply IH; exact Hnz).
  - reflexivity.
  - unfold py_div. destruct (Req_dec_T p 0) as [Hp | _].
    + exfalso. apply (Hnz (d, p)); [now left | exact Hp].
    + cbn [bind]. apply IH. intros e He. apply Hnz. now right.
Qed.

Lemma buy_loop_py_raises (amount : R) (rows : list row) :
  (exists e, In e (bought rows) /\ snd e = 0) ->
  forall shares_owned buying_points,
    buy_loop_py amount rows shares_owned buying_points
    = Raise ZeroDivisionError.
Proof.
  induction rows as [|[[d|] [p|]] rest IH]; intros (e & He & Hz) s pts;
    cbn [buy_loop_py]; try (apply IH; exists e; split; assumption).
  - contradiction.
  - unfold py_div. destruct (Req_dec_T p 0) as [Hp | Hp]; [reflexivity|].
    cbn [bind]. apply IH. exists e. split; [|exact Hz].
    destruct He as [<- | He]; [contradiction | exact He].
Qed.

Lemma zero_or_nonzero (pts : list buy_event) :
  nonzero pts \/ exists e, In e pts /\ snd e = 0.
Proof.
  induction pts as [|e pts [IH | (e' & He' & Hz)]].
  - left. intros e [].
  - destruct (Req_dec_T (snd e) 0) as [Hz | Hnz].
    + right. exists e. split; [now left | exact Hz].
    + left. intros e' [<- | He']; [exact Hnz | apply IH; exact He'].
  - right. exists e'. split; [now right | exact Hz].
Qed.

Lemma buy_loop_py_inv (amount : R) (rows : list row) (shares_owned : R)
    (buying_points : list buy_event) (st : R * list buy_event) :
  buy_loop_py amount rows shares_owned buying_points = Ok st ->
  nonzero (bought rows)
  /\ st = buy_loop amount rows shares_owned buying_points.
Proof.
  intros H. destruct (zero_or_nonzero (bought rows)) as [Hnz | Hz].
  - rewrite (buy_loop_py_ok amount rows Hnz) in H. injection H as <-.
    split; [exact Hnz | reflexivity].
  - rewrite (buy_loop_py_raises amount rows Hz) in H. discriminate.
Qed.

Lemma buy_loop_py_outcome (amount : R) (rows : list row) (shares_owned : R)
    (buying_points : list buy_event) :
  (nonzero (bought rows)
   /\ buy_loop_py amount rows shares_owned buying_points
      = Ok (buy_loop amount rows shares_owned buying_points))
  \/ ((exists e, In e (bought rows) /\ snd e = 0)
      /\ buy_loop_py amount rows shares_owned buying_points
         = Raise ZeroDivisionError).
Proof.
  destruct (zero_or_nonzero (bought rows)) as [Hnz | Hz].
  - left. split; [exact Hnz | apply buy_loop_py_ok; exact Hnz].
  - right. split; [exact Hz | apply buy_loop_py_raises; exact Hz].
Qed.

Lemma iloc_last_map {A B : Type} (f : A -> B) (l : list A) (x : A) :
  iloc_last l = Ok x -> iloc_last (map f l) = Ok (f x).
Proof.
  induction l as [|a [|b rest] IH]; cbn; intros H.
  - discriminate.
  - now injection H as ->.
  - apply IH. exact H.
Qed.

Lemma iloc_last_nonempty {A : Type} (l : list A) :
  l <> [] -> exists x, iloc_last l = Ok x.
Proof.
  induction l as [|a [|b rest] IH]; intros H.
  - contradiction.
  - now exists a.
  - apply IH. discriminate.
Qed.

Lemma iloc_last_in {A : Type} (l : list A) (x : A) :
  iloc_last l = Ok x -> In x l.
Proof.
  induction l as [|a [|b rest] IH]; cbn; intros H.
  - discriminate.
  - injection H as ->. now left.
  - right. apply IH. exact H.
Qed.

(** The tail of every strategy of [rolling-20year.py] and
    [stock-analysis.py]: all the shares of the loop, at the last close. *)
Lemma valuation (amount : R) (rows : list row) (data : DataFrame) (last : bar) :
  iloc_last data = Ok last ->
  (last_close <- iloc_last (map Close data) ;;
   Ok (fmul (fst (buy_loop amount rows 0 [])) last_close,
       snd (buy_loop amount rows 0 [])))
  = Ok (fmul (total_shares amount (bought rows)) (Close last), bought rows).
Proof.
  intros H. rewrite (iloc_last_map Close data last H), buy_loop_spec.
  reflexivity.
Qed.

(** The same for the strategies whose division can raise, when no price
    bought at is zero. *)
Lemma valuation_py (amount : R) (rows : list row) (data : DataFrame) (last : bar) :
  iloc_last data = Ok last -> nonzero (bought rows) ->
  (st <- buy_loop_py amount rows 0 [] ;;
   last_close <- iloc_last (map Close data) ;;
   Ok (fmul (fst st) last_close, snd st))
  = Ok (fmul (total_shares amount (bought rows)) (Close last), bought rows).
Proof.
  intros H Hnz. rewrite (buy_loop_py_ok amount rows Hnz). cbn [bind].
  apply valuation. exact H.
Qed.

(** What a strategy returned tells: the frame has a last row, no price
    bought at was zero, the events are the purchases of the rows and the
    value is all the shares at the last close. *)
Lemma returned_py (amount : R) (rows : list row) (data : DataFrame)
    (value : float) (pts : list buy_event) :
  (st <- buy_loop_py amount rows 0 [] ;;
   last_close <- iloc_last (map Close data) ;;
   Ok (fmul (fst st) last_close, snd st))
  = Ok (value, pts) ->
  exists last,
    iloc_last data = Ok last
    /\ nonzero pts
    /\ pts = bought rows
    /\ value = fmul (total_shares amount pts) (Close last).
Proof.
  intros H.
  destruct (buy_loop_py amount rows 0 []) as [st|e] eqn:Hloop;
    [|discriminate].
  apply buy_loop_py_inv in Hloop as [Hnz ->]. cbn [bind] in H.
  destruct data as [|b rest]; [discriminate|].
  destruct (iloc_last_nonempty (b :: rest)) as [last Hlast]; [discriminate|].
  rewrite (valuation amount rows (b :: rest) last Hlast) in H.
  injection H as <- <-. exists last. auto.
Qed.

Lemma returned (amount : R) (rows : list row) (data : DataFrame)
    (value : float) (pts : list buy_event) :
  (last_close <- iloc_last (map Close data) ;;
   Ok (fmul (fst (buy_loop amount rows 0 [])) last_close,
       snd (buy_loop amount rows 0 [])))
  = Ok (value, pts) ->
  exists last,
    iloc_last data = Ok last
    /\ pts = bought rows
    /\ value = fmul (total_shares amount pts) (Close last).
Proof.
  intros H. destruct data as [|b rest]; [discriminate|].
  destruct (iloc_last_nonempty (b :: rest)) as [last Hlast]; [discriminate|].
  rewrite (valuation amount rows (b :: rest) last Hlast) in H.
  injection H as <- <-. exists last. auto.
Qed.

(** The strategies of [rolling-20year.py] and [stock-analysis.py] value the
    whole position once, after the loop: every share bought, the last
    bucket's included, times the close of the last bar. *)
Theorem value_is_all_shares_at_last_close :
  forall (data : DataFrame) (annual_investment : R) (last : bar)
         (value : float) (pts : list buy_event),
    iloc_last data = Ok last ->
    (Rolling20Year.perfect_market_timing data annual_investment
     = Ok (value, pts) ->
     value = fmul (total_shares annual_investment pts) (Close last))
    /\ (Rolling20Year.immediate_investing data annual_investment
        = Ok (value, pts) ->
        value = fmul (total_shares annual_investment pts) (Close last))
    /\ (StockAnalysis.perfect_market_timing data annual_investment
        = Ok (value, pts) ->
        value = fmul (total_shares annual_investment pts) (Close last))
    /\ (StockAnalysis.invest_at_peaks data annual_investment
        = Ok (value, pts) ->
        value = fmul (total_shares annual_investment pts) (Close last))
    /\ (StockAnalysis.immediate_investing data annual_investment
        = Ok (value, pts) ->
        nonzero pts ->
        value = fmul (total_shares annual_investment pts) (Close last))
    /\ (StockAnalysis.dollar_cost_averaging data annual_investment
        = Ok (value, pts) ->
        nonzero pts ->
        value = fmul (total_shares (annual_investment / 12) pts) (Close last)).
Proof.
  intros data a last value pts Hlast.
  repeat split; intros H; try intros _;
    (apply returned_py in H as (last' & Hlast' & _ & _ & ->)
     || apply returned in H as (last' & Hlast' & _ & ->));
    rewrite Hlast in Hlast'; injection Hlast' as <-; reflexivity.
Qed.

(** C3: on a frame with no rows [calculate_strategy_returns] returns a zero
    value and no buy events, whatever strategy it is given; the guard
    returns before the strategy is called, so nothing is raised. *)
Theorem calculate_strategy_returns_empty :
  forall (annual_investment : R)
         (strategy_func : DataFrame -> R -> result simulation),
    Rolling20Year.calculate_strategy_returns [] annual_investment strategy_func
    = Ok (Some 0, []).
Proof. reflexivity. Qed.

(** Without that guard the strategy itself fails on an empty frame, at
    [data["Close"].iloc[-1]]. *)
Lemma strategies_raise_on_empty (annual_investment : R) :
  Rolling20Year.perfect_market_timing [] annual_investment = Raise IndexError
  /\ Rolling20Year.immediate_investing [] annual_investment = Raise IndexError
  /\ forall name,
       StockAnalysis.strategies name [] annual_investment = Raise IndexError.
Proof.
  repeat split. intros []; reflexivity.
Qed.

(** C2 on [market-analysis.py]: over two years that end in June,
    [perfect_market_timing] returns 2500, the shares of 2020 alone at the
    last close; the shares bought in the last bucket are left out because
    [data.loc["2021-12-31":]] is empty and the value is not refreshed.  The
    150 shares bought in all are worth 3750, which is what the same
    strategy of [rolling-20year.py] returns. *)
Theorem market_timing_leaves_out_last_bucket :
  MarketAnalysis.perfect_market_timing two_years 1000 = Ok (Some 2500)
  /\ Rolling20Year.perfect_market_timing two_years 1000
     = Ok (Some 3750, [(YE 2020, 10); (YE 2021, 20)])
  /\ total_shares 1000 [(YE 2020, 10); (YE 2021, 20)] * 25 = 3750.
Proof.
  split; [|split].
  - cbn. decide_tests. real_eq.
  - unfold Rolling20Year.perfect_market_timing.
    rewrite (valuation_py _ _ two_years june_2021);
      [cbn; real_eq | reflexivity |].
    cbn. intros e [<- | [<- | []]]; cbn; lra.
  - cbn. lra.
Qed.

(** The sibling strategy of the same file is labelled with the start of
    the year, finds rows after its label in every year, and so values the
    whole position. *)
Lemma market_immediate_investing_two_years :
  MarketAnalysis.immediate_investing two_years 1100
  = Ok (Some (total_shares 1100 [(YS 2020, 11); (YS 2021, 22)] * 25)).
Proof. cbn. decide_tests. real_eq. Qed.

(** *** A single bar *)

Lemma span_single (k : nat) : span [k] = [k].
Proof.
  unfold span. cbn [fold_right]. rewrite Nat.sub_diag. reflexivity.
Qed.

Lemma resample_single (key : date -> nat) (b : bar) :
  resample key [b] = [(key (timestamp b), [b])].
Proof.
  unfold resample. cbn [map]. rewrite span_single. cbn [map filter].
  unfold in_bucket. rewrite Nat.eqb_refl. reflexivity.
Qed.

Lemma groupby_single (key : date -> nat) (b : bar) :
  groupby key [b] = [(key (timestamp b), [b])].
Proof.
  unfold groupby. rewrite resample_single. reflexivity.
Qed.

(** For a single bar the yearly strategies of [rolling-20year.py] and
    [stock-analysis.py] buy once, at the bar's low, open or high, and
    return [(annual_investment / price) * close]. *)
Theorem single_bar_strategies :
  forall (b : bar) (annual_investment open high low close : R),
    Open b = Some open -> High b = Some high ->
    Low b = Some low -> Close b = Some close ->
    0 < open -> 0 < high -> 0 < low -> 0 < close ->
    let y := year (timestamp b) in
    Rolling20Year.perfect_market_timing [b] annual_investment
    = Ok (Some (annual_investment / low * close), [(YE y, low)])
    /\ Rolling20Year.immediate_investing [b] annual_investment
       = Ok (Some (annual_investment / open * close), [(YS y, open)])
    /\ StockAnalysis.perfect_market_timing [b] annual_investment
       = Ok (Some (annual_investment / low * close), [(timestamp b, low)])
    /\ StockAnalysis.immediate_investing [b] annual_investment
       = Ok (Some (annual_investment / open * close), [(to_timestamp y, open)])
    /\ StockAnalysis.invest_at_peaks [b] annual_investment
       = Ok (Some (annual_investment / high * close), [(timestamp b, high)]).
Proof.
  intros b a o h l c Ho Hh Hl Hc Hopos Hhpos Hlpos _ y.
  unfold Rolling20Year.perfect_market_timing, Rolling20Year.immediate_investing,
    StockAnalysis.perfect_market_timing, StockAnalysis.immediate_investing,
    StockAnalysis.invest_at_peaks,
    Rolling20Year.yearly_lows, Rolling20Year.yearly_first_days,
    StockAnalysis.yearly_lows, StockAnalysis.yearly_first_days,
    StockAnalysis.yearly_peaks, agg_idxmin, agg_idxmax, labelled.
  rewrite groupby_single, resample_single.
  cbn [map fst snd iloc_last bind].
  unfold agg_min, agg_max, agg_first.
  cbn [map dropna flat_map]. rewrite Ho, Hh, Hl, Hc.
  cbn [app fold_left idx_of buy_loop buy_loop_py fst snd fmul option_map].
  destruct (Req_dec_T l l) as [_|N]; [|contradiction].
  destruct (Req_dec_T h h) as [_|N]; [|contradiction].
  cbn [buy_loop buy_loop_py fst snd app]. unfold py_div.
  destruct (Req_dec_T l 0); [lra|].
  destruct (Req_dec_T o 0); [lra|].
  destruct (Req_dec_T h 0); [lra|].
  cbn [bind buy_loop_py fst snd fmul option_map].
  rewrite !Rplus_0_l. repeat split; reflexivity.
Qed.

Lemma single_bar_strategies_witness :
  Rolling20Year.perfect_market_timing [june_2020] 1000
  = Ok (Some (1000 / 10 * 12), [(YE 2020, 10)]).
Proof.
  apply (single_bar_strategies june_2020 1000 11 13 10 12);
    try reflexivity; lra.
Defined.

(** C8 on [market-analysis.py]: for the single bar of 15 June 2020 and 1000
    a year, [perfect_market_timing] returns 0 and not
    [(1000 / 10) * 12 = 1200]: the one purchase is never valued, because no
    row lies on or after the label 2020-12-31. *)
Theorem market_timing_single_bar :
  MarketAnalysis.perfect_market_timing [june_2020] 1000 = Ok (Some 0)
  /\ 1000 / 10 * 12 = 1200
  /\ Rolling20Year.perfect_market_timing [june_2020] 1000
     = Ok (Some 1200, [(YE 2020, 10)]).
Proof.
  split; [|split].
  - cbn. decide_tests. reflexivity.
  - lra.
  - unfold Rolling20Year.perfect_market_timing.
    rewrite (valuation_py _ _ [june_2020] june_2020);
      [cbn; real_eq | reflexivity |].
    cbn. intros e [<- | []]; cbn; lra.
Qed.

(** The slip in general: a single bar dated before 31 December is worth
    nothing to [perfect_market_timing] of [market-analysis.py]. *)
Lemma market_timing_single_bar_zero (b : bar) (annual_investment : R) :
  date_leb (YE (year (timestamp b))) (timestamp b) = false ->
  Low b <> Some 0 ->
  MarketAnalysis.perfect_market_timing [b] annual_investment = Ok (Some 0).
Proof.
  intros H Hlow. unfold MarketAnalysis.perfect_market_timing.
  rewrite resample_single. cbn [map fst snd].
  unfold agg_min. cbn [dropna flat_map].
  destruct (Low b) as [p|]; cbn [app MarketAnalysis.value_loop fold_left].
  - unfold py_div. destruct (Req_dec_T p 0) as [-> | _]; [contradiction|].
    cbn [bind]. cbv zeta.
    unfold loc_from. cbn [filter]. rewrite H. reflexivity.
  - reflexivity.
Qed.

(** ** Which rows lead to a purchase *)

Lemma in_bought (e : buy_event) (rows : list row) :
  In e (bought rows) <-> In (Some (fst e), Some (snd e)) rows.
Proof.
  unfold bought. rewrite in_flat_map. split.
  - intros ([[d|] [p|]] & Hr & He); cbn in He; try contradiction.
    destruct He as [<-|[]]. exact Hr.
  - intros H. exists (Some (fst e), Some (snd e)). split; [exact H|].
    cbn. left. now destruct e.
Qed.

Lemma bought_app (rows1 rows2 : list row) :
  bought (rows1 ++ rows2) = bought rows1 ++ bought rows2.
Proof. apply flat_map_app. Qed.

Lemma bought_map {A : Type} (F : A -> row) (l : list A) :
  bought (map F l) = flat_map (fun g => purchase (F g)) l.
Proof.
  induction l as [|g l IH]; [reflexivity|].
  cbn [map flat_map]. rewrite <- IH. reflexivity.
Qed.

Lemma bought_map_filter {A : Type} (F : A -> row) (P : A -> bool) (l : list A) :
  bought (map F (filter P l))
  = flat_map (fun g => if P g then purchase (F g) else []) l.
Proof.
  induction l as [|g l IH]; [reflexivity|].
  cbn [filter flat_map]. destruct (P g); [|exact IH].
  cbn [map]. rewrite <- IH. reflexivity.
Qed.

Lemma purchase_length (r : row) : (length (purchase r) <= 1)%nat.
Proof. destruct r as [[d|] [p|]]; cbn; lia. Qed.

Lemma flat_map_at_most_one {A B : Type} (ev : A -> list B) (l : list A) :
  (forall g, (length (ev g) <= 1)%nat) ->
  (length (flat_map ev l) <= length l)%nat.
Proof.
  intros H. induction l as [|g l IH]; [reflexivity|].
  cbn [flat_map]. rewrite length_app. specialize (H g). cbn [length]. lia.
Qed.

(** A bin is determined by its key. *)
Lemma resample_bucket (key : date -> nat) (data : DataFrame) (g : bucket) :
  In g (resample key data) -> snd g = filter (in_bucket key (fst g)) data.
Proof.
  unfold resample. rewrite in_map_iff. intros (k & <- & _). reflexivity.
Qed.

Lemma resample_same_key (key : date -> nat) (data : DataFrame) (g g' : bucket) :
  In g (resample key data) -> In g' (resample key data) ->
  fst g' = fst g -> snd g' = snd g.
Proof.
  intros H H' E.
  rewrite (resample_bucket key data g H), (resample_bucket key data g' H'), E.
  reflexivity.
Qed.

Lemma MS_injective (m m' : nat) : MS m = MS m' -> m = m'.
Proof.
  intros E.
  assert (Hd : (m / 12 = m' / 12)%nat) by exact (f_equal year E).
  assert (Hm : (m mod 12 + 1 = m' mod 12 + 1)%nat) by exact (f_equal month E).
  pose proof (Nat.div_mod_eq m 12). pose proof (Nat.div_mod_eq m' 12). lia.
Qed.

(** The events of a strategy whose rows are labelled by the bin: a bin
    without a price has no event under its label, a bin with a price has
    its event. *)
Lemma labelled_bins_events (key : date -> nat) (label : nat -> date)
    (agg : DataFrame -> float) (data : DataFrame) (g : bucket) :
  (forall k k', label k = label k' -> k = k') ->
  In g (resample key data) ->
  let pts := bought (map (fun g => (Some (label (fst g)), agg (snd g)))
                         (resample key data)) in
  match agg (snd g) with
  | None => ~ In (label (fst g)) (map fst pts)
  | Some p => In (label (fst g), p) pts
  end.
Proof.
  intros Hinj Hg pts. destruct (agg (snd g)) as [p|] eqn:Hp.
  - apply in_bought. cbn [fst snd]. apply in_map_iff. exists g.
    rewrite Hp. split; [reflexivity | exact Hg].
  - intros Hin. apply in_map_iff in Hin as (e & He & Hin).
    apply in_bought in Hin. apply in_map_iff in Hin as (g' & E & Hg').
    injection E as Hl Ha. rewrite He in Hl. apply Hinj in Hl.
    rewrite (resample_same_key key data g g' Hg Hg' Hl) in Ha. congruence.
Qed.

(** A row without a price changes nothing: the loop ends as it would
    without that row. *)
Lemma buy_loop_skips_nan (amount : R) (rows1 rows2 : list row)
    (label : option date) (shares_owned : R) (buying_points : list buy_event) :
  buy_loop amount (rows1 ++ (label, NaN) :: rows2) shares_owned buying_points
  = buy_loop amount (rows1 ++ rows2) shares_owned buying_points.
Proof.
  rewrite !buy_loop_spec, !bought_app.
  replace (bought ((label, NaN) :: rows2)) with (bought rows2);
    [reflexivity|].
  destruct label; reflexivity.
Qed.

Lemma buy_loop_py_skips_nan (amount : R) (rows1 rows2 : list row)
    (label : option date) :
  forall (shares_owned : R) (buying_points : list buy_event),
    buy_loop_py amount (rows1 ++ (label, NaN) :: rows2)
                shares_owned buying_points
    = buy_loop_py amount (rows1 ++ rows2) shares_owned buying_points.
Proof.
  induction rows1 as [|[[d|] [p|]] rows1 IH]; intros s pts;
    cbn [app buy_loop_py]; try apply IH.
  - destruct label; reflexivity.
  - destruct (py_div amount p); cbn [bind]; [apply IH | reflexivity].
Qed.

(** The purchases of a list of rows are at non-zero prices when no row
    has the price zero. *)
Lemma bought_nonzero {A : Type} (F : A -> row) (l : list A) :
  (forall x, In x l -> snd (F x) <> Some 0) -> nonzero (bought (map F l)).
Proof.
  intros H e He Hz. apply in_bought, in_map_iff in He as (x & E & Hx).
  apply (H x Hx). rewrite E, Hz. reflexivity.
Qed.

Lemma bought_zero {A : Type} (F : A -> row) (l : list A) (x : A) (d : date) :
  In x l -> F x = (Some d, Some 0) ->
  exists e, In e (bought (map F l)) /\ snd e = 0.
Proof.
  intros Hx E. exists (d, 0). split; [|reflexivity].
  apply in_bought. cbn [fst snd]. rewrite <- E. apply in_map. exact Hx.
Qed.

(** C4, as the spec has it, fails: a bin whose reference price is present
    and negative is bought like any other. *)
Lemma negative_price_is_bought :
  Rolling20Year.perfect_market_timing [negative_low] 1000
  = Ok (Some (1000 / -40 * -37), [(YE 2020, -40)]).
Proof.
  unfold Rolling20Year.perfect_market_timing.
  rewrite (valuation_py _ _ [negative_low] negative_low);
    [cbn; rewrite Rplus_0_l; reflexivity | reflexivity |].
  cbn. intros e [<- | []]; cbn; lra.
Qed.

(** Nor is a bin whose reference price is zero skipped: the division
    raises. *)
Lemma zero_price_raises :
  Rolling20Year.perfect_market_timing [zero_low] 1000
  = Raise ZeroDivisionError.
Proof.
  unfold Rolling20Year.perfect_market_timing.
  rewrite buy_loop_py_raises; [reflexivity|].
  exists (YE 2020, 0). split; [cbn; now left | reflexivity].
Qed.

(** C4, amended: a bucket whose reference price is missing (NaN) gives no
    buy event and no shares, and skipping it raises nothing; every bucket
    with a price keeps its event.  A price that is present is never
    skipped: on a non-empty chronological frame [perfect_market_timing] of
    [rolling-20year.py] returns when no yearly low is zero and raises
    [ZeroDivisionError] when one is, and [dollar_cost_averaging] of
    [stock-analysis.py], whose division is numpy's, returns in either
    case.  The first part is the loop that the strategies share. *)
Theorem missing_price_bucket_skipped :
  forall (data : DataFrame) (annual_investment : R),
    chronological data = true -> empty data = false ->
    (forall amount rows1 rows2 label shares_owned buying_points,
        buy_loop amount (rows1 ++ (label, NaN) :: rows2)
                 shares_owned buying_points
        = buy_loop amount (rows1 ++ rows2) shares_owned buying_points
        /\ buy_loop_py amount (rows1 ++ (label, NaN) :: rows2)
                       shares_owned buying_points
           = buy_loop_py amount (rows1 ++ rows2) shares_owned buying_points)
    /\ ((forall g, In g (resample year data) ->
           agg_min (map Low (snd g)) <> Some 0) ->
        exists v pts,
          Rolling20Year.perfect_market_timing data annual_investment = Ok (v, pts)
          /\ forall g, In g (resample year data) ->
               match agg_min (map Low (snd g)) with
               | None => ~ In (YE (fst g)) (map fst pts)
               | Some p => In (YE (fst g), p) pts
               end)
    /\ ((exists g, In g (resample year data)
                   /\ agg_min (map Low (snd g)) = Some 0) ->
        Rolling20Year.perfect_market_timing data annual_investment
        = Raise ZeroDivisionError)
    /\ (exists v pts,
          StockAnalysis.dollar_cost_averaging data annual_investment = Ok (v, pts)
          /\ forall g, In g (resample month_index data) ->
               match agg_first (map Open (snd g)) with
               | None => ~ In (MS (fst g)) (map fst pts)
               | Some p => In (MS (fst g), p) pts
               end).
Proof.
  intros data a _ Hne.
  destruct (iloc_last_nonempty data) as [last Hlast].
  { destruct data; [discriminate | discriminate]. }
  split; [intros; split;
          [apply buy_loop_skips_nan | apply buy_loop_py_skips_nan]|].
  split; [|split].
  - intros Hnz. eexists. eexists. split.
    + apply valuation_py; [exact Hlast|].
      apply bought_nonzero. intros g Hg. apply Hnz. exact Hg.
    + intros g Hg.
      apply (labelled_bins_events year YE (fun bs => agg_min (map Low bs))).
      * intros k k' E. now injection E.
      * exact Hg.
  - intros (g & Hg & Hz). unfold Rolling20Year.perfect_market_timing.
    rewrite buy_loop_py_raises; [reflexivity|].
    apply (bought_zero _ _ g (YE (fst g)) Hg).
    apply f_equal2; [reflexivity | exact Hz].
  - eexists. eexists. split; [apply valuation; exact Hlast|].
    intros g Hg.
    apply (labelled_bins_events month_index MS
             (fun bs => agg_first (map Open bs))).
    + exact MS_injective.
    + exact Hg.
Qed.

Lemma missing_price_bucket_skipped_witness :
  chronological gap_year = true
  /\ empty gap_year = false
  /\ exists v pts,
       Rolling20Year.perfect_market_timing gap_year 1000 = Ok (v, pts)
       /\ ~ In (YE 2021) (map fst pts)
       /\ In (YE 2020, 10) pts /\ In (YE 2022, 40) pts.
Proof.
  split; [reflexivity|]. split; [reflexivity|].
  destruct (missing_price_bucket_skipped gap_year 1000 eq_refl eq_refl)
    as (_ & H & _).
  destruct H as (v & pts & E & H).
  { intros g [<- | [<- | [<- | []]]]; cbn; intros E;
      try discriminate; injection E as E; lra. }
  exists v, pts. split; [exact E|].
  split; [|split].
  - apply (H (2021%nat, [])). cbn. auto.
  - apply (H (2020%nat, [june_2020])). cbn. auto.
  - apply (H (2022%nat, [june_2022])). cbn. auto.
Defined.

(** ** Counting the buckets of a chronological history *)

Lemma date_ltb_year (a b : date) :
  date_ltb a b = true -> (year a <= year b)%nat.
Proof.
  unfold date_ltb, date_leb. rewrite negb_true_iff, orb_false_iff.
  intros [H _]. apply Nat.ltb_ge in H. exact H.
Qed.

Lemma date_ltb_month_index (a b : date) :
  valid_date a = true -> valid_date b = true ->
  date_ltb a b = true -> (month_index a <= month_index b)%nat.
Proof.
  unfold valid_date, date_ltb, date_leb, month_index.
  rewrite !andb_true_iff, !Nat.leb_le, negb_true_iff, orb_false_iff,
    andb_false_iff, orb_false_iff, andb_false_iff.
  rewrite Nat.ltb_ge, Nat.eqb_neq, Nat.ltb_ge, Nat.eqb_neq, Nat.leb_gt.
  lia.
Qed.

Lemma chronological_keys (key : date -> nat) (data : DataFrame) :
  (forall a b, valid_date a = true -> valid_date b = true ->
               date_ltb a b = true -> (key a <= key b)%nat) ->
  chronological data = true ->
  nondecreasing (map (fun b => key (timestamp b)) data).
Proof.
  intros Hkey. unfold chronological. rewrite andb_true_iff, forallb_forall.
  intros [Hv Hi]. induction data as [|a [|b rest] IH]; cbn; [exact I..|].
  cbn [increasing] in Hi. apply andb_true_iff in Hi as [Hab Hi].
  split.
  - apply Hkey; [apply Hv | apply Hv | exact Hab]; cbn; auto.
  - apply IH; [|exact Hi]. intros x Hx. apply Hv. now right.
Qed.

Lemma nondecreasing_head (k : nat) (ks : list nat) :
  nondecreasing (k :: ks) -> Forall (le k) ks.
Proof.
  revert k. induction ks as [|a ks IH]; intros k H; [constructor|].
  destruct H as [Hka H]. constructor; [exact Hka|].
  eapply Forall_impl; [|apply IH; exact H].
  intros x Hx. cbn in Hx. lia.
Qed.

Lemma nondecreasing_last (l : list nat) (last : nat) :
  nondecreasing l -> iloc_last l = Ok last ->
  forall x, In x l -> (x <= last)%nat.
Proof.
  induction l as [|a [|b rest] IH]; intros Hl Hlast x Hx.
  - contradiction.
  - cbn in Hlast. injection Hlast as <-. destruct Hx as [<-|[]]. lia.
  - destruct Hl as [Hab Hl]. change (iloc_last (b :: rest) = Ok last) in Hlast.
    specialize (IH Hl Hlast). destruct Hx as [<-|Hx].
    + specialize (IH b (or_introl eq_refl)). lia.
    + apply IH. exact Hx.
Qed.

Lemma fold_min_head (k : nat) (ks : list nat) :
  Forall (le k) ks -> fold_right Nat.min k ks = k.
Proof.
  induction 1 as [|a ks Ha _ IH]; [reflexivity|].
  cbn [fold_right]. rewrite IH. lia.
Qed.

Lemma fold_max_upper (k : nat) (ks : list nat) :
  forall x, In x (k :: ks) -> (x <= fold_right Nat.max k ks)%nat.
Proof.
  induction ks as [|a ks IH]; intros x Hx; cbn [fold_right].
  - destruct Hx as [<-|[]]. lia.
  - destruct Hx as [<-|[<-|Hx]].
    + specialize (IH k (or_introl eq_refl)). lia.
    + lia.
    + specialize (IH x (or_intror Hx)). lia.
Qed.

Lemma fold_max_in (k : nat) (ks : list nat) :
  In (fold_right Nat.max k ks) (k :: ks).
Proof.
  induction ks as [|a ks IH]; cbn [fold_right]; [now left|].
  destruct (Nat.max_spec a (fold_right Nat.max k ks)) as [[_ ->]|[_ ->]].
  - destruct IH as [IH|IH]; [now left | right; now right].
  - right. now left.
Qed.

Lemma span_nondecreasing (k last : nat) (ks : list nat) :
  nondecreasing (k :: ks) -> iloc_last (k :: ks) = Ok last ->
  span (k :: ks) = seq k (last - k + 1).
Proof.
  intros Hnd Hlast. unfold span.
  rewrite (fold_min_head k ks (nondecreasing_head k ks Hnd)).
  replace (fold_right Nat.max k ks) with last; [reflexivity|].
  pose proof (nondecreasing_last _ _ Hnd Hlast _ (fold_max_in k ks)).
  pose proof (fold_max_upper k ks last (iloc_last_in _ _ Hlast)).
  lia.
Qed.

(** On a chronological history [resample] has as many bins as there are
    periods from the one of the first row to the one of the last. *)
Lemma resample_length (key : date -> nat) (data : DataFrame) (first last : bar) :
  nondecreasing (map (fun b => key (timestamp b)) data) ->
  hd_error data = Some first -> iloc_last data = Ok last ->
  length (resample key data)
  = buckets_between key (timestamp first) (timestamp last).
Proof.
  intros Hnd Hfirst Hlast. unfold resample, buckets_between.
  rewrite length_map.
  destruct data as [|b rest]; [discriminate|].
  injection Hfirst as ->. cbn [map] in *.
  rewrite (span_nondecreasing _ (key (timestamp last)) _ Hnd).
  - apply length_seq.
  - exact (iloc_last_map (fun b => key (timestamp b)) (first :: rest) last Hlast).
Qed.

Lemma events_of_resample (key : date -> nat) (F : bucket -> row)
    (data : DataFrame) (first last : bar) :
  nondecreasing (map (fun b => key (timestamp b)) data) ->
  hd_error data = Some first -> iloc_last data = Ok last ->
  let pts := bought (map F (resample key data)) in
  (length pts <= buckets_between key (timestamp first) (timestamp last))%nat.
Proof.
  intros Hnd Hfirst Hlast pts. subst pts. rewrite bought_map.
  rewrite <- (resample_length key data first last Hnd Hfirst Hlast).
  apply flat_map_at_most_one. intros g. apply purchase_length.
Qed.

Lemma events_of_groupby (key : date -> nat) (F : bucket -> row)
    (data : DataFrame) (first last : bar) :
  nondecreasing (map (fun b => key (timestamp b)) data) ->
  hd_error data = Some first -> iloc_last data = Ok last ->
  let pts := bought (map F (groupby key data)) in
  (length pts <= buckets_between key (timestamp first) (timestamp last))%nat.
Proof.
  intros Hnd Hfirst Hlast pts. subst pts. unfold groupby.
  rewrite bought_map_filter.
  rewrite <- (resample_length key data first last Hnd Hfirst Hlast).
  apply flat_map_at_most_one.
  intros g. destruct (negb (empty (snd g))); [apply purchase_length|].
  cbn. lia.
Qed.

(** ** Buying lower buys more *)

Lemma cheaper_buys_more (amount low open : R) :
  0 <= amount -> 0 < low -> low < open -> amount / open <= amount / low.
Proof.
  intros Ha Hl Hlo. unfold Rdiv. apply Rmult_le_compat_l; [exact Ha|].
  apply Rinv_le_contravar; lra.
Qed.

Lemma shares_after_cons (amount : R) (e : buy_event) (es : list buy_event)
    (shares : R) :
  shares_after amount (e :: es) shares
  = shares_after amount es (shares + amount / snd e).
Proof. reflexivity. Qed.

Lemma bought_cons (r : row) (rows : list row) :
  bought (r :: rows) = purchase r ++ bought rows.
Proof. reflexivity. Qed.

(** Bin by bin the yearly low is below the yearly first open: the loop over
    the lows ends with at least the shares of the loop over the opens. *)
Lemma low_rows_buy_more (amount : R) (bins : list bucket) :
  0 <= amount ->
  (forall g, In g bins ->
     exists low open,
       agg_min (map Low (snd g)) = Some low
       /\ agg_first (map Open (snd g)) = Some open
       /\ 0 < low /\ low < open) ->
  forall s_open s_low, s_open <= s_low ->
    shares_after amount
      (bought (map (fun g : bucket =>
                      (Some (YS (fst g)), agg_first (map Open (snd g))))
                   bins)) s_open
    <= shares_after amount
         (bought (map (fun g : bucket =>
                         (Some (YE (fst g)), agg_min (map Low (snd g))))
                      bins)) s_low.
Proof.
  intros Ha. induction bins as [|g bins IH]; intros Hbins s_open s_low Hs.
  - exact Hs.
  - destruct (Hbins g (or_introl eq_refl)) as (low & open & Hl & Ho & Hpos & Hlt).
    cbn [map]. rewrite !bought_cons, Hl, Ho. cbn [purchase app].
    rewrite !shares_after_cons. cbn [snd]. apply IH.
    + intros g' Hg'. apply Hbins. now right.
    + pose proof (cheaper_buys_more amount low open Ha Hpos Hlt). lra.
Qed.

(** C9, as the spec has it, fails: the code buys a negative low, which
    leaves a negative number of shares.  For one bar with low -40, open 18
    and close 20 the yearly low is below the first open, and
    [perfect_market_timing] ends with -500 where [immediate_investing]
    ends with more than 1111. *)
Lemma timing_below_immediate_at_negative_low :
  (forall g, In g (resample year [negative_low_2020]) ->
     exists low open,
       agg_min (map Low (snd g)) = Some low
       /\ agg_first (map Open (snd g)) = Some open
       /\ low < open)
  /\ Rolling20Year.perfect_market_timing [negative_low_2020] 1000
     = Ok (Some (1000 / -40 * 20), [(YE 2020, -40)])
  /\ Rolling20Year.immediate_investing [negative_low_2020] 1000
     = Ok (Some (1000 / 18 * 20), [(YS 2020, 18)])
  /\ 1000 / -40 * 20 < 1000 / 18 * 20.
Proof.
  split; [|split; [|split]].
  - intros g [<- | []]. exists (-40), 18. cbn. repeat split; lra.
  - unfold Rolling20Year.perfect_market_timing.
    rewrite (valuation_py _ _ [negative_low_2020] negative_low_2020);
      [cbn; rewrite Rplus_0_l; reflexivity | reflexivity |].
    cbn. intros e [<- | []]; cbn; lra.
  - unfold Rolling20Year.immediate_investing.
    rewrite (valuation_py _ _ [negative_low_2020] negative_low_2020);
      [cbn; rewrite Rplus_0_l; reflexivity | reflexivity |].
    cbn. intros e [<- | []]; cbn; lra.
  - lra.
Qed.

(** C9, amended: on a chronological history whose every calendar year has
    a positive minimum low strictly below the year's first open, with a
    non-negative yearly amount and a last close that is not negative,
    [perfect_market_timing] ends with a portfolio value at least that of
    [immediate_investing]. *)
Theorem perfect_timing_at_least_immediate :
  forall (data : DataFrame) (annual_investment : R) (last : bar) (close : R),
    chronological data = true ->
    0 <= annual_investment ->
    iloc_last data = Ok last -> Close last = Some close -> 0 <= close ->
    (forall g, In g (resample year data) ->
       exists low open,
         agg_min (map Low (snd g)) = Some low
         /\ agg_first (map Open (snd g)) = Some open
         /\ 0 < low /\ low < open) ->
    exists v_timing pts_timing v_immediate pts_immediate,
      Rolling20Year.perfect_market_timing data annual_investment
      = Ok (Some v_timing, pts_timing)
      /\ Rolling20Year.immediate_investing data annual_investment
         = Ok (Some v_immediate, pts_immediate)
      /\ v_immediate <= v_timing.
Proof.
  intros data a last c _ Ha Hlast Hc Hc0 Hbins.
  unfold Rolling20Year.perfect_market_timing, Rolling20Year.immediate_investing.
  rewrite !(valuation_py _ _ data last Hlast), Hc.
  - cbn [fmul option_map].
    do 4 eexists. split; [reflexivity|]. split; [reflexivity|].
    apply Rmult_le_compat_r; [exact Hc0|].
    unfold total_shares, Rolling20Year.yearly_lows,
      Rolling20Year.yearly_first_days.
    apply low_rows_buy_more; [exact Ha | exact Hbins | lra].
  - apply bought_nonzero. intros g Hg.
    destruct (Hbins g Hg) as (low & open & _ & Ho & Hpos & Hlt).
    cbn [snd]. intros E.
    assert (E' : Some open = Some 0) by (rewrite <- Ho; exact E).
    injection E' as E'. lra.
  - apply bought_nonzero. intros g Hg.
    destruct (Hbins g Hg) as (low & open & Hl & _ & Hpos & _).
    cbn [snd]. intros E.
    assert (E' : Some low = Some 0) by (rewrite <- Hl; exact E).
    injection E' as E'. lra.
Qed.

Lemma perfect_timing_at_least_immediate_witness :
  exists v_timing pts_timing v_immediate pts_immediate,
    Rolling20Year.perfect_market_timing two_years 1000
    = Ok (Some v_timing, pts_timing)
    /\ Rolling20Year.immediate_investing two_years 1000
       = Ok (Some v_immediate, pts_immediate)
    /\ v_immediate <= v_timing.
Proof.
  apply (perfect_timing_at_least_immediate two_years 1000 june_2021 25).
  - reflexivity.
  - lra.
  - reflexivity.
  - reflexivity.
  - lra.
  - intros g [<-|[<-|[]]].
    + exists 10, 11. cbn. repeat split; lra.
    + exists 20, 22. cbn. repeat split; lra.
Defined.

(** ** The dates of immediate investing in the dashboard *)

(** C10: [immediate_investing] of [stock-analysis.py] records every
    purchase under 1 January of the bucket's year, the start of the yearly
    period, whatever the date of the row whose open is the price; in the
    history [two_years], whose rows are of 15 June, the recorded dates are
    1 January 2020 and 2021, which are not in the index. *)
Theorem immediate_investing_dates_are_january_first :
  (forall (data : DataFrame) (annual_investment : R) (last : bar),
      iloc_last data = Ok last ->
      exists v pts,
        StockAnalysis.immediate_investing data annual_investment = Ok (v, pts)
        /\ (forall g price,
              In g (groupby year data) ->
              agg_first (map Open (snd g)) = Some price ->
              In (mkdate (fst g) 1 1, price) pts)
        /\ (forall e, In e pts ->
              exists g, In g (groupby year data)
                /\ fst e = mkdate (fst g) 1 1
                /\ agg_first (map Open (snd g)) = Some (snd e)))
  /\ (exists v,
        StockAnalysis.immediate_investing two_years 1100
        = Ok (v, [(mkdate 2020 1 1, 11); (mkdate 2021 1 1, 22)])
        /\ ~ In (mkdate 2020 1 1) (map timestamp two_years)
        /\ ~ In (mkdate 2021 1 1) (map timestamp two_years)).
Proof.
  split.
  - intros data a last Hlast. eexists. eexists.
    split; [apply valuation; exact Hlast|]. split.
    + intros g p Hg Hp. apply in_bought. cbn [fst snd].
      unfold StockAnalysis.yearly_first_days. apply in_map_iff.
      exists g. split; [|exact Hg].
      apply f_equal2; [reflexivity | exact Hp].
    + intros e He. apply in_bought in He.
      unfold StockAnalysis.yearly_first_days in He.
      apply in_map_iff in He as (g & E & Hg). injection E as Hd Hp.
      exists g. split; [exact Hg|]. split; [symmetry; exact Hd | exact Hp].
  - eexists. split; [reflexivity|]. split.
    + cbn. intros [H|[H|[]]]; discriminate.
    + cbn. intros [H|[H|[]]]; discriminate.
Qed.

Lemma immediate_investing_dates_are_january_first_witness :
  iloc_last two_years = Ok june_2021
  /\ exists v pts,
       StockAnalysis.immediate_investing two_years 1100 = Ok (v, pts)
       /\ In (mkdate 2020 1 1, 11) pts.
Proof.
  split; [reflexivity|].
  destruct immediate_investing_dates_are_january_first as [H _].
  destruct (H two_years 1100 june_2021 eq_refl) as (v & pts & E & Hin & _).
  exists v, pts. split; [exact E|].
  apply (Hin (2020%nat, [june_2020])); [|reflexivity].
  cbn. auto.
Defined.

(** ** What the aggregations return *)

Lemma in_dropna (r : R) (col : list float) :
  In r (dropna col) <-> In (Some r) col.
Proof.
  unfold dropna. rewrite in_flat_map. split.
  - intros ([x|] & Hx & Hr); cbn in Hr; [|contradiction].
    destruct Hr as [<-|[]]. exact Hx.
  - intros H. exists (Some r). split; [exact H | now left].
Qed.

Lemma fold_min_lower (xs : list R) :
  forall x y, In y (x :: xs) -> fold_left Rmin xs x <= y.
Proof.
  induction xs as [|z xs IH]; intros x y Hy; cbn [fold_left].
  - destruct Hy as [<-|[]]. lra.
  - destruct Hy as [<-|[<-|Hy]].
    + etransitivity; [apply IH; now left | apply Rmin_l].
    + etransitivity; [apply IH; now left | apply Rmin_r].
    + apply IH. now right.
Qed.

Lemma fold_min_attained (xs : list R) :
  forall x, In (fold_left Rmin xs x) (x :: xs).
Proof.
  induction xs as [|z xs IH]; intros x; cbn [fold_left]; [now left|].
  destruct (IH (Rmin x z)) as [H|H].
  - rewrite <- H. unfold Rmin. destruct (Rle_dec x z); [now left|].
    right. now left.
  - right. now right.
Qed.

Lemma fold_max_upper_R (xs : list R) :
  forall x y, In y (x :: xs) -> y <= fold_left Rmax xs x.
Proof.
  induction xs as [|z xs IH]; intros x y Hy; cbn [fold_left].
  - destruct Hy as [<-|[]]. lra.
  - destruct Hy as [<-|[<-|Hy]].
    + etransitivity; [apply Rmax_l | apply IH; now left].
    + etransitivity; [apply Rmax_r | apply IH; now left].
    + apply IH. now right.
Qed.

Lemma fold_max_attained (xs : list R) :
  forall x, In (fold_left Rmax xs x) (x :: xs).
Proof.
  induction xs as [|z xs IH]; intros x; cbn [fold_left]; [now left|].
  destruct (IH (Rmax x z)) as [H|H].
  - rewrite <- H. unfold Rmax. destruct (Rle_dec x z); [|now left].
    right. now left.
  - right. now right.
Qed.

Lemma agg_min_spec (col : list float) (m : R) :
  agg_min col = Some m ->
  In (Some m) col /\ forall l, In (Some l) col -> m <= l.
Proof.
  unfold agg_min. destruct (dropna col) as [|x xs] eqn:E; [discriminate|].
  intros H. injection H as <-. split.
  - apply in_dropna. rewrite E. apply fold_min_attained.
  - intros l Hl. apply fold_min_lower. rewrite <- E. now apply in_dropna.
Qed.

Lemma agg_max_spec (col : list float) (m : R) :
  agg_max col = Some m ->
  In (Some m) col /\ forall h, In (Some h) col -> h <= m.
Proof.
  unfold agg_max. destruct (dropna col) as [|x xs] eqn:E; [discriminate|].
  intros H. injection H as <-. split.
  - apply in_dropna. rewrite E. apply fold_max_attained.
  - intros h Hh. apply fold_max_upper_R. rewrite <- E. now apply in_dropna.
Qed.

Lemma agg_first_spec (col : list float) (x : R) :
  agg_first col = Some x -> In (Some x) col.
Proof.
  unfold agg_first. destruct (dropna col) as [|y ys] eqn:E; [discriminate|].
  intros H. injection H as <-. apply in_dropna. rewrite E. now left.
Qed.

Lemma agg_present (col : list float) (x : R) :
  In (Some x) col ->
  (exists m, agg_min col = Some m) /\ (exists m, agg_max col = Some m)
  /\ (exists m, agg_first col = Some m).
Proof.
  intros H. apply in_dropna in H. unfold agg_min, agg_max, agg_first.
  destruct (dropna col); [contradiction|]. repeat split; eexists; reflexivity.
Qed.

Lemma idx_of_found (m : R) (rows : list (date * float)) (d : date) :
  idx_of m rows = Some d -> In (d, Some m) rows.
Proof.
  induction rows as [|[d' [x|]] rows IH]; cbn [idx_of]; intros H.
  - discriminate.
  - destruct (Req_dec_T x m) as [->|_].
    + injection H as ->. now left.
    + right. apply IH. exact H.
  - right. apply IH. exact H.
Qed.

Lemma idx_of_exists (m : R) (rows : list (date * float)) :
  In (Some m) (map snd rows) -> exists d, idx_of m rows = Some d.
Proof.
  induction rows as [|[d' [x|]] rows IH]; cbn [idx_of map snd]; intros H.
  - contradiction.
  - destruct (Req_dec_T x m) as [_|N]; [now exists d'|].
    apply IH. destruct H as [H|H]; [|exact H]. injection H as H. contradiction.
  - apply IH. destruct H as [H|H]; [discriminate | exact H].
Qed.

Lemma labelled_values (col : bar -> float) (bs : DataFrame) :
  map snd (labelled col bs) = map col bs.
Proof. unfold labelled. rewrite map_map. reflexivity. Qed.

(** [idxmin] is there exactly when [min] is, and names a row that holds the
    minimum; likewise [idxmax]. *)
Lemma agg_idxmin_present (col : bar -> float) (bs : DataFrame) (m : R) :
  agg_min (map col bs) = Some m -> exists d, agg_idxmin col bs = Some d.
Proof.
  intros H. unfold agg_idxmin. rewrite H. apply idx_of_exists.
  rewrite labelled_values. apply (agg_min_spec _ _ H).
Qed.

Lemma agg_idxmax_present (col : bar -> float) (bs : DataFrame) (m : R) :
  agg_max (map col bs) = Some m -> exists d, agg_idxmax col bs = Some d.
Proof.
  intros H. unfold agg_idxmax. rewrite H. apply idx_of_exists.
  rewrite labelled_values. apply (agg_max_spec _ _ H).
Qed.

Lemma agg_idxmin_row (col : bar -> float) (bs : DataFrame) (d : date) (m : R) :
  agg_idxmin col bs = Some d -> agg_min (map col bs) = Some m ->
  exists b, In b bs /\ timestamp b = d /\ col b = Some m.
Proof.
  unfold agg_idxmin. intros H Hm. rewrite Hm in H.
  apply idx_of_found in H. unfold labelled in H.
  apply in_map_iff in H as (b & E & Hb). injection E as Hd Hc.
  exists b. auto.
Qed.

Lemma agg_idxmax_row (col : bar -> float) (bs : DataFrame) (d : date) (m : R) :
  agg_idxmax col bs = Some d -> agg_max (map col bs) = Some m ->
  exists b, In b bs /\ timestamp b = d /\ col b = Some m.
Proof.
  unfold agg_idxmax. intros H Hm. rewrite Hm in H.
  apply idx_of_found in H. unfold labelled in H.
  apply in_map_iff in H as (b & E & Hb). injection E as Hd Hc.
  exists b. auto.
Qed.

(** The rows of a bin are the rows of the frame that fall into its period. *)
Lemma resample_rows (key : date -> nat) (data : DataFrame) (g : bucket) (b : bar) :
  In g (resample key data) ->
  (In b (snd g) <-> In b data /\ key (timestamp b) = fst g).
Proof.
  intros Hg. rewrite (resample_bucket key data g Hg), filter_In.
  unfold in_bucket. rewrite Nat.eqb_eq. reflexivity.
Qed.

Lemma groupby_in_resample (key : date -> nat) (data : DataFrame) (g : bucket) :
  In g (groupby key data) -> In g (resample key data) /\ snd g <> [].
Proof.
  unfold groupby. rewrite filter_In. intros [H E]. split; [exact H|].
  destruct (snd g); [discriminate | discriminate].
Qed.

Lemma fold_min_lower_nat (k : nat) (ks : list nat) :
  forall x, In x (k :: ks) -> (fold_right Nat.min k ks <= x)%nat.
Proof.
  induction ks as [|a ks IH]; intros x Hx; cbn [fold_right].
  - destruct Hx as [<-|[]]. lia.
  - destruct Hx as [<-|[<-|Hx]].
    + specialize (IH k (or_introl eq_refl)). lia.
    + lia.
    + specialize (IH x (or_intror Hx)). lia.
Qed.

Lemma span_covers (keys : list nat) (k : nat) : In k keys -> In k (span keys).
Proof.
  destruct keys as [|k0 ks]; [contradiction|]. intros H. unfold span.
  apply in_seq.
  pose proof (fold_min_lower_nat k0 ks k H).
  pose proof (fold_max_upper k0 ks k H). lia.
Qed.

(** Every row of the frame lies in the bin of its period. *)
Lemma resample_covers (key : date -> nat) (data : DataFrame) (b : bar) :
  In b data ->
  exists g, In g (resample key data)
            /\ fst g = key (timestamp b) /\ In b (snd g).
Proof.
  intros Hb. exists (key (timestamp b), filter (in_bucket key (key (timestamp b))) data).
  split; [|split; [reflexivity|]].
  - unfold resample. apply in_map_iff. exists (key (timestamp b)).
    split; [reflexivity|]. apply span_covers.
    apply in_map_iff. exists b. auto.
  - cbn [snd]. apply filter_In. split; [exact Hb|].
    unfold in_bucket. apply Nat.eqb_refl.
Qed.

Lemma groupby_covers (key : date -> nat) (data : DataFrame) (b : bar) :
  In b data ->
  exists g, In g (groupby key data)
            /\ fst g = key (timestamp b) /\ In b (snd g).
Proof.
  intros Hb. destruct (resample_covers key data b Hb) as (g & Hg & Hk & Hin).
  exists g. split; [|auto]. unfold groupby. apply filter_In.
  split; [exact Hg|]. destruct (snd g); [contradiction | reflexivity].
Qed.

(** ** What the strategies buy *)

(** A frame without a zero price has no zero reference price. *)
Lemma agg_never_zero (key : date -> nat) (col : bar -> float)
    (data : DataFrame) (g : bucket) :
  never_zero col data -> In g (resample key data) ->
  agg_min (map col (snd g)) <> Some 0
  /\ agg_max (map col (snd g)) <> Some 0
  /\ agg_first (map col (snd g)) <> Some 0.
Proof.
  intros Hnz Hg.
  assert (H : ~ In (Some 0) (map col (snd g))).
  { intros Hin. apply in_map_iff in Hin as (b & Hb & Hbg).
    apply (resample_rows key data g b Hg) in Hbg as [Hbd _].
    exact (Hnz b 0 Hbd Hb eq_refl). }
  repeat split; intros E; apply H.
  - apply (agg_min_spec _ _ E).
  - apply (agg_max_spec _ _ E).
  - apply (agg_first_spec _ _ E).
Qed.

Lemma rolling_timing_returns (data : DataFrame) (annual_investment : R)
    (last : bar) :
  iloc_last data = Ok last -> never_zero Low data ->
  Rolling20Year.perfect_market_timing data annual_investment
  = Ok (fmul (total_shares annual_investment
                (bought (Rolling20Year.yearly_lows data))) (Close last),
        bought (Rolling20Year.yearly_lows data)).
Proof.
  intros Hlast Hnz. apply valuation_py; [exact Hlast|].
  apply bought_nonzero. intros g Hg.
  apply (agg_never_zero year Low data g Hnz Hg).
Qed.

Lemma rolling_immediate_returns (data : DataFrame) (annual_investment : R)
    (last : bar) :
  iloc_last data = Ok last -> never_zero Open data ->
  Rolling20Year.immediate_investing data annual_investment
  = Ok (fmul (total_shares annual_investment
                (bought (Rolling20Year.yearly_first_days data))) (Close last),
        bought (Rolling20Year.yearly_first_days data)).
Proof.
  intros Hlast Hnz. apply valuation_py; [exact Hlast|].
  apply bought_nonzero. intros g Hg.
  apply (agg_never_zero year Open data g Hnz Hg).
Qed.

Lemma dashboard_timing_returns (data : DataFrame) (annual_investment : R)
    (last : bar) :
  iloc_last data = Ok last -> never_zero Low data ->
  StockAnalysis.perfect_market_timing data annual_investment
  = Ok (fmul (total_shares annual_investment
                (bought (StockAnalysis.yearly_lows data))) (Close last),
        bought (StockAnalysis.yearly_lows data)).
Proof.
  intros Hlast Hnz. apply valuation_py; [exact Hlast|].
  apply bought_nonzero. intros g Hg.
  apply groupby_in_resample in Hg as [Hg _].
  apply (agg_never_zero year Low data g Hnz Hg).
Qed.

Lemma dashboard_peaks_returns (data : DataFrame) (annual_investment : R)
    (last : bar) :
  iloc_last data = Ok last -> never_zero High data ->
  StockAnalysis.invest_at_peaks data annual_investment
  = Ok (fmul (total_shares annual_investment
                (bought (StockAnalysis.yearly_peaks data))) (Close last),
        bought (StockAnalysis.yearly_peaks data)).
Proof.
  intros Hlast Hnz. apply valuation_py; [exact Hlast|].
  apply bought_nonzero. intros g Hg.
  apply groupby_in_resample in Hg as [Hg _].
  apply (agg_never_zero year High data g Hnz Hg).
Qed.

Lemma two_years_never_zero :
  never_zero Low two_years /\ never_zero Open two_years
  /\ never_zero High two_years.
Proof. repeat split; prices_nonzero. Qed.

Lemma gap_year_never_zero :
  never_zero Low gap_year /\ never_zero Open gap_year
  /\ never_zero High gap_year.
Proof. repeat split; prices_nonzero. Qed.

(** X1.  Whenever [perfect_market_timing] of [rolling-20year.py] returns,
    it has bought at the lowest low of each calendar year: each buy event
    is dated 31 December of a year and priced at a low that occurs in that
    year and is at most every low of that year; and every year that has a
    low at all has such an event. *)
Theorem perfect_timing_buys_the_yearly_low :
  forall (data : DataFrame) (annual_investment : R)
         (v : float) (pts : list buy_event),
    Rolling20Year.perfect_market_timing data annual_investment = Ok (v, pts) ->
    (forall d p, In (d, p) pts ->
       exists y, d = YE y
         /\ (exists b, In b data /\ year (timestamp b) = y
                       /\ Low b = Some p)
         /\ (forall b l, In b data -> year (timestamp b) = y ->
                         Low b = Some l -> p <= l))
    /\ (forall b l, In b data -> Low b = Some l ->
          exists p, In (YE (year (timestamp b)), p) pts /\ p <= l).
Proof.
  intros data a v pts H.
  apply returned_py in H as (last & Hlast & _ & -> & _). split.
  - intros d p Hin. apply in_bought in Hin. cbn [fst snd] in Hin.
    unfold Rolling20Year.yearly_lows in Hin.
    apply in_map_iff in Hin as (g & E & Hg). injection E as Hd Hm.
    exists (fst g). split; [now symmetry|].
    destruct (agg_min_spec _ _ Hm) as [Hatt Hlow]. split.
    + apply in_map_iff in Hatt as (b & Hb & Hbg).
      apply (resample_rows year data g b Hg) in Hbg as [Hbd Hy].
      exists b. auto.
    + intros b l Hb Hy Hl. apply Hlow. apply in_map_iff. exists b.
      split; [exact Hl|]. apply (resample_rows year data g b Hg). auto.
  - intros b l Hb Hl.
    destruct (resample_covers year data b Hb) as (g & Hg & Hk & Hin).
    assert (Hcol : In (Some l) (map Low (snd g))).
    { apply in_map_iff. exists b. auto. }
    destruct (agg_present _ _ Hcol) as ((m & Hm) & _).
    exists m. split.
    + apply in_bought. cbn [fst snd]. unfold Rolling20Year.yearly_lows.
      apply in_map_iff. exists g. split; [|exact Hg].
      rewrite <- Hk. apply f_equal2; [reflexivity | exact Hm].
    + apply (agg_min_spec _ _ Hm). exact Hcol.
Qed.

Lemma perfect_timing_buys_the_yearly_low_witness :
  exists v pts,
    Rolling20Year.perfect_market_timing two_years 1000 = Ok (v, pts)
    /\ exists p, In (YE 2021, p) pts /\ p <= 20.
Proof.
  eexists. eexists. split.
  - apply (rolling_timing_returns two_years 1000 june_2021 eq_refl
             (proj1 two_years_never_zero)).
  - apply (proj2 (perfect_timing_buys_the_yearly_low two_years 1000 _ _
                    (rolling_timing_returns two_years 1000 june_2021 eq_refl
                       (proj1 two_years_never_zero))) june_2021 20);
      [cbn; auto | reflexivity].
Defined.

(** X2.  On a chronological frame, whose index has no date twice so that
    [data.loc] picks one row for each year, the strategies of
    [stock-analysis.py] that buy at an extreme date it where it occurred,
    whenever they return: [perfect_market_timing] pairs the yearly minimum
    low with a date of the index on which that low occurred, and
    [invest_at_peaks] pairs the yearly maximum high with a date on which
    that high occurred; the price is at most (at least) every low (high) of
    the same calendar year. *)
Theorem dashboard_extremes_are_dated_where_they_occur :
  forall (data : DataFrame) (annual_investment : R)
         (v : float) (pts : list buy_event),
    chronological data = true ->
    (StockAnalysis.perfect_market_timing data annual_investment = Ok (v, pts) ->
     forall d p, In (d, p) pts ->
       exists b, In b data /\ timestamp b = d /\ Low b = Some p
         /\ forall b' l, In b' data ->
              year (timestamp b') = year (timestamp b) ->
              Low b' = Some l -> p <= l)
    /\ (StockAnalysis.invest_at_peaks data annual_investment = Ok (v, pts) ->
        forall d p, In (d, p) pts ->
          exists b, In b data /\ timestamp b = d /\ High b = Some p
            /\ forall b' h, In b' data ->
                 year (timestamp b') = year (timestamp b) ->
                 High b' = Some h -> h <= p).
Proof.
  intros data a v pts _. split; intros H.
  - apply returned_py in H as (last & Hlast & _ & -> & _).
    intros d p Hin. apply in_bought in Hin. cbn [fst snd] in Hin.
    unfold StockAnalysis.yearly_lows in Hin.
    apply in_map_iff in Hin as (g & E & Hg). injection E as Hd Hm.
    apply groupby_in_resample in Hg as [Hg _].
    destruct (agg_idxmin_row Low (snd g) d p Hd Hm) as (b & Hbg & Hts & Hlow).
    apply (resample_rows year data g b Hg) in Hbg as [Hbd Hy].
    exists b. repeat split; auto.
    intros b' l Hb' Hy' Hl. apply (agg_min_spec _ _ Hm).
    apply in_map_iff. exists b'. split; [exact Hl|].
    apply (resample_rows year data g b' Hg). split; [exact Hb' | congruence].
  - apply returned_py in H as (last & Hlast & _ & -> & _).
    intros d p Hin. apply in_bought in Hin. cbn [fst snd] in Hin.
    unfold StockAnalysis.yearly_peaks in Hin.
    apply in_map_iff in Hin as (g & E & Hg). injection E as Hd Hm.
    apply groupby_in_resample in Hg as [Hg _].
    destruct (agg_idxmax_row High (snd g) d p Hd Hm) as (b & Hbg & Hts & Hhigh).
    apply (resample_rows year data g b Hg) in Hbg as [Hbd Hy].
    exists b. repeat split; auto.
    intros b' h Hb' Hy' Hh. apply (agg_max_spec _ _ Hm).
    apply in_map_iff. exists b'. split; [exact Hh|].
    apply (resample_rows year data g b' Hg). split; [exact Hb' | congruence].
Qed.

Lemma dashboard_extremes_are_dated_where_they_occur_witness :
  chronological two_years = true
  /\ exists v pts,
       StockAnalysis.perfect_market_timing two_years 1000 = Ok (v, pts)
       /\ forall d p, In (d, p) pts -> In d (map timestamp two_years).
Proof.
  split; [reflexivity|].
  eexists. eexists. split.
  - apply (dashboard_timing_returns two_years 1000 june_2021 eq_refl
             (proj1 two_years_never_zero)).
  - intros d p Hin.
    destruct (proj1 (dashboard_extremes_are_dated_where_they_occur
                       two_years 1000 _ _ eq_refl)
                (dashboard_timing_returns two_years 1000 june_2021 eq_refl
                   (proj1 two_years_never_zero)) d p Hin)
      as (b & Hb & Hts & _).
    rewrite <- Hts. apply in_map. exact Hb.
Defined.

(** ** The two copies of the strategies agree *)

Lemma strategy_of_bought (amount : R) (rows : list row) (data : DataFrame) :
  (last_close <- iloc_last (map Close data) ;;
   Ok (fmul (fst (buy_loop amount rows 0 [])) last_close,
       snd (buy_loop amount rows 0 [])))
  = (last_close <- iloc_last (map Close data) ;;
     Ok (fmul (total_shares amount (bought rows)) last_close, bought rows)).
Proof. rewrite buy_loop_spec. reflexivity. Qed.

Lemma yearly_first_days_bought (data : DataFrame) :
  bought (Rolling20Year.yearly_first_days data)
  = bought (StockAnalysis.yearly_first_days data).
Proof.
  unfold Rolling20Year.yearly_first_days, StockAnalysis.yearly_first_days, groupby.
  rewrite bought_map, bought_map_filter. apply flat_map_ext.
  intros [k [|b bs]]; reflexivity.
Qed.

(** X3.  On a chronological frame, whenever [immediate_investing] of
    [rolling-20year.py] (a resample with the year-start label) returns,
    [immediate_investing] of [stock-analysis.py] (a group-by on the yearly
    period, turned back into a timestamp) returns the same value and the
    same buy events: the empty bins that [resample] adds have no price and
    are skipped. *)
Theorem immediate_investing_same_in_both_files :
  forall (data : DataFrame) (annual_investment : R) (sim : simulation),
    chronological data = true ->
    Rolling20Year.immediate_investing data annual_investment = Ok sim ->
    StockAnalysis.immediate_investing data annual_investment = Ok sim.
Proof.
  intros data a [v pts] _ H.
  apply returned_py in H as (last & Hlast & _ & -> & ->).
  unfold StockAnalysis.immediate_investing. cbv zeta.
  rewrite (valuation _ _ data last Hlast), yearly_first_days_bought.
  reflexivity.
Qed.

Lemma immediate_investing_same_in_both_files_witness :
  exists sim,
    Rolling20Year.immediate_investing two_years 1000 = Ok sim
    /\ StockAnalysis.immediate_investing two_years 1000 = Ok sim.
Proof.
  eexists. split.
  - apply (rolling_immediate_returns two_years 1000 june_2021 eq_refl
             (proj1 (proj2 two_years_never_zero))).
  - apply (immediate_investing_same_in_both_files two_years 1000 _ eq_refl).
    apply (rolling_immediate_returns two_years 1000 june_2021 eq_refl
             (proj1 (proj2 two_years_never_zero))).
Defined.

Lemma map_snd_flat_map {A : Type} (f : A -> list buy_event) (l : list A) :
  map snd (flat_map f l) = flat_map (fun x => map snd (f x)) l.
Proof.
  induction l as [|x l IH]; [reflexivity|].
  cbn [flat_map]. rewrite map_app. f_equal. exact IH.
Qed.

Lemma shares_after_prices (amount : R) (es1 : list buy_event) :
  forall es2 shares, map snd es1 = map snd es2 ->
    shares_after amount es1 shares = shares_after amount es2 shares.
Proof.
  induction es1 as [|e1 es1 IH]; intros [|e2 es2] s H; try discriminate.
  - reflexivity.
  - cbn [map] in H. injection H as Hp H.
    rewrite !shares_after_cons, Hp. apply IH. exact H.
Qed.

Lemma yearly_lows_prices (data : DataFrame) :
  map snd (bought (Rolling20Year.yearly_lows data))
  = map snd (bought (StockAnalysis.yearly_lows data)).
Proof.
  unfold Rolling20Year.yearly_lows, StockAnalysis.yearly_lows, groupby.
  rewrite bought_map, bought_map_filter, !map_snd_flat_map.
  apply flat_map_ext. intros [k [|b bs]]; [reflexivity|].
  cbn [negb empty fst snd].
  destruct (agg_min (map Low (b :: bs))) as [m|] eqn:Hm.
  - destruct (agg_idxmin_present Low (b :: bs) m Hm) as [d ->]. reflexivity.
  - destruct (agg_idxmin Low (b :: bs)); reflexivity.
Qed.

(** X4.  On a chronological frame, whenever [perfect_market_timing] of
    [rolling-20year.py] and of [stock-analysis.py] both return, they return
    the same portfolio value and have bought at the same prices, year by
    year; only the dates of the events differ (31 December against the day
    of the low). *)
Theorem perfect_timing_same_value_in_both_files :
  forall (data : DataFrame) (annual_investment : R)
         (v_rolling v_dashboard : float)
         (pts_rolling pts_dashboard : list buy_event),
    chronological data = true ->
    Rolling20Year.perfect_market_timing data annual_investment
    = Ok (v_rolling, pts_rolling) ->
    StockAnalysis.perfect_market_timing data annual_investment
    = Ok (v_dashboard, pts_dashboard) ->
    v_rolling = v_dashboard
    /\ map snd pts_rolling = map snd pts_dashboard.
Proof.
  intros data a v v' pts pts' _ H H'.
  apply returned_py in H as (last & Hlast & _ & -> & ->).
  apply returned_py in H' as (last' & Hlast' & _ & -> & ->).
  rewrite Hlast in Hlast'. injection Hlast' as <-.
  split; [|apply yearly_lows_prices].
  unfold total_shares.
  rewrite (shares_after_prices a _ _ 0 (yearly_lows_prices data)).
  reflexivity.
Qed.

Lemma perfect_timing_same_value_in_both_files_witness :
  chronological gap_year = true
  /\ exists v_rolling v_dashboard pts_rolling pts_dashboard,
       Rolling20Year.perfect_market_timing gap_year 1000
       = Ok (v_rolling, pts_rolling)
       /\ StockAnalysis.perfect_market_timing gap_year 1000
          = Ok (v_dashboard, pts_dashboard)
       /\ v_rolling = v_dashboard
       /\ map snd pts_rolling = map snd pts_dashboard.
Proof.
  split; [reflexivity|].
  do 4 eexists.
  split; [|split].
  - apply (rolling_timing_returns gap_year 1000 june_2022 eq_refl
             (proj1 gap_year_never_zero)).
  - apply (dashboard_timing_returns gap_year 1000 june_2022 eq_refl
             (proj1 gap_year_never_zero)).
  - apply (perfect_timing_same_value_in_both_files gap_year 1000);
      [reflexivity| |].
    + apply (rolling_timing_returns gap_year 1000 june_2022 eq_refl
               (proj1 gap_year_never_zero)).
    + apply (dashboard_timing_returns gap_year 1000 june_2022 eq_refl
               (proj1 gap_year_never_zero)).
Defined.

(** ** The order of the strategies on well-formed bars *)

Lemma dearer_buys_less (amount cheap dear : R) :
  0 <= amount -> 0 < cheap -> cheap <= dear -> amount / dear <= amount / cheap.
Proof.
  intros Ha Hc Hcd. unfold Rdiv. apply Rmult_le_compat_l; [exact Ha|].
  apply Rinv_le_contravar; lra.
Qed.

(** Two ways of pricing the same bins: where one buys the other buys too,
    and never at a higher price. *)
Lemma dearer_rows_buy_less (amount : R) (F G : bucket -> row)
    (bins : list bucket) :
  0 <= amount ->
  (forall g, In g bins ->
     exists d1 dear d2 cheap,
       F g = (Some d1, Some dear) /\ G g = (Some d2, Some cheap)
       /\ 0 < cheap /\ cheap <= dear) ->
  forall s_dear s_cheap, s_dear <= s_cheap ->
    shares_after amount (bought (map F bins)) s_dear
    <= shares_after amount (bought (map G bins)) s_cheap.
Proof.
  intros Ha. induction bins as [|g bins IH]; intros Hbins s1 s2 Hs.
  - exact Hs.
  - destruct (Hbins g (or_introl eq_refl))
      as (d1 & dear & d2 & cheap & HF & HG & Hpos & Hle).
    cbn [map]. rewrite !bought_cons, HF, HG. cbn [purchase app].
    rewrite !shares_after_cons. cbn [snd]. apply IH.
    + intros g' Hg'. apply Hbins. now right.
    + pose proof (dearer_buys_less amount cheap dear Ha Hpos Hle). lra.
Qed.

(** The yearly reference prices of a group of well-formed bars. *)
Lemma group_prices (data : DataFrame) (g : bucket) :
  (forall b, In b data ->
     exists o h l, Open b = Some o /\ High b = Some h /\ Low b = Some l
                   /\ 0 < l /\ l <= o /\ o <= h) ->
  In g (groupby year data) ->
  exists dl l o dh h,
    agg_idxmin Low (snd g) = Some dl /\ agg_min (map Low (snd g)) = Some l
    /\ agg_first (map Open (snd g)) = Some o
    /\ agg_idxmax High (snd g) = Some dh /\ agg_max (map High (snd g)) = Some h
    /\ 0 < l /\ l <= o /\ o <= h.
Proof.
  intros Hwf Hg. apply groupby_in_resample in Hg as [Hg Hne].
  assert (Hsub : forall b, In b (snd g) -> In b data).
  { intros b Hb. now apply (resample_rows year data g b Hg) in Hb. }
  destruct (snd g) as [|b0 bs] eqn:E; [contradiction|].
  destruct (Hwf b0 (Hsub b0 (or_introl eq_refl)))
    as (o0 & h0 & l0 & Ho0 & Hh0 & Hl0 & _).
  assert (Hco : In (Some o0) (map Open (b0 :: bs)))
    by (apply in_map_iff; exists b0; split; [exact Ho0 | now left]).
  assert (Hch : In (Some h0) (map High (b0 :: bs)))
    by (apply in_map_iff; exists b0; split; [exact Hh0 | now left]).
  assert (Hcl : In (Some l0) (map Low (b0 :: bs)))
    by (apply in_map_iff; exists b0; split; [exact Hl0 | now left]).
  destruct (agg_present _ _ Hcl) as ((l & Hl) & _).
  destruct (agg_present _ _ Hch) as (_ & (h & Hh) & _).
  destruct (agg_present _ _ Hco) as (_ & _ & (o & Ho)).
  destruct (agg_idxmin_present Low (b0 :: bs) l Hl) as [dl Hdl].
  destruct (agg_idxmax_present High (b0 :: bs) h Hh) as [dh Hdh].
  exists dl, l, o, dh, h. repeat (split; [assumption|]).
  (* the bar whose open is the first open *)
  apply agg_first_spec in Ho. apply in_map_iff in Ho as (bo & Hbo & Hino).
  destruct (Hwf bo (Hsub bo Hino)) as (o' & h' & l' & Ho' & Hh' & Hl' & _ & Hlo & Hoh).
  assert (o' = o) by congruence. subst o'.
  (* the bar on which the minimum low occurs *)
  destruct (agg_min_spec _ _ Hl) as [Hatt Hmin].
  apply in_map_iff in Hatt as (bl & Hbl & Hinl).
  destruct (Hwf bl (Hsub bl Hinl)) as (o2 & h2 & l2 & _ & _ & Hl2 & Hpos & _).
  assert (l2 = l) by congruence. subst l2.
  assert (l <= l').
  { apply Hmin. apply in_map_iff. exists bo. auto. }
  assert (h' <= h).
  { apply (agg_max_spec _ _ Hh). apply in_map_iff. exists bo. auto. }
  repeat split; lra.
Qed.

(** X5.  On a frame whose bars all have a positive low, an open not below
    the low and a high not below the open, with a non-negative yearly
    amount and a last close that is not negative, the dashboard strategies
    are ordered: investing at the peaks ends with at most the value of
    immediate investing, which ends with at most the value of perfect
    timing. *)
Theorem dashboard_strategies_are_ordered :
  forall (data : DataFrame) (annual_investment : R) (last : bar) (close : R),
    0 <= annual_investment ->
    iloc_last data = Ok last -> Close last = Some close -> 0 <= close ->
    (forall b, In b data ->
       exists o h l, Open b = Some o /\ High b = Some h /\ Low b = Some l
                     /\ 0 < l /\ l <= o /\ o <= h) ->
    exists v_peaks pts_peaks v_immediate pts_immediate v_timing pts_timing,
      StockAnalysis.invest_at_peaks data annual_investment
      = Ok (Some v_peaks, pts_peaks)
      /\ StockAnalysis.immediate_investing data annual_investment
         = Ok (Some v_immediate, pts_immediate)
      /\ StockAnalysis.perfect_market_timing data annual_investment
         = Ok (Some v_timing, pts_timing)
      /\ v_peaks <= v_immediate /\ v_immediate <= v_timing.
Proof.
  intros data a last c Ha Hlast Hc Hc0 Hwf.
  assert (Hlow : never_zero Low data).
  { intros b p Hb E. destruct (Hwf b Hb) as (o & h & l & _ & _ & Hl & ?).
    rewrite Hl in E. injection E as <-. lra. }
  assert (Hhigh : never_zero High data).
  { intros b p Hb E. destruct (Hwf b Hb) as (o & h & l & _ & Hh & _ & ?).
    rewrite Hh in E. injection E as <-. lra. }
  rewrite (dashboard_peaks_returns data a last Hlast Hhigh),
    (dashboard_timing_returns data a last Hlast Hlow).
  unfold StockAnalysis.immediate_investing. cbv zeta.
  rewrite !(valuation _ _ data last Hlast), Hc. cbn [fmul option_map].
  do 6 eexists. do 3 (split; [reflexivity|]).
  unfold total_shares, StockAnalysis.yearly_peaks,
    StockAnalysis.yearly_first_days, StockAnalysis.yearly_lows.
  split; (apply Rmult_le_compat_r; [exact Hc0|]);
    (apply dearer_rows_buy_less; [exact Ha | | lra]);
    intros g Hg;
    destruct (group_prices data g Hwf Hg)
      as (dl & l & o & dh & h & Hdl & Hl & Ho & Hdh & Hh & Hpos & Hlo & Hoh).
  - exists dh, h, (to_timestamp (fst g)), o.
    split; [apply f_equal2; assumption|].
    split; [apply f_equal2; [reflexivity | assumption]|]. lra.
  - exists (to_timestamp (fst g)), o, dl, l.
    split; [apply f_equal2; [reflexivity | assumption]|].
    split; [apply f_equal2; assumption|]. lra.
Qed.

Lemma dashboard_strategies_are_ordered_witness :
  exists v_peaks pts_peaks v_immediate pts_immediate v_timing pts_timing,
    StockAnalysis.invest_at_peaks two_years 1000
    = Ok (Some v_peaks, pts_peaks)
    /\ StockAnalysis.immediate_investing two_years 1000
       = Ok (Some v_immediate, pts_immediate)
    /\ StockAnalysis.perfect_market_timing two_years 1000
       = Ok (Some v_timing, pts_timing)
    /\ v_peaks <= v_immediate /\ v_immediate <= v_timing.
Proof.
  apply (dashboard_strategies_are_ordered two_years 1000 june_2021 25).
  - lra.
  - reflexivity.
  - reflexivity.
  - lra.
  - intros b [<-|[<-|[]]].
    + exists 11, 13, 10. cbn. repeat split; lra.
    + exists 22, 26, 20. cbn. repeat split; lra.
Defined.

(** ** The in-loop valuation of market-analysis.py *)

Lemma date_leb_refl (a : date) : date_leb a a = true.
Proof.
  unfold date_leb. rewrite !Nat.eqb_refl, Nat.leb_refl.
  cbn. now rewrite !orb_true_r.
Qed.

Lemma date_leb_spec (a b : date) :
  date_leb a b = true <->
  (year a < year b
   \/ (year a = year b
       /\ (month a < month b \/ (month a = month b /\ day a <= day b))))%nat.
Proof.
  unfold date_leb.
  rewrite orb_true_iff, andb_true_iff, orb_true_iff, andb_true_iff.
  rewrite !Nat.ltb_lt, !Nat.eqb_eq, Nat.leb_le. reflexivity.
Qed.

Lemma date_leb_trans (a b c : date) :
  date_leb a b = true -> date_leb b c = true -> date_leb a c = true.
Proof. rewrite !date_leb_spec. lia. Qed.

Lemma date_ltb_leb (a b : date) : date_ltb a b = true -> date_leb a b = true.
Proof.
  unfold date_ltb. rewrite negb_true_iff. intros H.
  apply date_leb_spec.
  assert (N : ~ (date_leb b a = true)) by congruence.
  rewrite date_leb_spec in N. lia.
Qed.

(** In an increasing index no row is later than the last one. *)
Lemma increasing_last (data : DataFrame) (last : bar) :
  increasing data = true -> iloc_last data = Ok last ->
  forall b, In b data -> date_leb (timestamp b) (timestamp last) = true.
Proof.
  induction data as [|a [|b' rest] IH]; intros Hi Hlast b Hb.
  - contradiction.
  - cbn in Hlast. injection Hlast as <-. destruct Hb as [<-|[]].
    apply date_leb_refl.
  - cbn [increasing] in Hi. apply andb_true_iff in Hi as [Hab Hi].
    change (iloc_last (b' :: rest) = Ok last) in Hlast.
    specialize (IH Hi Hlast). destruct Hb as [<-|Hb]; [|apply IH; exact Hb].
    eapply date_leb_trans; [apply date_ltb_leb; exact Hab|].
    apply IH. now left.
Qed.

Lemma iloc_last_cons {A : Type} (a : A) (l : list A) :
  l <> [] -> iloc_last (a :: l) = iloc_last l.
Proof. destruct l; [contradiction | reflexivity]. Qed.

Lemma iloc_last_ok_nonempty {A : Type} (l : list A) (x : A) :
  iloc_last l = Ok x -> l <> [].
Proof. destruct l; [discriminate | discriminate]. Qed.

(** Slicing keeps the last row when the last row is in the slice. *)
Lemma iloc_last_filter {A : Type} (P : A -> bool) (l : list A) (x : A) :
  iloc_last l = Ok x -> P x = true -> iloc_last (filter P l) = Ok x.
Proof.
  intros Hl Hx. induction l as [|a [|b rest] IH].
  - discriminate.
  - cbn in Hl. injection Hl as ->. cbn. rewrite Hx. reflexivity.
  - change (iloc_last (b :: rest) = Ok x) in Hl. specialize (IH Hl).
    change (filter P (a :: b :: rest))
      with (if P a then a :: filter P (b :: rest) else filter P (b :: rest)).
    destruct (P a); [|exact IH].
    rewrite iloc_last_cons; [exact IH|].
    exact (iloc_last_ok_nonempty _ _ IH).
Qed.

Lemma bought_dated_cons_some (label : date) (price : R)
    (rows : list (date * float)) :
  bought (dated ((label, Some price) :: rows))
  = (label, price) :: bought (dated rows).
Proof. reflexivity. Qed.

Lemma bought_dated_cons_none (label : date) (rows : list (date * float)) :
  bought (dated ((label, None) :: rows)) = bought (dated rows).
Proof. reflexivity. Qed.

(** When every priced row is labelled no later than the last row of the
    frame, the loop of [market-analysis.py] ends with every share bought,
    at the last close; with no purchase it keeps the value it started
    with. *)
Lemma value_loop_valued (data : DataFrame) (annual_investment : R)
    (last : bar) (rows : list (date * float)) :
  iloc_last data = Ok last ->
  (forall label price, In (label, Some price) rows ->
     date_leb label (timestamp last) = true) ->
  nonzero (bought (dated rows)) ->
  forall shares_owned portfolio_value,
    MarketAnalysis.value_loop data annual_investment rows
      shares_owned portfolio_value
    = Ok (match bought (dated rows) with
          | [] => portfolio_value
          | _ :: _ =>
              fmul (shares_after annual_investment (bought (dated rows))
                      shares_owned) (Close last)
          end).
Proof.
  intros Hlast.
  induction rows as [|[label [p|]] rest IH]; intros Hrows Hnz s pv.
  - reflexivity.
  - cbn [MarketAnalysis.value_loop]. unfold py_div.
    destruct (Req_dec_T p 0) as [Hp | _].
    { exfalso. apply (Hnz (label, p)); [now left | exact Hp]. }
    cbn [bind]. cbv zeta.
    assert (Hf : iloc_last (loc_from label data) = Ok last).
    { apply iloc_last_filter; [exact Hlast|].
      apply (Hrows label p). now left. }
    pose proof (iloc_last_ok_nonempty _ _ Hf) as Hne.
    destruct (loc_from label data) as [|f fs] eqn:E; [contradiction|].
    cbn [empty]. rewrite (iloc_last_map Close _ _ Hf). cbn [bind].
    rewrite IH;
      [| intros l' p' H'; apply (Hrows l' p'); now right
       | intros e He; apply Hnz; now right].
    rewrite bought_dated_cons_some, shares_after_cons. cbn [snd].
    destruct (bought (dated rest)); reflexivity.
  - cbn [MarketAnalysis.value_loop]. rewrite bought_dated_cons_none.
    apply IH; [|exact Hnz]. intros l' p' H'. apply (Hrows l' p'). now right.
Qed.

(** The loop returns only when no price bought at is zero. *)
Lemma value_loop_returned (data : DataFrame) (annual_investment : R)
    (rows : list (date * float)) :
  forall shares_owned portfolio_value value,
    MarketAnalysis.value_loop data annual_investment rows
      shares_owned portfolio_value = Ok value ->
    nonzero (bought (dated rows)).
Proof.
  induction rows as [|[label [p|]] rest IH]; intros s pv v H.
  - intros e [].
  - cbn [MarketAnalysis.value_loop] in H. unfold py_div in H.
    destruct (Req_dec_T p 0) as [Hp | Hp]; [discriminate|].
    cbn [bind] in H. cbv zeta in H.
    assert (Hrest : nonzero (bought (dated rest))).
    { destruct (empty (loc_from label data)); [exact (IH _ _ _ H)|].
      destruct (iloc_last (map Close (loc_from label data))) as [c|e];
        [exact (IH _ _ _ H) | discriminate]. }
    intros e [<- | He]; [exact Hp | apply Hrest; exact He].
  - cbn [MarketAnalysis.value_loop] in H. exact (IH _ _ _ H).
Qed.

Lemma dated_yearly_first_days (data : DataFrame) :
  dated (map (fun g : bucket => (YS (fst g), agg_first (map Open (snd g))))
             (resample year data))
  = Rolling20Year.yearly_first_days data.
Proof.
  unfold dated, Rolling20Year.yearly_first_days. rewrite map_map. reflexivity.
Qed.

Lemma dated_yearly_lows (data : DataFrame) :
  dated (map (fun g : bucket => (YE (fst g), agg_min (map Low (snd g))))
             (resample year data))
  = Rolling20Year.yearly_lows data.
Proof.
  unfold dated, Rolling20Year.yearly_lows. rewrite map_map. reflexivity.
Qed.

Lemma chronological_parts (data : DataFrame) :
  chronological data = true ->
  (forall b, In b data -> valid_date (timestamp b) = true)
  /\ increasing data = true.
Proof.
  unfold chronological. rewrite andb_true_iff, forallb_forall. auto.
Qed.

Lemma valid_date_spec (d : date) :
  valid_date d = true ->
  (1 <= month d /\ month d <= 12 /\ 1 <= day d /\ day d <= 31)%nat.
Proof.
  unfold valid_date. rewrite !andb_true_iff, !Nat.leb_le. tauto.
Qed.

(** X6.  On a chronological frame, whenever [immediate_investing] of
    [market-analysis.py] returns, [immediate_investing] of
    [rolling-20year.py] returns too, and the value of the former is the
    value of the latter, every share bought at the last close, as soon as
    one year is bought; when no year has an open it is 0. *)
Theorem market_immediate_investing_values_every_share :
  forall (data : DataFrame) (annual_investment : R) (last : bar)
         (value : float),
    chronological data = true -> iloc_last data = Ok last ->
    MarketAnalysis.immediate_investing data annual_investment = Ok value ->
    exists v pts,
      Rolling20Year.immediate_investing data annual_investment = Ok (v, pts)
      /\ value = match pts with [] => Some 0 | _ :: _ => v end.
Proof.
  intros data a last value Hchr Hlast H.
  destruct (chronological_parts data Hchr) as [Hvalid Hinc].
  unfold MarketAnalysis.immediate_investing in H. cbv zeta in H.
  pose proof (value_loop_returned _ _ _ _ _ _ H) as Hnz.
  rewrite (value_loop_valued data a last _ Hlast) in H; [| |exact Hnz].
  - rewrite dated_yearly_first_days in H, Hnz. injection H as <-.
    eexists. eexists.
    split; [apply valuation_py; [exact Hlast | exact Hnz]|].
    reflexivity.
  - intros label p Hin. apply in_map_iff in Hin as (g & E & Hg).
    injection E as <- Hp. apply agg_first_spec in Hp.
    apply in_map_iff in Hp as (b & _ & Hb).
    apply (resample_rows year data g b Hg) in Hb as [Hbd Hy].
    apply date_leb_trans with (timestamp b);
      [|apply (increasing_last data last Hinc Hlast b Hbd)].
    pose proof (valid_date_spec _ (Hvalid b Hbd)).
    destruct g as [k bs]. cbn [fst] in *.
    apply date_leb_spec. cbn [YS year month day]. lia.
Qed.

Lemma market_immediate_investing_gap_year :
  MarketAnalysis.immediate_investing gap_year 1000
  = Ok (Some ((0 + 1000 / 11 + 1000 / 40) * 41)).
Proof. cbn. decide_tests. reflexivity. Qed.

Lemma market_immediate_investing_values_every_share_witness :
  exists v pts,
    Rolling20Year.immediate_investing gap_year 1000 = Ok (v, pts)
    /\ Some ((0 + 1000 / 11 + 1000 / 40) * 41)
       = match pts with [] => Some 0 | _ :: _ => v end.
Proof.
  apply (market_immediate_investing_values_every_share gap_year 1000 june_2022);
    [reflexivity | reflexivity | exact market_immediate_investing_gap_year].
Defined.

Lemma bought_rows_year (data : DataFrame) (g : bucket) (price : R) :
  In g (resample year data) -> agg_min (map Low (snd g)) = Some price ->
  exists b, In b data /\ year (timestamp b) = fst g.
Proof.
  intros Hg Hp. apply agg_min_spec in Hp as [Hp _].
  apply in_map_iff in Hp as (b & _ & Hb).
  apply (resample_rows year data g b Hg) in Hb. exists b. exact Hb.
Qed.

(** X7.  On a chronological frame whose last row is dated 31 December,
    whenever [perfect_market_timing] of [market-analysis.py] returns,
    [perfect_market_timing] of [rolling-20year.py] returns too, and the
    value of the former is the value of the latter as soon as one year is
    bought; when no year has a low it is 0. *)
Theorem market_timing_complete_when_ending_at_year_end :
  forall (data : DataFrame) (annual_investment : R) (last : bar)
         (value : float),
    chronological data = true -> iloc_last data = Ok last ->
    month (timestamp last) = 12%nat -> day (timestamp last) = 31%nat ->
    MarketAnalysis.perfect_market_timing data annual_investment = Ok value ->
    exists v pts,
      Rolling20Year.perfect_market_timing data annual_investment = Ok (v, pts)
      /\ value = match pts with [] => Some 0 | _ :: _ => v end.
Proof.
  intros data a last value Hchr Hlast Hm Hd H.
  destruct (chronological_parts data Hchr) as [_ Hinc].
  unfold MarketAnalysis.perfect_market_timing in H. cbv zeta in H.
  pose proof (value_loop_returned _ _ _ _ _ _ H) as Hnz.
  rewrite (value_loop_valued data a last _ Hlast) in H; [| |exact Hnz].
  - rewrite dated_yearly_lows in H, Hnz. injection H as <-.
    eexists. eexists.
    split; [apply valuation_py; [exact Hlast | exact Hnz]|].
    reflexivity.
  - intros label p Hin. apply in_map_iff in Hin as (g & E & Hg).
    injection E as <- Hp.
    destruct (bought_rows_year data g p Hg Hp) as (b & Hbd & Hy).
    pose proof (increasing_last data last Hinc Hlast b Hbd) as Hle.
    apply date_leb_spec in Hle. destruct g as [k bs]. cbn [fst] in *.
    apply date_leb_spec. cbn [YE year month day]. lia.
Qed.

Lemma market_timing_year_end :
  MarketAnalysis.perfect_market_timing [june_2020; year_end_2021] 1000
  = Ok (Some ((0 + 1000 / 10 + 1000 / 20) * 25)).
Proof. cbn. decide_tests. reflexivity. Qed.

Lemma market_timing_complete_when_ending_at_year_end_witness :
  exists v pts,
    Rolling20Year.perfect_market_timing [june_2020; year_end_2021] 1000
    = Ok (v, pts)
    /\ Some ((0 + 1000 / 10 + 1000 / 20) * 25)
       = match pts with [] => Some 0 | _ :: _ => v end.
Proof.
  apply (market_timing_complete_when_ending_at_year_end
           [june_2020; year_end_2021] 1000 year_end_2021);
    [reflexivity | reflexivity | reflexivity | reflexivity
    | exact market_timing_year_end].
Defined.

Lemma value_loop_app (data : DataFrame) (annual_investment : R)
    (rows1 rows2 : list (date * float)) :
  forall shares_owned portfolio_value,
    MarketAnalysis.value_loop data annual_investment (rows1 ++ rows2)
      shares_owned portfolio_value
    = (pv <- MarketAnalysis.value_loop data annual_investment rows1
               shares_owned portfolio_value ;;
       MarketAnalysis.value_loop data annual_investment rows2
         (shares_after annual_investment (bought (dated rows1)) shares_owned)
         pv).
Proof.
  induction rows1 as [|[label [p|]] rest IH]; intros s pv.
  - reflexivity.
  - cbn [app MarketAnalysis.value_loop]. unfold py_div.
    destruct (Req_dec_T p 0); [reflexivity|]. cbn [bind]. cbv zeta.
    rewrite bought_dated_cons_some, shares_after_cons. cbn [snd].
    destruct (empty (loc_from label data)); [apply IH|].
    destruct (iloc_last (map Close (loc_from label data))) as [c|e];
      [|reflexivity].
    cbn [bind]. apply IH.
  - cbn [app MarketAnalysis.value_loop]. rewrite bought_dated_cons_none.
    apply IH.
Qed.

(** The bins of a chronological frame end with the bin of the last row's
    year; all bins before it are of earlier years. *)
Lemma resample_last_year (data : DataFrame) (last : bar) :
  chronological data = true -> iloc_last data = Ok last ->
  exists before rows_last,
    resample year data
    = before ++ [(year (timestamp last), rows_last)]
    /\ forall g, In g before -> (fst g < year (timestamp last))%nat.
Proof.
  intros Hchr Hlast.
  assert (Hy : nondecreasing (map (fun b => year (timestamp b)) data)).
  { apply chronological_keys; [|exact Hchr].
    intros x y _ _. apply date_ltb_year. }
  pose proof (iloc_last_map (fun b => year (timestamp b)) data last Hlast) as Hk.
  unfold resample.
  destruct (map (fun b => year (timestamp b)) data) as [|k ks] eqn:E;
    [discriminate|].
  rewrite (span_nondecreasing k (year (timestamp last)) ks Hy Hk).
  assert (Hle : (k <= year (timestamp last))%nat).
  { apply (nondecreasing_last _ _ Hy Hk). now left. }
  rewrite Nat.add_1_r, seq_S, map_app.
  replace (k + (year (timestamp last) - k))%nat
    with (year (timestamp last)) by lia.
  eexists. eexists. split; [reflexivity|].
  intros g Hg. apply in_map_iff in Hg as (y & <- & Hin).
  apply in_seq in Hin. cbn [fst]. lia.
Qed.

Lemma filter_none {A : Type} (P : A -> bool) (l : list A) :
  (forall x, In x l -> P x = false) -> filter P l = [].
Proof.
  induction l as [|a l IH]; intros H; [reflexivity|].
  cbn [filter]. rewrite (H a (or_introl eq_refl)).
  apply IH. intros x Hx. apply H. now right.
Qed.

(** A last row whose label lies after every row of the frame is bought
    but never valued. *)
Lemma value_loop_last_unvalued (data : DataFrame) (annual_investment : R)
    (last : bar) (rows : list (date * float)) (label : date) (price : float) :
  iloc_last data = Ok last ->
  (forall l p, In (l, Some p) rows -> date_leb l (timestamp last) = true) ->
  loc_from label data = [] ->
  nonzero (bought (dated (rows ++ [(label, price)]))) ->
  MarketAnalysis.value_loop data annual_investment
    (rows ++ [(label, price)]) 0 (Some 0)
  = Ok (match bought (dated rows) with
        | [] => Some 0
        | e :: es =>
            fmul (total_shares annual_investment (e :: es)) (Close last)
        end).
Proof.
  intros Hlast Hrows Hempty Hnz.
  unfold dated in Hnz. rewrite map_app, bought_app in Hnz.
  rewrite value_loop_app, (value_loop_valued data _ last rows Hlast Hrows);
    [|intros e He; apply Hnz; apply in_or_app; now left].
  cbn [bind]. unfold total_shares.
  destruct price as [p|]; cbn [MarketAnalysis.value_loop].
  - unfold py_div. destruct (Req_dec_T p 0) as [Hp | _].
    { exfalso. apply (Hnz (label, p)); [|exact Hp].
      apply in_or_app. right. now left. }
    cbn [bind]. cbv zeta.
    rewrite Hempty. cbn [empty]. destruct (bought (dated rows)); reflexivity.
  - destruct (bought (dated rows)); reflexivity.
Qed.

(** X8.  On a chronological frame whose last row is not dated 31 December,
    [perfect_market_timing] of [market-analysis.py], whenever it returns,
    has left the last calendar year out: it returns the shares bought in
    the years before the last one, at the last close, and 0 when nothing
    was bought in those years. *)
Theorem market_timing_leaves_out_the_last_year :
  forall (data : DataFrame) (annual_investment : R) (last : bar)
         (value : float),
    chronological data = true -> iloc_last data = Ok last ->
    (month (timestamp last) <> 12%nat \/ day (timestamp last) <> 31%nat) ->
    MarketAnalysis.perfect_market_timing data annual_investment = Ok value ->
    value
    = match bought (removelast (Rolling20Year.yearly_lows data)) with
      | [] => Some 0
      | e :: es =>
          fmul (total_shares annual_investment (e :: es)) (Close last)
      end.
Proof.
  intros data a last value Hchr Hlast Hnot H.
  destruct (chronological_parts data Hchr) as [Hvalid Hinc].
  destruct (resample_last_year data last Hchr Hlast)
    as (before & rows_last & Hsplit & Hbefore).
  assert (Hempty : loc_from (YE (year (timestamp last))) data = []).
  { apply filter_none. intros b Hb.
    destruct (date_leb (YE (year (timestamp last))) (timestamp b)) eqn:E;
      [|reflexivity].
    pose proof (date_leb_trans _ _ _ E
                  (increasing_last data last Hinc Hlast b Hb)) as Hle.
    apply date_leb_spec in Hle. cbn [YE year month day] in Hle.
    pose proof (valid_date_spec _
                  (Hvalid last (iloc_last_in _ _ Hlast))).
    lia. }
  set (F := fun g : bucket => (YE (fst g), agg_min (map Low (snd g)))).
  assert (Hrows : Rolling20Year.yearly_lows data
                  = dated (map F before)
                    ++ [(Some (YE (year (timestamp last))),
                         agg_min (map Low rows_last))]).
  { unfold Rolling20Year.yearly_lows, dated. rewrite Hsplit, map_app, map_map.
    reflexivity. }
  rewrite Hrows, removelast_last.
  unfold MarketAnalysis.perfect_market_timing in H. cbv zeta in H.
  pose proof (value_loop_returned _ _ _ _ _ _ H) as Hnz.
  rewrite Hsplit, map_app in H, Hnz.
  assert (H' : MarketAnalysis.value_loop data a
                 (map F before
                  ++ [(YE (year (timestamp last)),
                       agg_min (map Low rows_last))]) 0 (Some 0)
               = Ok value) by exact H.
  rewrite (value_loop_last_unvalued data a last (map F before)
             (YE (year (timestamp last))) (agg_min (map Low rows_last))
             Hlast) in H'; [now injection H' | | exact Hempty | exact Hnz].
  intros label p Hin. apply in_map_iff in Hin as (g & E & Hg).
  injection E as <- _. specialize (Hbefore g Hg).
  destruct g as [k bs]. cbn [fst] in *.
  apply date_leb_spec. cbn [YE year month day]. lia.
Qed.

Lemma market_timing_gap_year :
  MarketAnalysis.perfect_market_timing gap_year 1000
  = Ok (Some ((0 + 1000 / 10) * 41)).
Proof. cbn. decide_tests. reflexivity. Qed.

Lemma market_timing_leaves_out_the_last_year_witness :
  Some ((0 + 1000 / 10) * 41)
  = match bought (removelast (Rolling20Year.yearly_lows gap_year)) with
    | [] => Some 0
    | e :: es => fmul (total_shares 1000 (e :: es)) (Close june_2022)
    end.
Proof.
  apply (market_timing_leaves_out_the_last_year gap_year 1000 june_2022).
  - reflexivity.
  - reflexivity.
  - left. cbn. lia.
  - exact market_timing_gap_year.
Defined.

(** ** The exceptions of the strategies *)

(** A strategy that divides Python floats raises [ZeroDivisionError] when
    a price bought at is zero, else [IndexError] when the frame is empty,
    and else returns. *)
Lemma outcome_py (amount : R) (rows : list row) (data : DataFrame) :
  let run :=
    st <- buy_loop_py amount rows 0 [] ;;
    last_close <- iloc_last (map Close data) ;;
    Ok (fmul (fst st) last_close, snd st) in
  ((exists e, In e (bought rows) /\ snd e = 0)
   /\ run = Raise ZeroDivisionError)
  \/ (nonzero (bought rows) /\ data = [] /\ run = Raise IndexError)
  \/ (nonzero (bought rows) /\ data <> []
      /\ exists last,
           iloc_last data = Ok last
           /\ run = Ok (fmul (total_shares amount (bought rows)) (Close last),
                        bought rows)).
Proof.
  intros run. subst run.
  destruct (buy_loop_py_outcome amount rows 0 []) as [[Hnz E] | [Hz E]].
  - right. destruct data as [|b rest].
    + left. rewrite E. auto.
    + right. split; [exact Hnz|]. split; [discriminate|].
      destruct (iloc_last_nonempty (b :: rest)) as [last Hlast];
        [discriminate|].
      exists last. split; [exact Hlast|].
      apply valuation_py; assumption.
  - left. rewrite E. auto.
Qed.

(** The same for a strategy whose division is numpy's: only [IndexError],
    on the empty frame. *)
Lemma outcome (amount : R) (rows : list row) (data : DataFrame) :
  let run :=
    last_close <- iloc_last (map Close data) ;;
    Ok (fmul (fst (buy_loop amount rows 0 [])) last_close,
        snd (buy_loop amount rows 0 [])) in
  (data = [] /\ run = Raise IndexError)
  \/ (data <> []
      /\ exists last,
           iloc_last data = Ok last
           /\ run = Ok (fmul (total_shares amount (bought rows)) (Close last),
                        bought rows)).
Proof.
  intros run. subst run. destruct data as [|b rest].
  - left. auto.
  - right. split; [discriminate|].
    destruct (iloc_last_nonempty (b :: rest)) as [last Hlast];
      [discriminate|].
    exists last. split; [exact Hlast|]. apply valuation. exact Hlast.
Qed.

Lemma raises_index_py (amount : R) (rows : list row) (data : DataFrame) :
  (data = [] -> rows = []) ->
  ((st <- buy_loop_py amount rows 0 [] ;;
    last_close <- iloc_last (map Close data) ;;
    Ok (fmul (fst st) last_close, snd st))
   = Raise IndexError
   <-> data = []).
Proof.
  intros Hrows.
  destruct (outcome_py amount rows data)
    as [[Hz E] | [(_ & Hd & E) | (_ & Hd & last & _ & E)]]; rewrite E.
  - split; [discriminate|]. intros Hd. rewrite (Hrows Hd) in Hz.
    destruct Hz as (e & [] & _).
  - split; auto.
  - split; [discriminate | contradiction].
Qed.

Lemma raises_zero_py (amount : R) (rows : list row) (data : DataFrame) :
  (st <- buy_loop_py amount rows 0 [] ;;
   last_close <- iloc_last (map Close data) ;;
   Ok (fmul (fst st) last_close, snd st))
  = Raise ZeroDivisionError
  <-> exists e, In e (bought rows) /\ snd e = 0.
Proof.
  destruct (outcome_py amount rows data)
    as [[Hz E] | [(Hnz & _ & E) | (Hnz & _ & last & _ & E)]]; rewrite E.
  - split; auto.
  - split; [discriminate|]. intros (e & He & Hz). destruct (Hnz e He Hz).
  - split; [discriminate|]. intros (e & He & Hz). destruct (Hnz e He Hz).
Qed.

Lemma raises_index (amount : R) (rows : list row) (data : DataFrame) :
  (last_close <- iloc_last (map Close data) ;;
   Ok (fmul (fst (buy_loop amount rows 0 [])) last_close,
       snd (buy_loop amount rows 0 [])))
  = Raise IndexError
  <-> data = [].
Proof.
  destruct (outcome amount rows data) as [[Hd E] | (Hd & last & _ & E)];
    rewrite E.
  - split; auto.
  - split; [discriminate | contradiction].
Qed.

Lemma zero_reference_price {A : Type} (label : A -> option date)
    (price : A -> float) (l : list A) :
  (forall x, In x l -> price x = Some 0 -> exists d, label x = Some d) ->
  ((exists e, In e (bought (map (fun x => (label x, price x)) l))
              /\ snd e = 0)
   <-> exists x, In x l /\ price x = Some 0).
Proof.
  intros Hlabel. split.
  - intros (e & He & Hz). apply in_bought, in_map_iff in He as (x & E & Hx).
    injection E as _ E. exists x. split; [exact Hx|]. now rewrite E, Hz.
  - intros (x & Hx & Hz). destruct (Hlabel x Hx Hz) as [d Hd].
    apply (bought_zero _ l x d Hx). now rewrite Hd, Hz.
Qed.

(** X9.  The exceptions of the strategies.  Every strategy of
    [rolling-20year.py] and of [stock-analysis.py] raises [IndexError] on
    the empty frame and on no other frame.  The two strategies of
    [rolling-20year.py] raise [ZeroDivisionError] exactly when the
    reference price of some year is zero (for the first open, on a
    chronological frame); behind the guard of [calculate_strategy_returns]
    they never raise [IndexError], and [main] raises nothing else than
    [ZeroDivisionError].  [immediate_investing] and [dollar_cost_averaging]
    of [stock-analysis.py], which divide numpy floats, return on every
    non-empty frame. *)
Theorem exceptions_of_the_strategies :
  forall (data : DataFrame) (annual_investment : R),
    (forall name,
       StockAnalysis.strategies name data annual_investment = Raise IndexError
       <-> data = [])
    /\ (Rolling20Year.perfect_market_timing data annual_investment
        = Raise IndexError <-> data = [])
    /\ (Rolling20Year.immediate_investing data annual_investment
        = Raise IndexError <-> data = [])
    /\ (Rolling20Year.perfect_market_timing data annual_investment
        = Raise ZeroDivisionError
        <-> exists g, In g (resample year data)
                      /\ agg_min (map Low (snd g)) = Some 0)
    /\ (chronological data = true ->
        (Rolling20Year.immediate_investing data annual_investment
         = Raise ZeroDivisionError
         <-> exists g, In g (resample year data)
                       /\ agg_first (map Open (snd g)) = Some 0))
    /\ (forall strategy_func,
          strategy_func = Rolling20Year.perfect_market_timing
          \/ strategy_func = Rolling20Year.immediate_investing ->
          Rolling20Year.calculate_strategy_returns
            data annual_investment strategy_func <> Raise IndexError)
    /\ (forall np_power index_days e,
          Rolling20Year.main np_power index_days data annual_investment
          = Raise e -> e = ZeroDivisionError)
    /\ (data <> [] ->
        (exists sim,
           StockAnalysis.immediate_investing data annual_investment = Ok sim)
        /\ (exists sim,
              StockAnalysis.dollar_cost_averaging data annual_investment
              = Ok sim)).
Proof.
  intros data a.
  assert (Hpmt : Rolling20Year.perfect_market_timing data a = Raise IndexError
                 <-> data = []).
  { apply raises_index_py. now intros ->. }
  assert (Hii : Rolling20Year.immediate_investing data a = Raise IndexError
                <-> data = []).
  { apply raises_index_py. now intros ->. }
  assert (Hguard : forall f,
             f = Rolling20Year.perfect_market_timing
             \/ f = Rolling20Year.immediate_investing ->
             Rolling20Year.calculate_strategy_returns data a f
             <> Raise IndexError).
  { intros f Hf. unfold Rolling20Year.calculate_strategy_returns.
    destruct data as [|b rest]; cbn [empty]; [discriminate|].
    destruct Hf as [-> | ->]; intros E;
      [apply Hpmt in E | apply Hii in E]; discriminate. }
  split; [|split; [|split; [|split; [|split; [|split; [|split]]]]]].
  - intros []; cbn [StockAnalysis.strategies].
    + apply raises_index_py. now intros ->.
    + apply raises_index.
    + apply raises_index.
    + apply raises_index_py. now intros ->.
  - exact Hpmt.
  - exact Hii.
  - unfold Rolling20Year.perfect_market_timing. rewrite raises_zero_py.
    apply (zero_reference_price
             (fun g : bucket => Some (YE (fst g)))
             (fun g : bucket => agg_min (map Low (snd g)))).
    intros g _ _. now exists (YE (fst g)).
  - intros _. unfold Rolling20Year.immediate_investing.
    rewrite raises_zero_py.
    apply (zero_reference_price
             (fun g : bucket => Some (YS (fst g)))
             (fun g : bucket => agg_first (map Open (snd g)))).
    intros g _ _. now exists (YS (fst g)).
  - exact Hguard.
  - intros pw days e H. unfold Rolling20Year.main in H.
    destruct (empty data); [discriminate|].
    unfold Rolling20Year.report_of in H.
    pose proof (Hguard _ (or_introl eq_refl)) as H1.
    pose proof (Hguard _ (or_intror eq_refl)) as H2.
    destruct (Rolling20Year.calculate_strategy_returns data a
                Rolling20Year.perfect_market_timing) as [s1 | [|]];
      cbn [bind] in H; [| contradiction | now injection H].
    destruct (Rolling20Year.calculate_strategy_returns data a
                Rolling20Year.immediate_investing) as [s2 | [|]];
      cbn [bind] in H; [discriminate | contradiction | now injection H].
  - intros Hne.
    unfold StockAnalysis.immediate_investing,
      StockAnalysis.dollar_cost_averaging. cbv zeta.
    split;
      match goal with
      | |- context [buy_loop ?amount ?rows 0 []] =>
          destruct (outcome amount rows data)
            as [[Hd _] | (_ & last & _ & E)];
          [contradiction | rewrite E; eexists; reflexivity]
      end.
Qed.

(** ** The amount invested and the events *)

Lemma events_py (amount amount' : R) (rows : list row) (data : DataFrame) :
  events_of (st <- buy_loop_py amount rows 0 [] ;;
             last_close <- iloc_last (map Close data) ;;
             Ok (fmul (fst st) last_close, snd st))
  = events_of (st <- buy_loop_py amount' rows 0 [] ;;
               last_close <- iloc_last (map Close data) ;;
               Ok (fmul (fst st) last_close, snd st)).
Proof.
  destruct (zero_or_nonzero (bought rows)) as [Hnz | Hz].
  - rewrite !(buy_loop_py_ok _ rows Hnz). cbn [bind].
    rewrite !strategy_of_bought.
    destruct (iloc_last (map Close data)); reflexivity.
  - rewrite !(buy_loop_py_raises _ rows Hz). reflexivity.
Qed.

Lemma events_np (amount amount' : R) (rows : list row) (data : DataFrame) :
  events_of (last_close <- iloc_last (map Close data) ;;
             Ok (fmul (fst (buy_loop amount rows 0 [])) last_close,
                 snd (buy_loop amount rows 0 [])))
  = events_of (last_close <- iloc_last (map Close data) ;;
               Ok (fmul (fst (buy_loop amount' rows 0 [])) last_close,
                   snd (buy_loop amount' rows 0 []))).
Proof.
  rewrite !strategy_of_bought.
  destruct (iloc_last (map Close data)); reflexivity.
Qed.

(** X10.  The amount invested has no part in what is bought: for any two
    amounts a strategy returns the same buy events, dates and prices, or
    raises the same exception. *)
Theorem buy_events_do_not_depend_on_the_amount :
  forall (data : DataFrame) (annual_investment annual_investment' : R),
    (forall name,
       events_of (StockAnalysis.strategies name data annual_investment)
       = events_of (StockAnalysis.strategies name data annual_investment'))
    /\ events_of (Rolling20Year.perfect_market_timing data annual_investment)
       = events_of (Rolling20Year.perfect_market_timing data
                      annual_investment')
    /\ events_of (Rolling20Year.immediate_investing data annual_investment)
       = events_of (Rolling20Year.immediate_investing data annual_investment').
Proof.
  intros data a a'. split; [|split].
  - intros []; cbn [StockAnalysis.strategies].
    + apply events_py.
    + apply events_np.
    + apply events_np.
    + apply events_py.
  - apply events_py.
  - apply events_py.
Qed.

(** ** The sign and the growth of the returns

    Here [np.power] is the real power function, with which it agrees on a
    positive base. *)

Lemma Rpower_base_1 (a : R) : Rpower 1 a = 1.
Proof. unfold Rpower. rewrite ln_1, Rmult_0_r. apply exp_0. Qed.

Lemma growth_factor (final_value total_invested years : R) :
  0 < total_invested -> years <> 0 -> 0 < final_value ->
  Rolling20Year.calculate_returns Rpower final_value total_invested years
  = ((final_value / total_invested - 1) * 100,
     (Rpower (final_value / total_invested) (1 / years) - 1) * 100).
Proof.
  intros Hti Hy Hfv. rewrite calculate_returns_regular by lra.
  destruct (Rle_dec final_value 0); [lra|].
  f_equal. field. lra.
Qed.

Lemma total_loss (final_value total_invested years : R) :
  0 < total_invested -> years <> 0 -> final_value <= 0 ->
  Rolling20Year.calculate_returns Rpower final_value total_invested years
  = ((final_value / total_invested - 1) * 100, -100).
Proof.
  intros Hti Hy Hfv. rewrite calculate_returns_regular by lra.
  destruct (Rle_dec final_value 0); [|lra].
  f_equal. field. lra.
Qed.

Lemma ratio_positive (final_value total_invested : R) :
  0 < total_invested -> 0 < final_value -> 0 < final_value / total_invested.
Proof. intros Hti Hfv. apply Rdiv_lt_0_compat; assumption. Qed.

(** X12.  For a positive amount invested over a positive number of years
    the annualized return is never below [-100], and the returns have the
    sign of the gain: a final value of at least the amount invested gives
    two returns that are not negative, a final value of at most the amount
    invested two returns that are not positive. *)
Theorem returns_have_the_sign_of_the_gain :
  forall final_value total_invested years : R,
    0 < total_invested -> 0 < years ->
    forall calculate_returns,
      calculate_returns = Rolling20Year.calculate_returns Rpower
      \/ calculate_returns = StockAnalysis.calculate_returns Rpower ->
      let returns := calculate_returns final_value total_invested years in
      -100 <= snd returns
      /\ (total_invested <= final_value ->
          0 <= fst returns /\ 0 <= snd returns)
      /\ (final_value <= total_invested ->
          fst returns <= 0 /\ snd returns <= 0).
Proof.
  intros fv ti y Hti Hy f Hf r.
  assert (E : f = Rolling20Year.calculate_returns Rpower)
    by (destruct Hf as [-> | ->]; reflexivity).
  subst r. rewrite E. clear f Hf E.
  assert (Hinv : 0 < / ti) by (apply Rinv_0_lt_compat; exact Hti).
  destruct (Rle_dec fv 0) as [Hle | Hgt].
  - rewrite total_loss by lra. cbn [fst snd].
    assert (fv / ti <= 0).
    { unfold Rdiv. rewrite <- (Rmult_0_l (/ ti)).
      apply Rmult_le_compat_r; lra. }
    repeat split; intros; lra.
  - assert (Hfv : 0 < fv) by lra.
    rewrite growth_factor by lra. cbn [fst snd].
    pose proof (ratio_positive fv ti Hti Hfv) as Hx.
    assert (Ha : 0 <= 1 / y) by (left; apply Rdiv_lt_0_compat; lra).
    pose proof (exp_pos (1 / y * ln (fv / ti))) as Hpos.
    fold (Rpower (fv / ti) (1 / y)) in Hpos.
    split; [lra|]. split; intros Hcmp.
    + assert (Hratio : 1 <= fv / ti).
      { unfold Rdiv. rewrite <- (Rinv_r ti) by lra.
        apply Rmult_le_compat_r; lra. }
      assert (Rpower 1 (1 / y) <= Rpower (fv / ti) (1 / y))
        by (apply Rle_Rpower_l; [exact Ha | lra]).
      rewrite Rpower_base_1 in *. lra.
    + assert (Hratio : fv / ti <= 1).
      { unfold Rdiv. rewrite <- (Rinv_r ti) by lra.
        apply Rmult_le_compat_r; lra. }
      assert (Rpower (fv / ti) (1 / y) <= Rpower 1 (1 / y))
        by (apply Rle_Rpower_l; [exact Ha | lra]).
      rewrite Rpower_base_1 in *. lra.
Qed.

Lemma returns_have_the_sign_of_the_gain_witness :
  -100 <= snd (Rolling20Year.calculate_returns Rpower 100 1000 5)
  /\ (1000 <= 100 ->
      0 <= fst (Rolling20Year.calculate_returns Rpower 100 1000 5)
      /\ 0 <= snd (Rolling20Year.calculate_returns Rpower 100 1000 5))
  /\ (100 <= 1000 ->
      fst (Rolling20Year.calculate_returns Rpower 100 1000 5) <= 0
      /\ snd (Rolling20Year.calculate_returns Rpower 100 1000 5) <= 0).
Proof.
  apply (returns_have_the_sign_of_the_gain 100 1000 5);
    [lra | lra | left; reflexivity].
Defined.

(** X13.  Both returns grow with the final value: for a positive amount
    invested over a positive number of years, a larger final value never
    gives a smaller total or annualized return, the clamp at [-100]
    included. *)
Theorem returns_grow_with_the_final_value :
  forall final_value final_value' total_invested years : R,
    0 < total_invested -> 0 < years -> final_value <= final_value' ->
    forall calculate_returns,
      calculate_returns = Rolling20Year.calculate_returns Rpower
      \/ calculate_returns = StockAnalysis.calculate_returns Rpower ->
      fst (calculate_returns final_value total_invested years)
      <= fst (calculate_returns final_value' total_invested years)
      /\ snd (calculate_returns final_value total_invested years)
         <= snd (calculate_returns final_value' total_invested years).
Proof.
  intros fv fv' ti y Hti Hy Hle f Hf.
  assert (E : f = Rolling20Year.calculate_returns Rpower)
    by (destruct Hf as [-> | ->]; reflexivity).
  rewrite E. clear f Hf E.
  assert (Hratio : fv / ti <= fv' / ti).
  { unfold Rdiv. apply Rmult_le_compat_r; [|exact Hle].
    left. apply Rinv_0_lt_compat. exact Hti. }
  assert (Ha : 0 < 1 / y) by (apply Rdiv_lt_0_compat; lra).
  destruct (Rle_dec fv 0) as [Hfv | Hfv];
    destruct (Rle_dec fv' 0) as [Hfv' | Hfv'];
    rewrite ?total_loss, ?growth_factor by lra; cbn [fst snd].
  - lra.
  - pose proof (exp_pos (1 / y * ln (fv' / ti))) as Hpos.
    fold (Rpower (fv' / ti) (1 / y)) in Hpos. lra.
  - lra.
  - assert (Rpower (fv / ti) (1 / y) <= Rpower (fv' / ti) (1 / y)).
    { apply Rle_Rpower_l; [lra|]. split; [|exact Hratio].
      apply ratio_positive; lra. }
    lra.
Qed.

Lemma returns_grow_with_the_final_value_witness :
  fst (StockAnalysis.calculate_returns Rpower 100 1000 5)
  <= fst (StockAnalysis.calculate_returns Rpower 2000 1000 5)
  /\ snd (StockAnalysis.calculate_returns Rpower 100 1000 5)
     <= snd (StockAnalysis.calculate_returns Rpower 2000 1000 5).
Proof.
  apply (returns_grow_with_the_final_value 100 2000 1000 5);
    [lra | lra | lra | right; reflexivity].
Defined.

(** ** The rolling analysis of the dashboard *)

Lemma month_index_add_months (d : date) (n : nat) :
  month_index (add_months d n) = (month_index d + n)%nat.
Proof.
  unfold add_months, month_index at 1. cbn [year month].
  pose proof (Nat.div_mod_eq (month_index d + n) 12). lia.
Qed.

Lemma add_months_month (d : date) (n : nat) :
  (1 <= month (add_months d n) <= 12)%nat.
Proof.
  unfold add_months. cbn [month].
  pose proof (Nat.mod_upper_bound (month_index d + n) 12). lia.
Qed.

Lemma date_leb_month_index (a b : date) :
  (month a <= 12)%nat -> date_leb a b = true ->
  (month_index a <= month_index b)%nat.
Proof.
  intros Hm H. apply date_leb_spec in H. unfold month_index. lia.
Qed.

Lemma window_start_succ (start_date : date) (i : nat) :
  window_start (add_months start_date 1) i = window_start start_date (S i).
Proof.
  unfold window_start. symmetry. apply Nat.iter_succ_r.
Qed.

Lemma month_index_window_start (start_date : date) (i : nat) :
  month_index (window_start start_date i) = (month_index start_date + i)%nat.
Proof.
  unfold window_start. induction i as [|i IH].
  - cbn. lia.
  - rewrite Nat.iter_succ, month_index_add_months, IH. lia.
Qed.

Section RollingAnalysisFacts.

Variable np_power : R -> R -> R.
Variable fetch_stock_data : date -> date -> DataFrame.

Lemma analyse_window_spec (data : DataFrame) (start_date : date) (years : nat)
    (annual_investment : R) (selected_strategies : list StockAnalysis.strategy_name) :
  forall rolling_results rows,
    StockAnalysis.analyse_window np_power data start_date years annual_investment
                   selected_strategies rolling_results
    = Ok rows ->
    exists block,
      rows = rolling_results ++ block
      /\ map StockAnalysis.Strategy block = selected_strategies
      /\ map StockAnalysis.Start_Date block
         = repeat start_date (length selected_strategies)
      /\ forall r, In r block ->
           StockAnalysis.Start_Date r = start_date
           /\ StockAnalysis.End_Date r = add_years start_date years
           /\ exists sim,
                StockAnalysis.strategies (StockAnalysis.Strategy r) data
                  annual_investment = Ok sim
                /\ (StockAnalysis.Total_Return r,
                    StockAnalysis.Avg_Annual_Return r)
                   = StockAnalysis.calculate_returns_nan np_power (fst sim)
                       (annual_investment * INR years) (INR years).
Proof.
  induction selected_strategies as [|name rest IH]; intros acc rows H.
  - cbn in H. injection H as <-. exists []. rewrite app_nil_r.
    split; [reflexivity|]. split; [reflexivity|]. split; [reflexivity|].
    intros r [].
  - cbn [StockAnalysis.analyse_window] in H.
    destruct (StockAnalysis.strategies name data annual_investment)
      as [sim|e] eqn:Hsim; [|discriminate].
    cbn [bind] in H. cbv zeta in H.
    match type of H with
    | context [acc ++ [?r]] => set (row := r) in H
    end.
    destruct (IH _ _ H) as (block & -> & Hnames & Hstarts & Hrows).
    exists (row :: block). rewrite <- app_assoc. cbn [app map length repeat].
    rewrite Hnames, Hstarts.
    split; [reflexivity|]. split; [reflexivity|]. split; [reflexivity|].
    intros r [<- | Hr]; [|apply Hrows; exact Hr].
    subst row. cbn [StockAnalysis.Start_Date StockAnalysis.End_Date
                    StockAnalysis.Strategy StockAnalysis.Total_Return
                    StockAnalysis.Avg_Annual_Return].
    split; [reflexivity|]. split; [reflexivity|].
    exists sim. split; [exact Hsim|].
    symmetry. apply surjective_pairing.
Qed.

Lemma rolling_loop_more_fuel (max_date : date) (years : nat)
    (annual_investment : R) (selected_strategies : list StockAnalysis.strategy_name) :
  forall fuel start_date rolling_results outcome,
    StockAnalysis.rolling_loop np_power fetch_stock_data fuel max_date years annual_investment selected_strategies
                 start_date rolling_results = Some outcome ->
    forall fuel', (fuel <= fuel')%nat ->
      StockAnalysis.rolling_loop np_power fetch_stock_data fuel' max_date years annual_investment selected_strategies
                   start_date rolling_results = Some outcome.
Proof.
  induction fuel as [|fuel IH]; intros start acc outcome H fuel' Hle;
    [discriminate|].
  destruct fuel' as [|fuel']; [lia|].
  cbn [StockAnalysis.rolling_loop] in *. cbv zeta in *.
  destruct (date_leb start max_date); [|exact H].
  destruct (empty (fetch_stock_data start (add_years start years)));
    [exact H|].
  destruct (StockAnalysis.analyse_window _ _ _ _ _ _ _) as [rows|e];
    [|exact H].
  apply (IH _ _ _ H). lia.
Qed.

Lemma rolling_loop_terminates (max_date : date) (years : nat)
    (annual_investment : R) (selected_strategies : list StockAnalysis.strategy_name) :
  forall fuel start_date rolling_results,
    (month start_date <= 12)%nat ->
    (month_index max_date + 1 - month_index start_date < fuel)%nat ->
    exists outcome,
      StockAnalysis.rolling_loop np_power fetch_stock_data fuel max_date years annual_investment selected_strategies
                   start_date rolling_results = Some outcome.
Proof.
  induction fuel as [|fuel IH]; intros start acc Hm Hfuel; [lia|].
  cbn [StockAnalysis.rolling_loop]. cbv zeta.
  destruct (date_leb start max_date) eqn:Hle; [|eexists; reflexivity].
  destruct (fetch_stock_data start (add_years start years)) as [|b rest] eqn:Hdata;
    [eexists; reflexivity|].
  cbn [empty].
  destruct (StockAnalysis.analyse_window np_power (b :: rest) start years
              annual_investment selected_strategies acc) as [rows|e];
    [|eexists; reflexivity].
  apply IH.
  - apply add_months_month.
  - rewrite month_index_add_months.
    pose proof (date_leb_month_index _ _ Hm Hle). lia.
Qed.

Lemma analyse_window_returns (data : DataFrame) (start_date : date)
    (years : nat) (annual_investment : R)
    (selected_strategies : list StockAnalysis.strategy_name) :
  (forall name, In name selected_strategies ->
     exists sim, StockAnalysis.strategies name data annual_investment = Ok sim) ->
  forall rolling_results,
    exists rows,
      StockAnalysis.analyse_window np_power data start_date years
        annual_investment selected_strategies rolling_results
      = Ok rows.
Proof.
  induction selected_strategies as [|name rest IH]; intros H acc.
  - eexists. reflexivity.
  - cbn [StockAnalysis.analyse_window].
    destruct (H name (or_introl eq_refl)) as [sim ->].
    cbn [bind]. cbv zeta. apply IH. intros name' Hin. apply H. now right.
Qed.

Lemma rolling_loop_returns (max_date : date) (years : nat)
    (annual_investment : R) (selected_strategies : list StockAnalysis.strategy_name) :
  (forall d name, In name selected_strategies ->
     exists sim,
       StockAnalysis.strategies name (fetch_stock_data d (add_years d years))
         annual_investment = Ok sim) ->
  forall fuel start_date rolling_results,
    (month start_date <= 12)%nat ->
    (month_index max_date + 1 - month_index start_date < fuel)%nat ->
    exists rows,
      StockAnalysis.rolling_loop np_power fetch_stock_data fuel max_date years annual_investment selected_strategies
                   start_date rolling_results = Some (Ok rows).
Proof.
  intros Hok.
  induction fuel as [|fuel IH]; intros start acc Hm Hfuel; [lia|].
  cbn [StockAnalysis.rolling_loop]. cbv zeta.
  destruct (date_leb start max_date) eqn:Hle; [|eexists; reflexivity].
  destruct (empty (fetch_stock_data start (add_years start years)));
    [eexists; reflexivity|].
  destruct (analyse_window_returns
              (fetch_stock_data start (add_years start years)) start years
              annual_investment selected_strategies (Hok start) acc)
    as [rows ->].
  apply IH.
  - apply add_months_month.
  - rewrite month_index_add_months.
    pose proof (date_leb_month_index _ _ Hm Hle). lia.
Qed.

Lemma rolling_loop_spec (max_date : date) (years : nat)
    (annual_investment : R) (selected_strategies : list StockAnalysis.strategy_name) :
  forall fuel start_date rolling_results rows,
    StockAnalysis.rolling_loop np_power fetch_stock_data fuel max_date years annual_investment selected_strategies
                 start_date rolling_results = Some (Ok rows) ->
    exists n new,
      rows = rolling_results ++ new
      /\ map StockAnalysis.Strategy new
         = concat (repeat selected_strategies n)
      /\ map StockAnalysis.Start_Date new
         = flat_map (fun i => repeat (window_start start_date i)
                                     (length selected_strategies))
                    (seq 0 n)
      /\ (forall r, In r new -> recorded np_power fetch_stock_data max_date years annual_investment r)
      /\ (forall i, (i < n)%nat ->
            date_leb (window_start start_date i) max_date = true
            /\ fetch_stock_data (window_start start_date i)
                 (add_years (window_start start_date i) years) <> [])
      /\ (date_leb (window_start start_date n) max_date = false
          \/ fetch_stock_data (window_start start_date n)
               (add_years (window_start start_date n) years) = []).
Proof.
  induction fuel as [|fuel IH]; intros start acc rows H; [discriminate|].
  cbn [StockAnalysis.rolling_loop] in H. cbv zeta in H.
  destruct (date_leb start max_date) eqn:Hle.
  2:{ injection H as <-. exists 0%nat, []. rewrite app_nil_r.
      repeat split; try contradiction; try lia. now left. }
  destruct (fetch_stock_data start (add_years start years)) as [|b rest] eqn:Hdata.
  { injection H as <-. exists 0%nat, []. rewrite app_nil_r.
    repeat split; try contradiction; try lia. now right. }
  cbn [empty] in H.
  destruct (StockAnalysis.analyse_window np_power (b :: rest) start years
              annual_investment selected_strategies acc)
    as [rows'|e] eqn:E; [|discriminate].
  apply analyse_window_spec in E
    as (block & -> & Hnames & Hstarts & Hblock).
  destruct (IH _ _ _ H) as (n & new & -> & Hn & Hs & Hrec & Hwin & Hstop).
  exists (S n), (block ++ new). rewrite <- app_assoc.
  split; [reflexivity|]. split; [|split; [|split; [|split]]].
  - rewrite map_app, Hn, Hnames. reflexivity.
  - rewrite map_app, Hs, Hstarts.
    cbn [seq flat_map]. apply f_equal2; [reflexivity|].
    rewrite <- seq_shift, !flat_map_concat_map, map_map. f_equal.
    apply map_ext. intros i. now rewrite window_start_succ.
  - intros r Hr. apply in_app_or in Hr as [Hr | Hr]; [|apply Hrec; exact Hr].
    destruct (Hblock r Hr) as (Hstart & Hend & sim & Hsim & Hret).
    unfold recorded. rewrite Hend, Hstart. repeat split; [exact Hle|].
    exists (b :: rest), sim. rewrite Hdata. repeat split; try assumption.
    discriminate.
  - intros [|i] Hi.
    + cbn. rewrite Hle, Hdata. split; [reflexivity | discriminate].
    + rewrite <- window_start_succ. apply Hwin. lia.
  - rewrite <- window_start_succ. exact Hstop.
Qed.

End RollingAnalysisFacts.

(** X15.  The [while] loop of [calculate_rolling_analysis] is left after
    finitely many rounds, by its condition, by the [break] or by an
    exception of a strategy: every round moves the window start into the
    next calendar month.  One round more than the months from the first
    start to [max_date] is enough, and more rounds change nothing. *)
Theorem rolling_analysis_terminates :
  forall (np_power : R -> R -> R)
         (fetch_stock_data : date -> date -> DataFrame) (today : date)
         (start_date : date) (years : nat) (annual_investment : R)
         (selected_strategies : list StockAnalysis.strategy_name),
    valid_date start_date = true -> (years <= year today)%nat ->
    exists outcome,
      forall fuel,
        (month_index (sub_years today years) + 1 - month_index start_date
         < fuel)%nat ->
        StockAnalysis.calculate_rolling_analysis np_power fetch_stock_data
          today fuel start_date years annual_investment selected_strategies
        = Some outcome.
Proof.
  intros pw fetch today start years a sel Hvalid _.
  apply valid_date_spec in Hvalid.
  set (bound := (month_index (sub_years today years) + 1
                 - month_index start)%nat).
  destruct (rolling_loop_terminates pw fetch (sub_years today years) years a
              sel (S bound) start []) as [outcome Hrows]; [lia | lia |].
  exists outcome. intros fuel Hfuel.
  unfold StockAnalysis.calculate_rolling_analysis. cbv zeta.
  apply (rolling_loop_more_fuel pw fetch _ _ _ _ _ _ _ _ Hrows). lia.
Qed.

Lemma rolling_analysis_terminates_witness :
  exists outcome,
    forall fuel,
      (month_index (sub_years (mkdate 2022 3 15) 2) + 1
       - month_index (mkdate 2020 1 1) < fuel)%nat ->
      StockAnalysis.calculate_rolling_analysis Rpower (fun _ _ => two_years)
        (mkdate 2022 3 15) fuel (mkdate 2020 1 1) 2 1000
        [StockAnalysis.PerfectMarketTiming; StockAnalysis.InvestAtPeaks]
      = Some outcome.
Proof.
  apply (rolling_analysis_terminates Rpower (fun _ _ => two_years)
           (mkdate 2022 3 15) (mkdate 2020 1 1) 2 1000
           [StockAnalysis.PerfectMarketTiming; StockAnalysis.InvestAtPeaks]).
  - reflexivity.
  - cbn. lia.
Defined.

(** When no strategy raises on a window, the analysis returns, and the
    windows it lists are those before the first one that starts after
    [max_date] or has no data. *)
Lemma rolling_rows_of_windows (np_power : R -> R -> R)
    (fetch_stock_data : date -> date -> DataFrame) (today : date)
    (fuel : nat) (start_date : date) (years : nat) (annual_investment : R)
    (selected_strategies : list StockAnalysis.strategy_name) (n : nat) :
  valid_date start_date = true ->
  (month_index (sub_years today years) + 1 - month_index start_date
   < fuel)%nat ->
  (forall d name, In name selected_strategies ->
     exists sim,
       StockAnalysis.strategies name (fetch_stock_data d (add_years d years))
         annual_investment = Ok sim) ->
  (forall i, (i < n)%nat ->
     date_leb (window_start start_date i) (sub_years today years) = true
     /\ fetch_stock_data (window_start start_date i)
          (add_years (window_start start_date i) years) <> []) ->
  (date_leb (window_start start_date n) (sub_years today years) = false
   \/ fetch_stock_data (window_start start_date n)
        (add_years (window_start start_date n) years) = []) ->
  exists rows,
    StockAnalysis.calculate_rolling_analysis np_power fetch_stock_data
      today fuel start_date years annual_investment selected_strategies
    = Some (Ok rows)
    /\ map StockAnalysis.Start_Date rows
       = flat_map (fun i => repeat (window_start start_date i)
                                   (length selected_strategies))
                  (seq 0 n).
Proof.
  intros Hvalid Hfuel Hok Hwin Hstop.
  apply valid_date_spec in Hvalid.
  unfold StockAnalysis.calculate_rolling_analysis. cbv zeta.
  destruct (rolling_loop_returns np_power fetch_stock_data
              (sub_years today years) years annual_investment
              selected_strategies Hok fuel start_date [])
    as [rows H]; [lia | exact Hfuel |].
  exists rows. split; [exact H|].
  destruct (rolling_loop_spec np_power fetch_stock_data _ _ _ _ _ _ _ _ H)
    as (n' & new & E & _ & Hstarts & _ & Hwin' & Hstop').
  cbn [app] in E. subst new. rewrite Hstarts.
  destruct (Nat.lt_trichotomy n' n) as [Hlt | [-> | Hgt]]; [|reflexivity|].
  - destruct (Hwin n' Hlt) as [Hle Hdata].
    destruct Hstop' as [Hstop' | Hstop'];
      [rewrite Hle in Hstop'; discriminate | contradiction].
  - destruct (Hwin' n Hgt) as [Hle Hdata].
    destruct Hstop as [Hstop | Hstop];
      [rewrite Hle in Hstop; discriminate | contradiction].
Qed.

Lemma two_years_strategies_return (name : StockAnalysis.strategy_name)
    (annual_investment : R) :
  exists sim,
    StockAnalysis.strategies name two_years annual_investment = Ok sim.
Proof.
  destruct two_years_never_zero as (Hlow & _ & Hhigh).
  destruct name; cbn [StockAnalysis.strategies].
  - eexists. apply (dashboard_timing_returns two_years _ june_2021);
      [reflexivity | exact Hlow].
  - eexists. reflexivity.
  - eexists. reflexivity.
  - eexists. apply (dashboard_peaks_returns two_years _ june_2021);
      [reflexivity | exact Hhigh].
Qed.

Lemma two_years_rolling_rows
    (selected_strategies : list StockAnalysis.strategy_name) :
  exists rows,
    StockAnalysis.calculate_rolling_analysis Rpower (fun _ _ => two_years)
      (mkdate 2022 3 15) 4 (mkdate 2020 1 1) 2 1000 selected_strategies
    = Some (Ok rows)
    /\ map StockAnalysis.Start_Date rows
       = flat_map (fun i => repeat (window_start (mkdate 2020 1 1) i)
                                   (length selected_strategies))
                  (seq 0 3).
Proof.
  apply rolling_rows_of_windows.
  - reflexivity.
  - cbn. lia.
  - intros d name _. apply two_years_strategies_return.
  - intros i Hi.
    destruct i as [|[|[|i]]]; [| | |lia]; (split; [reflexivity | discriminate]).
  - left. reflexivity.
Qed.

(** X16.  The rows that [calculate_rolling_analysis] returns come in
    blocks, one block per window and one row per selected strategy in the
    order of the selection.  The windows start at the given date and then
    one [DateOffset(months=1)] later each time; every window listed starts
    no later than [max_date] and has data, and each of its rows holds the
    returns of its strategy on that data for [annual_investment * years]
    invested over [years] years.  The loop stops at the first window that
    starts after [max_date] or has no data: later windows are not looked
    at. *)
Theorem rolling_analysis_rows :
  forall (np_power : R -> R -> R)
         (fetch_stock_data : date -> date -> DataFrame) (today : date)
         (fuel : nat) (start_date : date) (years : nat)
         (annual_investment : R)
         (selected_strategies : list StockAnalysis.strategy_name)
         (rows : list StockAnalysis.rolling_result),
    StockAnalysis.calculate_rolling_analysis np_power fetch_stock_data
      today fuel start_date years annual_investment selected_strategies
    = Some (Ok rows) ->
    let max_date := sub_years today years in
    exists n,
      map StockAnalysis.Strategy rows = concat (repeat selected_strategies n)
      /\ map StockAnalysis.Start_Date rows
         = flat_map (fun i => repeat (window_start start_date i)
                                     (length selected_strategies))
                    (seq 0 n)
      /\ (forall r, In r rows ->
            recorded np_power fetch_stock_data max_date years
                     annual_investment r)
      /\ (forall i, (i < n)%nat ->
            date_leb (window_start start_date i) max_date = true
            /\ fetch_stock_data (window_start start_date i)
                 (add_years (window_start start_date i) years) <> [])
      /\ (date_leb (window_start start_date n) max_date = false
          \/ fetch_stock_data (window_start start_date n)
               (add_years (window_start start_date n) years) = []).
Proof.
  intros pw fetch today fuel start years a sel rows H max_date.
  unfold StockAnalysis.calculate_rolling_analysis in H. cbv zeta in H.
  destruct (rolling_loop_spec pw fetch _ _ _ _ _ _ _ _ H)
    as (n & new & E & Hrest).
  cbn [app] in E. subst new. exists n. exact Hrest.
Qed.

Lemma rolling_analysis_rows_witness :
  exists rows,
    StockAnalysis.calculate_rolling_analysis Rpower (fun _ _ => two_years)
      (mkdate 2022 3 15) 4 (mkdate 2020 1 1) 2 1000
      [StockAnalysis.PerfectMarketTiming; StockAnalysis.InvestAtPeaks]
    = Some (Ok rows)
    /\ exists n,
      map StockAnalysis.Strategy rows
      = concat (repeat [StockAnalysis.PerfectMarketTiming;
                        StockAnalysis.InvestAtPeaks] n)
      /\ map StockAnalysis.Start_Date rows
         = flat_map (fun i => repeat (window_start (mkdate 2020 1 1) i) 2)
                    (seq 0 n)
      /\ (forall r, In r rows ->
            recorded Rpower (fun _ _ => two_years)
                     (sub_years (mkdate 2022 3 15) 2) 2 1000 r)
      /\ (forall i, (i < n)%nat ->
            date_leb (window_start (mkdate 2020 1 1) i)
                     (sub_years (mkdate 2022 3 15) 2) = true
            /\ two_years <> [])
      /\ (date_leb (window_start (mkdate 2020 1 1) n)
                   (sub_years (mkdate 2022 3 15) 2) = false
          \/ two_years = []).
Proof.
  destruct (two_years_rolling_rows
              [StockAnalysis.PerfectMarketTiming; StockAnalysis.InvestAtPeaks])
    as (rows & H & _).
  exists rows. split; [exact H|].
  apply (rolling_analysis_rows Rpower (fun _ _ => two_years)
           (mkdate 2022 3 15) 4 (mkdate 2020 1 1) 2 1000
           [StockAnalysis.PerfectMarketTiming; StockAnalysis.InvestAtPeaks]
           rows H).
Defined.

(** *** The table of the rolling analysis *)

Lemma nth_error_blocks {A : Type} (k : nat) :
  (0 < k)%nat ->
  forall (n : nat) (f : nat -> A) (index : nat),
    nth_error (flat_map (fun i => repeat (f i) k) (seq 0 n)) index
    = if (index <? k * n)%nat then Some (f (index / k)%nat) else None.
Proof.
  intros Hk. induction n as [|n IH]; intros f index.
  - rewrite Nat.mul_0_r. destruct index; reflexivity.
  - cbn [seq flat_map].
    rewrite <- seq_shift, flat_map_concat_map, map_map,
      <- flat_map_concat_map.
    destruct (Nat.ltb_spec index k) as [Hlt | Hge].
    + rewrite nth_error_app1 by (rewrite repeat_length; exact Hlt).
      rewrite nth_error_repeat by exact Hlt.
      rewrite Nat.div_small by exact Hlt.
      destruct (Nat.ltb_spec index (k * S n)); [reflexivity | nia].
    + rewrite nth_error_app2 by (rewrite repeat_length; exact Hge).
      rewrite repeat_length, (IH (fun i => f (S i))).
      assert (E : (index / k = S ((index - k) / k))%nat).
      { replace index with ((index - k) + 1 * k)%nat at 1 by lia.
        rewrite Nat.div_add by lia. lia. }
      rewrite E.
      destruct (Nat.ltb_spec (index - k) (k * n));
        destruct (Nat.ltb_spec index (k * S n)); try reflexivity; nia.
Qed.

Lemma nth_error_enumerate {A : Type} (l : list A) :
  forall start index,
    nth_error (combine (seq start (length l)) l) index
    = option_map (fun x => ((start + index)%nat, x)) (nth_error l index).
Proof.
  induction l as [|a l IH]; intros start index.
  - destruct index; reflexivity.
  - destruct index as [|index]; cbn [length seq combine nth_error option_map].
    + now rewrite Nat.add_0_r.
    + rewrite IH. destruct (nth_error l index); cbn [option_map];
        [|reflexivity].
      do 2 f_equal. lia.
Qed.

Lemma table_row (rows : list StockAnalysis.rolling_result) (index : nat)
    (style : bool) (r : StockAnalysis.rolling_result) :
  nth_error (StockAnalysis.format_rolling_analysis_table rows) index
  = Some (style, r) ->
  style = (index mod 4 =? 0)%nat /\ nth_error rows index = Some r.
Proof.
  unfold StockAnalysis.format_rolling_analysis_table.
  rewrite nth_error_map, nth_error_enumerate.
  destruct (nth_error rows index) as [r'|]; cbn [option_map]; [|discriminate].
  intros E. injection E as <- <-. split; reflexivity.
Qed.

Lemma window_start_injective (start_date : date) (i j : nat) :
  window_start start_date i = window_start start_date j -> i = j.
Proof.
  intros E. apply (f_equal month_index) in E.
  rewrite !month_index_window_start in E. lia.
Qed.

(** X18.  With four strategies selected, the solid top border that
    [format_rolling_analysis_table] draws at every fourth row falls where a
    new window begins: the row at position [index] belongs to the window
    number [index / 4], and it has the border exactly when it is the first
    row of the table or starts on another date than the row above it. *)
Theorem table_borders_separate_the_windows :
  forall (np_power : R -> R -> R)
         (fetch_stock_data : date -> date -> DataFrame) (today : date)
         (fuel : nat) (start_date : date) (years : nat)
         (annual_investment : R)
         (selected_strategies : list StockAnalysis.strategy_name)
         (rows : list StockAnalysis.rolling_result),
    length selected_strategies = 4%nat ->
    StockAnalysis.calculate_rolling_analysis np_power fetch_stock_data
      today fuel start_date years annual_investment selected_strategies
    = Some (Ok rows) ->
    forall (index : nat) (style : bool) (r : StockAnalysis.rolling_result),
      nth_error (StockAnalysis.format_rolling_analysis_table rows) index
      = Some (style, r) ->
      StockAnalysis.Start_Date r = window_start start_date (index / 4)
      /\ (style = true
          <-> index = 0%nat
              \/ exists above,
                   nth_error rows (index - 1) = Some above
                   /\ StockAnalysis.Start_Date above
                      <> StockAnalysis.Start_Date r).
Proof.
  intros pw fetch today fuel start years a sel rows Hfour H index style r Hrow.
  unfold StockAnalysis.calculate_rolling_analysis in H. cbv zeta in H.
  destruct (rolling_loop_spec pw fetch _ _ _ _ _ _ _ _ H)
    as (n & new & E & _ & Hstarts & _).
  cbn [app] in E. subst new. rewrite Hfour in Hstarts.
  assert (Hat : forall i x,
             nth_error rows i = Some x ->
             (i < 4 * n)%nat
             /\ StockAnalysis.Start_Date x = window_start start (i / 4)).
  { intros i x Hx.
    apply (map_nth_error StockAnalysis.Start_Date) in Hx.
    rewrite Hstarts, nth_error_blocks in Hx by lia.
    destruct (Nat.ltb_spec i (4 * n)); [|discriminate].
    injection Hx as <-. split; [assumption | reflexivity]. }
  destruct (table_row rows index style r Hrow) as [-> Hr].
  destruct (Hat index r Hr) as [Hindex Hstart].
  split; [exact Hstart|].
  pose proof (Nat.div_mod_eq index 4) as Hdiv.
  pose proof (Nat.mod_upper_bound index 4) as Hmod.
  pose proof (Nat.div_mod_eq (index - 1) 4) as Hdiv'.
  pose proof (Nat.mod_upper_bound (index - 1) 4) as Hmod'.
  split.
  - intros Hstyle. apply Nat.eqb_eq in Hstyle.
    destruct index as [|index']; [now left | right].
    destruct (nth_error rows (S index' - 1)) as [above|] eqn:Habove.
    + exists above. split; [reflexivity|].
      destruct (Hat _ _ Habove) as [_ Hstart'].
      rewrite Hstart, Hstart'. intros Heq.
      apply window_start_injective in Heq. lia.
    + apply nth_error_None in Habove.
      pose proof (proj1 (nth_error_Some rows (S index'))) as Hlen.
      rewrite Hr in Hlen. specialize (Hlen ltac:(discriminate)). lia.
  - intros [-> | (above & Habove & Hne)]; [reflexivity|].
    apply Nat.eqb_eq.
    destruct (Hat _ _ Habove) as [_ Hstart'].
    rewrite Hstart, Hstart' in Hne.
    destruct (Nat.eq_dec ((index - 1) / 4) (index / 4)) as [Hq | Hq];
      [rewrite Hq in Hne; contradiction|].
    lia.
Qed.

Lemma table_borders_separate_the_windows_witness :
  exists rows style r,
    StockAnalysis.calculate_rolling_analysis Rpower (fun _ _ => two_years)
      (mkdate 2022 3 15) 4 (mkdate 2020 1 1) 2 1000
      [StockAnalysis.PerfectMarketTiming; StockAnalysis.ImmediateInvesting;
       StockAnalysis.DollarCostAveraging; StockAnalysis.InvestAtPeaks]
    = Some (Ok rows)
    /\ nth_error (StockAnalysis.format_rolling_analysis_table rows) 4
       = Some (style, r)
    /\ StockAnalysis.Start_Date r = window_start (mkdate 2020 1 1) (4 / 4)
    /\ (style = true
        <-> 4%nat = 0%nat
            \/ exists above,
                 nth_error rows (4 - 1) = Some above
                 /\ StockAnalysis.Start_Date above
                    <> StockAnalysis.Start_Date r).
Proof.
  destruct (two_years_rolling_rows
              [StockAnalysis.PerfectMarketTiming;
               StockAnalysis.ImmediateInvesting;
               StockAnalysis.DollarCostAveraging; StockAnalysis.InvestAtPeaks])
    as (rows & H & Hstarts).
  destruct (nth_error rows 4) as [r|] eqn:Hr.
  2:{ exfalso. apply nth_error_None in Hr.
      apply (f_equal (@length _)) in Hstarts.
      rewrite length_map in Hstarts. cbn in Hstarts. lia. }
  assert (Hrow : nth_error (StockAnalysis.format_rolling_analysis_table rows) 4
                 = Some (true, r)).
  { unfold StockAnalysis.format_rolling_analysis_table.
    rewrite nth_error_map, nth_error_enumerate, Hr. reflexivity. }
  exists rows, true, r.
  split; [exact H|]. split; [exact Hrow|].
  apply (table_borders_separate_the_windows Rpower (fun _ _ => two_years)
           (mkdate 2022 3 15) 4 (mkdate 2020 1 1) 2 1000
           [StockAnalysis.PerfectMarketTiming; StockAnalysis.ImmediateInvesting;
            StockAnalysis.DollarCostAveraging; StockAnalysis.InvestAtPeaks]
           rows eq_refl H 4%nat true r Hrow).
Defined.

(** ** The order of the buy events *)

Lemma date_ltb_spec (a b : date) :
  date_ltb a b = true <->
  (year a < year b
   \/ (year a = year b
       /\ (month a < month b \/ (month a = month b /\ day a < day b))))%nat.
Proof.
  unfold date_ltb. destruct (date_leb b a) eqn:E; cbn [negb].
  - apply date_leb_spec in E. split; [discriminate | lia].
  - apply not_true_iff_false in E. rewrite date_leb_spec in E.
    split; [lia | reflexivity].
Qed.

Lemma date_ltb_years (a b : date) :
  (year a < year b)%nat -> date_ltb a b = true.
Proof. intros H. apply date_ltb_spec. now left. Qed.

Lemma date_ltb_MS (m m' : nat) : (m < m')%nat -> date_ltb (MS m) (MS m') = true.
Proof.
  intros H. apply date_ltb_spec. cbn [MS year month day].
  pose proof (Nat.div_mod_eq m 12). pose proof (Nat.div_mod_eq m' 12).
  pose proof (Nat.mod_upper_bound m 12). pose proof (Nat.mod_upper_bound m' 12).
  lia.
Qed.

Lemma ascending_cons (d : date) (dates : list date) :
  (forall d', In d' dates -> date_ltb d d' = true) ->
  ascending dates = true -> ascending (d :: dates) = true.
Proof.
  intros Hd H. destruct dates as [|d' rest]; [reflexivity|].
  cbn [ascending]. cbn [ascending] in H. rewrite H, (Hd d') by now left.
  reflexivity.
Qed.

Lemma agg_idxmin_in (col : bar -> float) (bs : DataFrame) (d : date) :
  agg_idxmin col bs = Some d -> exists b, In b bs /\ timestamp b = d.
Proof.
  intros H. destruct (agg_min (map col bs)) as [m|] eqn:Hm.
  - destruct (agg_idxmin_row col bs d m H Hm) as (b & Hb & Hd & _).
    now exists b.
  - unfold agg_idxmin in H. rewrite Hm in H. discriminate.
Qed.

Lemma agg_idxmax_in (col : bar -> float) (bs : DataFrame) (d : date) :
  agg_idxmax col bs = Some d -> exists b, In b bs /\ timestamp b = d.
Proof.
  intros H. destruct (agg_max (map col bs)) as [m|] eqn:Hm.
  - destruct (agg_idxmax_row col bs d m H Hm) as (b & Hb & Hd & _).
    now exists b.
  - unfold agg_idxmax in H. rewrite Hm in H. discriminate.
Qed.

Section EventOrder.

Variable key : date -> nat.
Variable data : DataFrame.
Variable keep : bucket -> bool.
Variable F : bucket -> row.

Hypothesis F_ordered :
  forall k k' d d',
    (k < k')%nat ->
    fst (F (k, filter (in_bucket key k) data)) = Some d ->
    fst (F (k', filter (in_bucket key k') data)) = Some d' ->
    date_ltb d d' = true.

Lemma events_of_bins (lo n : nat) (e : buy_event) :
  In e (bought (map F (filter keep
                         (map (fun k => (k, filter (in_bucket key k) data))
                              (seq lo n))))) ->
  exists k,
    (lo <= k < lo + n)%nat
    /\ fst (F (k, filter (in_bucket key k) data)) = Some (fst e).
Proof.
  intros H. apply in_bought, in_map_iff in H as (g & E & Hg).
  apply filter_In in Hg as [Hg _].
  apply in_map_iff in Hg as (k & <- & Hk). apply in_seq in Hk.
  exists k. split; [exact Hk|]. rewrite E. reflexivity.
Qed.

Lemma bins_ascending (n : nat) :
  forall lo,
    ascending
      (map fst (bought (map F (filter keep
                                 (map (fun k => (k, filter (in_bucket key k) data))
                                      (seq lo n))))))
    = true.
Proof.
  induction n as [|n IH]; intros lo; [reflexivity|].
  cbn [seq map filter].
  assert (Htail : forall d p,
             F (lo, filter (in_bucket key lo) data) = (Some d, Some p) ->
             ascending
               (d :: map fst
                       (bought (map F (filter keep
                          (map (fun k => (k, filter (in_bucket key k) data))
                               (seq (S lo) n))))))
             = true).
  { intros d p E. apply ascending_cons; [|apply IH].
    intros d' Hd'. apply in_map_iff in Hd' as (e & <- & He).
    apply events_of_bins in He as (k & Hk & Ek).
    apply (F_ordered lo k); [lia | now rewrite E | exact Ek]. }
  destruct (keep (lo, filter (in_bucket key lo) data)); [|apply IH].
  cbn [map]. rewrite bought_cons, map_app.
  destruct (F (lo, filter (in_bucket key lo) data)) as [[d|] [p|]] eqn:E;
    cbn [purchase map app]; try apply IH.
  apply (Htail d p). reflexivity.
Qed.

Lemma resample_ascending :
  ascending (map fst (bought (map F (filter keep (resample key data)))))
  = true.
Proof.
  unfold resample, span.
  destruct (map (fun b => key (timestamp b)) data) as [|k ks];
    [reflexivity|].
  cbv zeta. apply bins_ascending.
Qed.

End EventOrder.

Lemma filter_all {A : Type} (l : list A) : filter (fun _ => true) l = l.
Proof. induction l as [|a l IH]; cbn; [reflexivity | now rewrite IH]. Qed.

Lemma resample_events_ascending (key : date -> nat) (data : DataFrame)
    (F : bucket -> row) :
  (forall k k' d d',
     (k < k')%nat ->
     fst (F (k, filter (in_bucket key k) data)) = Some d ->
     fst (F (k', filter (in_bucket key k') data)) = Some d' ->
     date_ltb d d' = true) ->
  ascending (map fst (bought (map F (resample key data)))) = true.
Proof.
  intros H. rewrite <- (filter_all (resample key data)).
  apply resample_ascending. exact H.
Qed.

Lemma groupby_events_ascending (key : date -> nat) (data : DataFrame)
    (F : bucket -> row) :
  (forall k k' d d',
     (k < k')%nat ->
     fst (F (k, filter (in_bucket key k) data)) = Some d ->
     fst (F (k', filter (in_bucket key k') data)) = Some d' ->
     date_ltb d d' = true) ->
  ascending (map fst (bought (map F (groupby key data)))) = true.
Proof. intros H. unfold groupby. apply resample_ascending. exact H. Qed.

Lemma row_in_year_bin (data : DataFrame) (k : nat) (b : bar) :
  In b (filter (in_bucket year k) data) -> year (timestamp b) = k.
Proof.
  intros H. apply filter_In in H as [_ H]. apply Nat.eqb_eq in H. exact H.
Qed.

Lemma rolling_timing_events (data : DataFrame) (annual_investment : R)
    (value : float) (pts : list buy_event) :
  Rolling20Year.perfect_market_timing data annual_investment = Ok (value, pts) ->
  pts = bought (Rolling20Year.yearly_lows data).
Proof. intros H. apply returned_py in H as (last & _ & _ & H & _). exact H. Qed.

Lemma rolling_immediate_events (data : DataFrame) (annual_investment : R)
    (value : float) (pts : list buy_event) :
  Rolling20Year.immediate_investing data annual_investment = Ok (value, pts) ->
  pts = bought (Rolling20Year.yearly_first_days data).
Proof. intros H. apply returned_py in H as (last & _ & _ & H & _). exact H. Qed.

Lemma dashboard_events (name : StockAnalysis.strategy_name)
    (data : DataFrame) (annual_investment : R)
    (value : float) (pts : list buy_event) :
  StockAnalysis.strategies name data annual_investment = Ok (value, pts) ->
  pts = bought (reference_rows name data).
Proof.
  intros H. destruct name; cbn [StockAnalysis.strategies reference_rows] in *.
  - apply returned_py in H as (last & _ & _ & H & _). exact H.
  - apply returned in H as (last & _ & H & _). exact H.
  - apply returned in H as (last & _ & H & _). exact H.
  - apply returned_py in H as (last & _ & _ & H & _). exact H.
Qed.

Lemma yearly_lows_ascending (data : DataFrame) :
  ascending (map fst (bought (Rolling20Year.yearly_lows data))) = true.
Proof.
  apply resample_events_ascending. intros k k' d d' Hk E E'.
  cbn [fst] in E, E'. injection E as <-. injection E' as <-.
  apply date_ltb_years. exact Hk.
Qed.

Lemma yearly_first_days_ascending (data : DataFrame) :
  ascending (map fst (bought (Rolling20Year.yearly_first_days data))) = true.
Proof.
  apply resample_events_ascending. intros k k' d d' Hk E E'.
  cbn [fst] in E, E'. injection E as <-. injection E' as <-.
  apply date_ltb_years. exact Hk.
Qed.

Lemma dashboard_yearly_lows_ascending (data : DataFrame) :
  ascending (map fst (bought (StockAnalysis.yearly_lows data))) = true.
Proof.
  apply groupby_events_ascending. intros k k' d d' Hk E E'.
  cbn [fst snd] in E, E'.
  apply agg_idxmin_in in E as (b & Hb & <-).
  apply agg_idxmin_in in E' as (b' & Hb' & <-).
  apply date_ltb_years.
  rewrite (row_in_year_bin _ _ _ Hb), (row_in_year_bin _ _ _ Hb'). exact Hk.
Qed.

Lemma dashboard_yearly_peaks_ascending (data : DataFrame) :
  ascending (map fst (bought (StockAnalysis.yearly_peaks data))) = true.
Proof.
  apply groupby_events_ascending. intros k k' d d' Hk E E'.
  cbn [fst snd] in E, E'.
  apply agg_idxmax_in in E as (b & Hb & <-).
  apply agg_idxmax_in in E' as (b' & Hb' & <-).
  apply date_ltb_years.
  rewrite (row_in_year_bin _ _ _ Hb), (row_in_year_bin _ _ _ Hb'). exact Hk.
Qed.

Lemma dashboard_yearly_first_days_ascending (data : DataFrame) :
  ascending (map fst (bought (StockAnalysis.yearly_first_days data))) = true.
Proof.
  apply groupby_events_ascending. intros k k' d d' Hk E E'.
  cbn [fst] in E, E'. injection E as <-. injection E' as <-.
  apply date_ltb_years. exact Hk.
Qed.

Lemma monthly_first_days_ascending (data : DataFrame) :
  ascending (map fst (bought (StockAnalysis.monthly_first_days data))) = true.
Proof.
  apply resample_events_ascending. intros k k' d d' Hk E E'.
  cbn [fst] in E, E'. injection E as <-. injection E' as <-.
  apply date_ltb_MS. exact Hk.
Qed.

(** X20.  The buy events of every strategy are listed in strictly
    increasing order of their dates, whatever the order of the rows in the
    frame: the bins are visited in the order of their periods and each
    event is dated inside its period. *)
Theorem buy_events_are_in_date_order :
  forall (data : DataFrame) (annual_investment : R)
         (strategy_func : DataFrame -> R -> result simulation)
         (value : float) (pts : list buy_event),
    (strategy_func = Rolling20Year.perfect_market_timing
     \/ strategy_func = Rolling20Year.immediate_investing
     \/ exists name, strategy_func = StockAnalysis.strategies name) ->
    strategy_func data annual_investment = Ok (value, pts) ->
    ascending (map fst pts) = true.
Proof.
  intros data a f value pts Hf H.
  destruct Hf as [-> | [-> | [name ->]]].
  - apply rolling_timing_events in H as ->. apply yearly_lows_ascending.
  - apply rolling_immediate_events in H as ->.
    apply yearly_first_days_ascending.
  - apply dashboard_events in H as ->.
    destruct name; cbn [reference_rows].
    + apply dashboard_yearly_lows_ascending.
    + apply dashboard_yearly_first_days_ascending.
    + apply monthly_first_days_ascending.
    + apply dashboard_yearly_peaks_ascending.
Qed.

Lemma buy_events_are_in_date_order_witness :
  exists value pts,
    StockAnalysis.strategies StockAnalysis.DollarCostAveraging gap_year 1200
    = Ok (value, pts)
    /\ ascending (map fst pts) = true.
Proof.
  eexists. eexists. split; [reflexivity|].
  eapply (buy_events_are_in_date_order gap_year 1200
            (StockAnalysis.strategies StockAnalysis.DollarCostAveraging)).
  - right. right. exists StockAnalysis.DollarCostAveraging. reflexivity.
  - reflexivity.
Defined.

(** ** At most one event per bucket *)

Lemma month_index_MS (m : nat) : month_index (MS m) = m.
Proof.
  unfold month_index, MS. cbn [year month].
  pose proof (Nat.div_mod_eq m 12). lia.
Qed.

Lemma resample_keys (key : date -> nat) (data : DataFrame) :
  NoDup (map fst (resample key data)).
Proof.
  unfold resample. rewrite map_map. cbn [fst]. rewrite map_id.
  unfold span. destruct (map (fun b => key (timestamp b)) data);
    [constructor | apply seq_NoDup].
Qed.

Lemma filter_keys {A : Type} (f : A -> nat) (keep : A -> bool) (l : list A) :
  NoDup (map f l) -> NoDup (map f (filter keep l)).
Proof.
  induction l as [|a l IH]; cbn [map filter]; intros H; [constructor|].
  inversion H as [|? ? Hnotin Hnd]; subst.
  destruct (keep a); [|exact (IH Hnd)].
  cbn [map]. constructor; [|exact (IH Hnd)].
  intros Hin. apply Hnotin. apply in_map_iff in Hin as (x & E & Hx).
  apply filter_In in Hx as [Hx _]. rewrite <- E. apply in_map. exact Hx.
Qed.

(** Bins of distinct periods whose events are dated inside their period
    give events of distinct periods. *)
Lemma event_keys_distinct (key : date -> nat) (F : bucket -> row)
    (bins : list bucket) :
  NoDup (map fst bins) ->
  (forall g d p, In g bins -> F g = (Some d, Some p) -> key d = fst g) ->
  one_per_bucket key (bought (map F bins)).
Proof.
  unfold one_per_bucket.
  induction bins as [|g bins IH]; intros Hnd HF; [constructor|].
  cbn [map] in *. rewrite bought_cons, map_app.
  inversion Hnd as [|? ? Hnotin Hnd']; subst.
  pose proof (IH Hnd' (fun g' d p Hg' => HF g' d p (or_intror Hg'))) as IH'.
  destruct (F g) as [[d|] [p|]] eqn:E; cbn [purchase map app];
    try exact IH'.
  constructor; [|exact IH'].
  cbn [fst]. rewrite (HF g d p (or_introl eq_refl) E).
  intros Hin. apply Hnotin. apply in_map_iff in Hin as (e & Ee & He).
  apply in_bought, in_map_iff in He as (g' & Eg' & Hg').
  rewrite <- Ee, (HF g' (fst e) (snd e) (or_intror Hg') Eg').
  apply in_map. exact Hg'.
Qed.

Lemma rolling_timing_one_per_bucket (data : DataFrame) :
  one_per_bucket year (bought (Rolling20Year.yearly_lows data)).
Proof.
  apply event_keys_distinct; [apply resample_keys|].
  intros g d p _ E. injection E as <- _. reflexivity.
Qed.

Lemma rolling_immediate_one_per_bucket (data : DataFrame) :
  one_per_bucket year (bought (Rolling20Year.yearly_first_days data)).
Proof.
  apply event_keys_distinct; [apply resample_keys|].
  intros g d p _ E. injection E as <- _. reflexivity.
Qed.

Lemma dashboard_one_per_bucket (name : StockAnalysis.strategy_name)
    (data : DataFrame) :
  one_per_bucket (bucket_key name) (bought (reference_rows name data)).
Proof.
  destruct name; cbn [bucket_key reference_rows];
    apply event_keys_distinct;
    try (unfold groupby; apply filter_keys); try apply resample_keys;
    intros g d p Hg E.
  - injection E as Hd _. apply agg_idxmin_in in Hd as (b & Hb & <-).
    apply groupby_in_resample in Hg as [Hg _].
    apply (resample_rows year data g b Hg) in Hb as [_ Hb]. exact Hb.
  - injection E as <- _. reflexivity.
  - injection E as <- _. apply month_index_MS.
  - injection E as Hd _. apply agg_idxmax_in in Hd as (b & Hb & <-).
    apply groupby_in_resample in Hg as [Hg _].
    apply (resample_rows year data g b Hg) in Hb as [_ Hb]. exact Hb.
Qed.

Lemma dashboard_events_bounded (name : StockAnalysis.strategy_name)
    (data : DataFrame) (first last : bar) :
  chronological data = true ->
  hd_error data = Some first -> iloc_last data = Ok last ->
  (length (bought (reference_rows name data))
   <= buckets_between (bucket_key name) (timestamp first) (timestamp last))%nat.
Proof.
  intros Hchr Hfirst Hlast.
  assert (Hy : nondecreasing (map (fun b => year (timestamp b)) data)).
  { apply chronological_keys; [|exact Hchr].
    intros x y _ _. apply date_ltb_year. }
  assert (Hm : nondecreasing (map (fun b => month_index (timestamp b)) data)).
  { apply chronological_keys; [|exact Hchr]. apply date_ltb_month_index. }
  destruct name; cbn [bucket_key reference_rows].
  - apply events_of_groupby; assumption.
  - apply events_of_groupby; assumption.
  - apply events_of_resample; assumption.
  - apply events_of_groupby; assumption.
Qed.

(** C7: whenever a strategy returns on a chronological history, no two of
    its buy events are dated in the same bucket (calendar year; calendar
    month for dollar-cost averaging), and there are at most as many events
    as there are buckets from the one of the first date to the one of the
    last.  Covers the four strategies of [stock-analysis.py] and the two of
    [rolling-20year.py]; [immediate_investing] and [dollar_cost_averaging]
    of [stock-analysis.py] return on every such history. *)
Theorem buy_events_bounded_by_buckets :
  forall (data : DataFrame) (annual_investment : R) (first last : bar),
    chronological data = true ->
    hd_error data = Some first -> iloc_last data = Ok last ->
    (forall name v pts,
        StockAnalysis.strategies name data annual_investment = Ok (v, pts) ->
        one_per_bucket (bucket_key name) pts
        /\ (length pts
            <= buckets_between (bucket_key name)
                 (timestamp first) (timestamp last))%nat)
    /\ (forall v pts,
          Rolling20Year.perfect_market_timing data annual_investment
          = Ok (v, pts) ->
          one_per_bucket year pts
          /\ (length pts
              <= buckets_between year (timestamp first) (timestamp last))%nat)
    /\ (forall v pts,
          Rolling20Year.immediate_investing data annual_investment
          = Ok (v, pts) ->
          one_per_bucket year pts
          /\ (length pts
              <= buckets_between year (timestamp first) (timestamp last))%nat)
    /\ (exists v pts,
          StockAnalysis.immediate_investing data annual_investment
          = Ok (v, pts))
    /\ (exists v pts,
          StockAnalysis.dollar_cost_averaging data annual_investment
          = Ok (v, pts)).
Proof.
  intros data a first last Hchr Hfirst Hlast.
  assert (Hy : nondecreasing (map (fun b => year (timestamp b)) data)).
  { apply chronological_keys; [|exact Hchr].
    intros x y _ _. apply date_ltb_year. }
  split; [|split; [|split; [|split]]].
  - intros name v pts H. apply dashboard_events in H as ->. split.
    + apply dashboard_one_per_bucket.
    + apply dashboard_events_bounded; assumption.
  - intros v pts H. apply rolling_timing_events in H as ->. split.
    + apply rolling_timing_one_per_bucket.
    + apply events_of_resample; assumption.
  - intros v pts H. apply rolling_immediate_events in H as ->. split.
    + apply rolling_immediate_one_per_bucket.
    + apply events_of_resample; assumption.
  - eexists. eexists. apply valuation. exact Hlast.
  - eexists. eexists. apply valuation. exact Hlast.
Qed.

Lemma buy_events_bounded_by_buckets_witness :
  chronological gap_year = true
  /\ exists v pts,
       StockAnalysis.dollar_cost_averaging gap_year 1200 = Ok (v, pts)
       /\ one_per_bucket month_index pts
       /\ (length pts <= 25)%nat.
Proof.
  split; [reflexivity|].
  destruct (buy_events_bounded_by_buckets gap_year 1200 june_2020 june_2022
              eq_refl eq_refl eq_refl) as (H & _).
  eexists. eexists. split; [reflexivity|].
  exact (H StockAnalysis.DollarCostAveraging _ _ eq_refl).
Defined.

(** ** The first open of a period *)

Lemma agg_first_split (col : bar -> float) (bs : DataFrame) (x : R) :
  agg_first (map col bs) = Some x ->
  exists before b after,
    bs = before ++ b :: after
    /\ col b = Some x
    /\ forall b', In b' before -> col b' = None.
Proof.
  induction bs as [|b bs IH]; [discriminate|].
  unfold agg_first. cbn [map dropna flat_map].
  destruct (col b) as [r|] eqn:E; cbn [app].
  - intros H. injection H as <-. exists [], b, bs.
    split; [reflexivity|]. split; [exact E|]. intros b' [].
  - intros H. destruct (IH H) as (before & b0 & after & -> & Hb0 & Hnone).
    exists (b :: before), b0, after.
    split; [reflexivity|]. split; [exact Hb0|].
    intros b' [<- | Hb']; [exact E | apply Hnone; exact Hb'].
Qed.

Lemma first_open_events (key : date -> nat) (label : nat -> date)
    (data : DataFrame) (bins : list bucket) :
  (forall g, In g bins -> In g (resample key data)) ->
  forall d p,
    In (d, p)
       (bought (map (fun g : bucket =>
                       (Some (label (fst g)), agg_first (map Open (snd g))))
                    bins)) ->
    exists k before b after,
      d = label k
      /\ filter (in_bucket key k) data = before ++ b :: after
      /\ Open b = Some p
      /\ forall b', In b' before -> Open b' = None.
Proof.
  intros Hbins d p Hin. apply in_bought in Hin. cbn [fst snd] in Hin.
  apply in_map_iff in Hin as (g & E & Hg). injection E as Hd Hp.
  destruct (agg_first_split Open (snd g) p Hp)
    as (before & b & after & Hsplit & Hb & Hnone).
  exists (fst g), before, b, after.
  split; [now symmetry|]. split; [|split; assumption].
  rewrite <- Hsplit. symmetry. apply resample_bucket. apply Hbins. exact Hg.
Qed.

Lemma date_ltb_trans (a b c : date) :
  date_ltb a b = true -> date_ltb b c = true -> date_ltb a c = true.
Proof. rewrite !date_ltb_spec. lia. Qed.

Lemma increasing_tail (b : bar) (rest : DataFrame) :
  increasing (b :: rest) = true -> increasing rest = true.
Proof.
  destruct rest as [|b' rest]; [reflexivity|]. cbn [increasing].
  intros H. apply andb_true_iff in H as [_ H]. exact H.
Qed.

Lemma increasing_head (rest : DataFrame) :
  forall b, increasing (b :: rest) = true ->
    forall b', In b' rest -> date_ltb (timestamp b) (timestamp b') = true.
Proof.
  induction rest as [|x rest IH]; intros b H b' Hb'; [contradiction|].
  pose proof (increasing_tail _ _ H) as Ht.
  cbn [increasing] in H. apply andb_true_iff in H as [Hbx _].
  destruct Hb' as [<- | Hb']; [exact Hbx|].
  apply (date_ltb_trans _ (timestamp x)); [exact Hbx|].
  apply IH; assumption.
Qed.

(** In a frame in date order the rows of a bin are in date order too. *)
Lemma increasing_before (keep : bar -> bool) (data : DataFrame) :
  increasing data = true ->
  forall before b after,
    filter keep data = before ++ b :: after ->
    forall b', In b' before ->
      date_ltb (timestamp b') (timestamp b) = true.
Proof.
  induction data as [|x rest IH]; intros Hinc before b after E b' Hb'.
  - destruct before; discriminate.
  - pose proof (increasing_tail _ _ Hinc) as Ht.
    cbn [filter] in E. destruct (keep x) eqn:Hx; [|exact (IH Ht _ _ _ E _ Hb')].
    destruct before as [|y before']; [contradiction|].
    cbn [app] in E. injection E as <- E.
    destruct Hb' as [<- | Hb']; [|exact (IH Ht _ _ _ E _ Hb')].
    apply (increasing_head rest x Hinc).
    apply (proj1 (filter_In keep b rest)). rewrite E.
    apply in_or_app. right. now left.
Qed.

(** X21.  On a frame in date order, whenever [dollar_cost_averaging]
    returns it has bought in every calendar month that has an open: each
    buy event is dated the first of a month and priced at the open of the
    earliest row of that month whose open is not missing; every row with
    an open lies in a month that has a buy event.  [immediate_investing] of
    [stock-analysis.py] does the same by calendar year, dated 1 January. *)
Theorem first_open_of_the_period_is_bought :
  forall (data : DataFrame) (annual_investment : R)
         (value : float) (pts : list buy_event),
    chronological data = true ->
    (StockAnalysis.dollar_cost_averaging data annual_investment
     = Ok (value, pts) ->
     (forall d p, In (d, p) pts ->
        exists m before b after,
          d = MS m
          /\ filter (in_bucket month_index m) data = before ++ b :: after
          /\ Open b = Some p
          /\ forall b', In b' before ->
               Open b' = None
               /\ date_ltb (timestamp b') (timestamp b) = true)
     /\ (forall b o, In b data -> Open b = Some o ->
           exists p, In (MS (month_index (timestamp b)), p) pts))
    /\ (StockAnalysis.immediate_investing data annual_investment
        = Ok (value, pts) ->
        (forall d p, In (d, p) pts ->
           exists y before b after,
             d = mkdate y 1 1
             /\ filter (in_bucket year y) data = before ++ b :: after
             /\ Open b = Some p
             /\ forall b', In b' before ->
                  Open b' = None
                  /\ date_ltb (timestamp b') (timestamp b) = true)
        /\ (forall b o, In b data -> Open b = Some o ->
              exists p, In (mkdate (year (timestamp b)) 1 1, p) pts)).
Proof.
  intros data a value pts Hchr.
  apply chronological_parts in Hchr as [_ Hinc].
  split; intros H; apply returned in H as (last & _ & -> & _); split.
  - intros d p Hin.
    destruct (first_open_events month_index MS data
                (resample month_index data) (fun g Hg => Hg) d p Hin)
      as (m & before & b & after & Hd & Hsplit & Hb & Hnone).
    exists m, before, b, after. repeat split; try assumption.
    + apply Hnone. assumption.
    + apply (increasing_before _ data Hinc _ _ _ Hsplit). assumption.
  - intros b o Hb Ho.
    destruct (resample_covers month_index data b Hb) as (g & Hg & Hk & Hin).
    destruct (agg_present (map Open (snd g)) o) as (_ & _ & p & Hp).
    { rewrite <- Ho. apply in_map. exact Hin. }
    exists p. apply in_bought. cbn [fst snd].
    unfold StockAnalysis.monthly_first_days. apply in_map_iff.
    exists g. split; [|exact Hg].
    apply f_equal2; [apply f_equal, (f_equal MS); exact Hk | exact Hp].
  - intros d p Hin.
    destruct (first_open_events year to_timestamp data
                (groupby year data)
                (fun g Hg => proj1 (groupby_in_resample year data g Hg))
                d p Hin)
      as (y & before & b & after & Hd & Hsplit & Hb & Hnone).
    exists y, before, b, after. repeat split; try assumption.
    + apply Hnone. assumption.
    + apply (increasing_before _ data Hinc _ _ _ Hsplit). assumption.
  - intros b o Hb Ho.
    destruct (groupby_covers year data b Hb) as (g & Hg & Hk & Hin).
    destruct (agg_present (map Open (snd g)) o) as (_ & _ & p & Hp).
    { rewrite <- Ho. apply in_map. exact Hin. }
    exists p. apply in_bought. cbn [fst snd].
    unfold StockAnalysis.yearly_first_days. apply in_map_iff.
    exists g. split; [|exact Hg].
    change (mkdate (year (timestamp b)) 1 1)
      with (to_timestamp (year (timestamp b))).
    apply f_equal2; [apply f_equal, (f_equal to_timestamp); exact Hk | exact Hp].
Qed.

Lemma first_open_of_the_period_is_bought_witness :
  chronological gap_year = true
  /\ exists value pts,
       StockAnalysis.dollar_cost_averaging gap_year 1200 = Ok (value, pts)
       /\ (forall d p, In (d, p) pts ->
             exists m before b after,
               d = MS m
               /\ filter (in_bucket month_index m) gap_year
                  = before ++ b :: after
               /\ Open b = Some p
               /\ forall b', In b' before ->
                    Open b' = None
                    /\ date_ltb (timestamp b') (timestamp b) = true)
       /\ (forall b o, In b gap_year -> Open b = Some o ->
             exists p, In (MS (month_index (timestamp b)), p) pts).
Proof.
  split; [reflexivity|].
  eexists. eexists. split; [reflexivity|].
  eapply (proj1 (first_open_of_the_period_is_bought gap_year 1200 _ _
                   eq_refl)).
  reflexivity.
Defined.

(** ** The day of the month of the window starts *)

Lemma day_add_months (d : date) (n : nat) :
  (day (add_months d n) <= day d)%nat.
Proof. unfold add_months. cbn [day]. apply Nat.le_min_l. Qed.

Lemma day_window_start (start_date : date) (i j : nat) :
  (i <= j)%nat ->
  (day (window_start start_date j) <= day (window_start start_date i))%nat.
Proof.
  intros Hij. induction Hij as [|j Hij IH]; [apply Nat.le_refl|].
  unfold window_start in *. rewrite Nat.iter_succ.
  etransitivity; [apply day_add_months | exact IH].
Qed.

Lemma day_in_month (start_date : date) (i : nat) :
  (day (window_start start_date (S i))
   <= days_in_month (year (window_start start_date (S i)))
                    (month (window_start start_date (S i))))%nat.
Proof.
  unfold window_start. rewrite Nat.iter_succ.
  unfold add_months. cbn [year month day]. apply Nat.le_min_r.
Qed.

Lemma row_window (np_power : R -> R -> R)
    (fetch_stock_data : date -> date -> DataFrame) (today : date)
    (fuel : nat) (start_date : date) (years : nat) (annual_investment : R)
    (selected_strategies : list StockAnalysis.strategy_name)
    (rows : list StockAnalysis.rolling_result) :
  StockAnalysis.calculate_rolling_analysis np_power fetch_stock_data
    today fuel start_date years annual_investment selected_strategies
  = Some (Ok rows) ->
  forall index r,
    nth_error rows index = Some r ->
    StockAnalysis.Start_Date r
    = window_start start_date (index / length selected_strategies).
Proof.
  intros H index r Hr.
  unfold StockAnalysis.calculate_rolling_analysis in H. cbv zeta in H.
  destruct (rolling_loop_spec np_power fetch_stock_data _ _ _ _ _ _ _ _ H)
    as (n & new & E & _ & Hstarts & _).
  cbn [app] in E. subst new.
  apply (map_nth_error StockAnalysis.Start_Date) in Hr.
  rewrite Hstarts in Hr.
  destruct (length selected_strategies) as [|k] eqn:Hk.
  - exfalso. clear -Hr. cbn [repeat] in Hr.
    induction (seq 0 n) as [|i l IH]; cbn [flat_map app] in Hr;
      [destruct index; discriminate | exact (IH Hr)].
  - rewrite nth_error_blocks in Hr by lia.
    destruct (Nat.ltb_spec index (S k * n)); [|discriminate].
    injection Hr as <-. reflexivity.
Qed.

Lemma month_end_rolling_rows :
  exists rows,
    StockAnalysis.calculate_rolling_analysis Rpower (fun _ _ => two_years)
      (mkdate 2022 3 31) 4 (mkdate 2020 1 31) 2 1000
      [StockAnalysis.PerfectMarketTiming]
    = Some (Ok rows)
    /\ map StockAnalysis.Start_Date rows
       = [mkdate 2020 1 31; mkdate 2020 2 29; mkdate 2020 3 29].
Proof.
  apply (rolling_rows_of_windows Rpower (fun _ _ => two_years)
           (mkdate 2022 3 31) 4 (mkdate 2020 1 31) 2 1000
           [StockAnalysis.PerfectMarketTiming] 3).
  - reflexivity.
  - cbn. lia.
  - intros d name _. apply two_years_strategies_return.
  - intros i Hi.
    destruct i as [|[|[|i]]]; [| | |lia]; (split; [reflexivity | discriminate]).
  - left. reflexivity.
Qed.

(** X22.  The window starts of the rolling analysis are advanced by adding
    one month to the previous start, so a day of the month that was clipped
    to a shorter month is not restored: down the rows of the result the day
    of the month of [Start Date] never increases, and from the second window
    on it is a day of the month the window starts in. *)
Theorem window_start_day_never_increases :
  forall (np_power : R -> R -> R)
         (fetch_stock_data : date -> date -> DataFrame) (today : date)
         (fuel : nat) (start_date : date) (years : nat)
         (annual_investment : R)
         (selected_strategies : list StockAnalysis.strategy_name)
         (rows : list StockAnalysis.rolling_result),
    StockAnalysis.calculate_rolling_analysis np_power fetch_stock_data
      today fuel start_date years annual_investment selected_strategies
    = Some (Ok rows) ->
    forall (index index' : nat) (r r' : StockAnalysis.rolling_result),
      (index <= index')%nat ->
      nth_error rows index = Some r -> nth_error rows index' = Some r' ->
      (day (StockAnalysis.Start_Date r') <= day (StockAnalysis.Start_Date r)
       <= day start_date)%nat
      /\ (StockAnalysis.Start_Date r' <> start_date ->
          (day (StockAnalysis.Start_Date r')
           <= days_in_month (year (StockAnalysis.Start_Date r'))
                            (month (StockAnalysis.Start_Date r')))%nat).
Proof.
  intros pw fetch today fuel start years a sel rows H index index' r r'
    Hle Hr Hr'.
  rewrite (row_window _ _ _ _ _ _ _ _ _ H _ _ Hr),
    (row_window _ _ _ _ _ _ _ _ _ H _ _ Hr').
  assert (Hk : length sel <> 0%nat).
  { intros Hk.
    unfold StockAnalysis.calculate_rolling_analysis in H. cbv zeta in H.
    destruct (rolling_loop_spec pw fetch _ _ _ _ _ _ _ _ H)
      as (n & new & E & _ & Hstarts & _).
    cbn [app] in E. subst new.
    apply (map_nth_error StockAnalysis.Start_Date) in Hr.
    rewrite Hstarts, Hk in Hr. clear -Hr. cbn [repeat] in Hr.
    induction (seq 0 n) as [|i l IH]; cbn [flat_map app] in Hr;
      [destruct index; discriminate | exact (IH Hr)]. }
  split; [split|].
  - apply day_window_start. apply Nat.Div0.div_le_mono. exact Hle.
  - apply (day_window_start start 0). lia.
  - destruct (index' / length sel)%nat as [|i] eqn:Hq.
    + intros Hne. contradiction Hne. reflexivity.
    + intros _. apply day_in_month.
Qed.

Lemma window_start_day_never_increases_witness :
  exists rows r r',
    StockAnalysis.calculate_rolling_analysis Rpower (fun _ _ => two_years)
      (mkdate 2022 3 31) 4 (mkdate 2020 1 31) 2 1000
      [StockAnalysis.PerfectMarketTiming]
    = Some (Ok rows)
    /\ nth_error rows 1 = Some r /\ nth_error rows 2 = Some r'
    /\ StockAnalysis.Start_Date r = mkdate 2020 2 29
    /\ StockAnalysis.Start_Date r' = mkdate 2020 3 29
    /\ (day (StockAnalysis.Start_Date r') <= day (StockAnalysis.Start_Date r)
        <= day (mkdate 2020 1 31))%nat
    /\ (StockAnalysis.Start_Date r' <> mkdate 2020 1 31 ->
        (day (StockAnalysis.Start_Date r')
         <= days_in_month (year (StockAnalysis.Start_Date r'))
                          (month (StockAnalysis.Start_Date r')))%nat).
Proof.
  destruct month_end_rolling_rows as (rows & H & Hstarts).
  destruct rows as [|r0 [|r [|r' rest]]]; try discriminate Hstarts.
  injection Hstarts as _ Hr Hr' _.
  exists (r0 :: r :: r' :: rest), r, r'.
  split; [exact H|]. split; [reflexivity|]. split; [reflexivity|].
  split; [exact Hr|]. split; [exact Hr'|].
  apply (window_start_day_never_increases Rpower (fun _ _ => two_years)
           (mkdate 2022 3 31) 4 (mkdate 2020 1 31) 2 1000
           [StockAnalysis.PerfectMarketTiming] _ H 1%nat 2%nat);
    [lia | reflexivity | reflexivity].
Defined.
